(** * YouTube Companion backend: a shallow embedding of the request handlers

    The development follows the layout of the backend package:
    - [Text]: the [str] methods the handlers use ([strip], [startswith],
      [split], [len], slicing);
    - Python values, exceptions and the state-and-exception monad in which
      the handlers run;
    - [models.py]: the four tables and the session operations on them;
    - the external collaborators (the YouTube Data API client, the OAuth
      provider, the completion API) as an explicit environment;
    - [youtube_api.py], [ai_service.py] and [app.py], function by function;
    - the properties of the handlers.

    A [str] is modelled by the Rocq string of its UTF-8 encoding, so ASCII
    text is written as it is.  [strip] removes the white space of
    [str.isspace], whatever its code point, and lengths and slices count
    code points.  [str.lower] depends on the case mapping of the
    interpreter's Unicode tables and is a function of the environment. *)

From stdpp Require Import gmap strings list fin_maps sorting pretty.
From Stdlib Require Import ZArith Ascii.

#[local] Set Warnings "-register-all".
#[local] Open Scope Z_scope.

(** ** Python [str] methods *)

Module Text.

(** A byte that continues a code point, [10xxxxxx]; every other byte starts
    one. *)
Definition continuation (a : ascii) : bool :=
  let n := N_of_ascii a in
  ((128 <=? n) && (n <? 192))%N.

(** [len(s)]: the number of code points. *)
Fixpoint len (s : string) : nat :=
  match s with
  | EmptyString => O
  | String a s' => if continuation a then len s' else S (len s')
  end.

(** The UTF-8 encoding of a code point. *)
Definition encode (c : N) : string :=
  let byte (n : N) (rest : string) := String (ascii_of_N n) rest in
  (if c <? 128 then byte c EmptyString
   else if c <? 2048 then
     byte (192 + c / 64) (byte (128 + c mod 64) EmptyString)
   else if c <? 65536 then
     byte (224 + c / 4096)
          (byte (128 + (c / 64) mod 64) (byte (128 + c mod 64) EmptyString))
   else
     byte (240 + c / 262144)
          (byte (128 + (c / 4096) mod 64)
                (byte (128 + (c / 64) mod 64) (byte (128 + c mod 64) EmptyString))))%N.

(** The code points for which [str.isspace] holds: TAB to CR, FS to US,
    the space, NEL, the no-break space, the Ogham space mark, EN QUAD to
    HAIR SPACE, the line and paragraph separators, the narrow no-break
    space, the medium mathematical space and the ideographic space. *)
Definition spaces : list N :=
  [ 9; 10; 11; 12; 13; 28; 29; 30; 31; 32; 133; 160; 5760;
    8192; 8193; 8194; 8195; 8196; 8197; 8198; 8199; 8200; 8201; 8202;
    8232; 8233; 8239; 8287; 12288 ]%N.

Definition whitespace : list string := encode <$> spaces.

(** The bytes of [s] after the first [n]. *)
Fixpoint skip (n : nat) (s : string) : string :=
  match n, s with
  | S n', String _ s' => skip n' s'
  | _, _ => s
  end.

Fixpoint reverse_onto (acc s : string) : string :=
  match s with
  | EmptyString => acc
  | String a s' => reverse_onto (String a acc) s'
  end.

Definition reverse (s : string) : string := reverse_onto EmptyString s.

(** [s] without the one of [marks] it starts with, if any. *)
Definition strip_one (marks : list string) (s : string) : option string :=
  head (omap (λ w, if String.prefix w s then Some (skip (String.length w) s) else None)
             marks).

(** [s] without the [marks] it starts with; [fuel] bounds their number. *)
Fixpoint strip_left (marks : list string) (fuel : nat) (s : string) : string :=
  match fuel with
  | O => s
  | S fuel' =>
      match strip_one marks s with
      | Some s' => strip_left marks fuel' s'
      | None => s
      end
  end.

Definition lstrip (s : string) : string :=
  strip_left whitespace (String.length s) s.

(** [rstrip] is [lstrip] read from the end. *)
Definition rstrip (s : string) : string :=
  reverse (strip_left (reverse <$> whitespace) (String.length s) (reverse s)).

Definition strip (s : string) : string := rstrip (lstrip s).

Definition startswith (s p : string) : bool := String.prefix p s.

(** [s.split(sep)] for a non-empty separator, scanning left to right.
    [skip] counts the characters of a separator occurrence that are still to
    be passed over; [cur] is the piece being collected. *)
Fixpoint split_from (sep : string) (skip : nat) (cur s : string) : list string :=
  match s with
  | EmptyString => [cur]
  | String a s' =>
      match skip with
      | S k => split_from sep k cur s'
      | O =>
          if String.prefix sep s
          then cur :: split_from sep (Nat.pred (String.length sep)) EmptyString s'
          else split_from sep 0 (cur +:+ String a EmptyString) s'
      end
  end.

Definition split (s sep : string) : list string := split_from sep 0 EmptyString s.

(** The slice [s[:n]]: the first [n] code points. *)
Fixpoint slice_to (n : nat) (s : string) : string :=
  match s with
  | EmptyString => EmptyString
  | String a s' =>
      if continuation a then String a (slice_to n s')
      else
        match n with
        | O => EmptyString
        | S n' => String a (slice_to n' s')
        end
  end.

(** A NUL character occurs in [s]. *)
Fixpoint has_nul (s : string) : bool :=
  match s with
  | EmptyString => false
  | String a s' => Ascii.eqb a zero || has_nul s'
  end.

(** Truthiness of an [Optional[str]]: [None] and the empty string are falsy. *)
Definition truthy (o : option string) : bool :=
  match o with
  | Some (String _ _) => true
  | _ => false
  end.

End Text.

(** ** Python values, exceptions, results *)

(** A JSON document as the Python [json] module loads it; [JFloat] carries
    the literal. *)
Inductive json :=
| JNull
| JBool (b : bool)
| JInt (n : Z)
| JFloat (literal : string)
| JStr (s : string)
| JList (l : list json)
| JObj (d : gmap string json).

(** The exceptions that occur. [HTTPException] is FastAPI's; [LibraryError]
    stands for an exception raised inside a client library (the API client's
    [HttpError], a transport error, a JSON decoding error, an
    [IntegrityError] of the database driver) with its class name and its
    [str]. *)
Inductive exn :=
| HTTPException (status_code : Z) (detail : string)
| KeyError (key_repr : string)
| IndexError (msg : string)
| TypeError (msg : string)
| AttributeError (msg : string)
| ValueError (msg : string)
| LibraryError (cls msg : string).

Inductive result (A : Type) :=
| Return (a : A)
| Raise (e : exn).
Arguments Return {A} a.
Arguments Raise {A} e.

#[global] Instance result_ret : MRet result := λ A a, Return a.

#[global] Instance result_bind : MBind result := λ A B f r,
  match r with
  | Return a => f a
  | Raise e => Raise e
  end.

(** [repr] of a string key without quotes in it, as [KeyError] shows it. *)
Definition repr_str (k : string) : string := "'" +:+ k +:+ "'".

Definition type_name (v : json) : string :=
  match v with
  | JNull => "NoneType"
  | JBool _ => "bool"
  | JInt _ => "int"
  | JFloat _ => "float"
  | JStr _ => "str"
  | JList _ => "list"
  | JObj _ => "dict"
  end.

(** [v[k]] for a string key [k]. *)
Definition getitem (v : json) (k : string) : result json :=
  match v with
  | JObj d =>
      match d !! k with
      | Some x => Return x
      | None => Raise (KeyError (repr_str k))
      end
  | JStr _ => Raise (TypeError "string indices must be integers, not 'str'")
  | JList _ => Raise (TypeError "list indices must be integers or slices, not str")
  | _ => Raise (TypeError (repr_str (type_name v) +:+ " object is not subscriptable"))
  end.

(** [v[0]]. *)
Definition getitem0 (v : json) : result json :=
  match v with
  | JList (x :: _) => Return x
  | JList [] => Raise (IndexError "list index out of range")
  | JStr (String a _) => Return (JStr (String a EmptyString))
  | JStr EmptyString => Raise (IndexError "string index out of range")
  | JObj _ => Raise (KeyError "0")
  | _ => Raise (TypeError (repr_str (type_name v) +:+ " object is not subscriptable"))
  end.

(** [v.strip()]: only a [str] has the method. *)
Definition strip_method (v : json) : result string :=
  match v with
  | JStr s => Return (Text.strip s)
  | _ => Raise (AttributeError
                  (repr_str (type_name v) +:+ " object has no attribute 'strip'"))
  end.

(** [str(e)]. *)
Definition str (e : exn) : string :=
  match e with
  | HTTPException c d => pretty c +:+ ": " +:+ d
  | KeyError k => k
  | IndexError m | TypeError m | AttributeError m | ValueError m => m
  | LibraryError _ m => m
  end.

(** ** [models.py]: the tables *)

(** Nullable columns are options.  Points in time are integers, the ticks
    of the server clock: [created_at] is filled by the server default
    [now()], [updated_at] only by an UPDATE ([onupdate]). *)
Module Note.
Record t := mk {
  id : Z;
  video_id : string;
  title : option string;
  content : option string;
  tags : option (list string);
  created_at : Z;
  updated_at : option Z }.
Definition set_title (v : option string) (now : Z) (n : t) : t :=
  mk (id n) (video_id n) v (content n) (tags n) (created_at n) (Some now).
End Note.

Module EventLog.
Record t := mk {
  id : Z;
  action : string;
  details : string;
  timestamp : Z }.
End EventLog.

Module UserSession.
Record t := mk {
  id : Z;
  access_token : string;
  refresh_token : option string;
  token_uri : option string;
  client_id : option string;
  client_secret : option string;
  scopes : list string;
  created_at : Z }.
End UserSession.

Module Comment.
Record t := mk {
  id : Z;
  video_id : string;
  youtube_comment_id : string;
  parent_youtube_id : option string;
  text : string;
  created_at : Z }.
End Comment.

(** The database: the four tables in storage order, the sequences behind
    the serial primary keys, and the server clock read by [now()]. *)
Record database := mkdb {
  notes : list Note.t;
  logs : list EventLog.t;
  user_sessions : list UserSession.t;
  comments : list Comment.t;
  notes_id_seq : Z;
  logs_id_seq : Z;
  user_sessions_id_seq : Z;
  comments_id_seq : Z;
  clock : Z }.

Definition IntegrityError (constraint : string) : exn :=
  LibraryError "IntegrityError"
    ("duplicate key value violates unique constraint " +:+ constraint).

(** [db.add(models.EventLog(action=..., details=...)); db.commit()]. *)
Definition add_log (action details : string) (d : database) : database :=
  mkdb (notes d)
       (logs d ++ [EventLog.mk (logs_id_seq d) action details (clock d)])
       (user_sessions d) (comments d)
       (notes_id_seq d) (logs_id_seq d + 1) (user_sessions_id_seq d)
       (comments_id_seq d) (clock d).

(** [query(UserSession).filter(UserSession.access_token == token).first()]. *)
Definition session_by_token (token : string) (d : database) : option UserSession.t :=
  head (filter (λ s, UserSession.access_token s = token) (user_sessions d)).

(** The access tokens on file. *)
Definition session_tokens (d : database) : list string :=
  UserSession.access_token <$> user_sessions d.

(** [db.add(session); db.commit()] for a new [UserSession]: the column
    [access_token] is declared [unique]; the sequence value is consumed
    even when the INSERT is rejected. *)
Definition add_user_session
    (mk_row : Z → Z → UserSession.t) (d : database) : result UserSession.t * database :=
  let row := mk_row (user_sessions_id_seq d) (clock d) in
  let bump rows :=
    mkdb (notes d) (logs d) rows (comments d)
         (notes_id_seq d) (logs_id_seq d) (user_sessions_id_seq d + 1)
         (comments_id_seq d) (clock d) in
  if bool_decide (UserSession.access_token row ∈ session_tokens d)
  then (Raise (IntegrityError "user_sessions_access_token_key"), bump (user_sessions d))
  else (Return row, bump (user_sessions d ++ [row])).

(** [query(UserSession).filter(UserSession.access_token == token).delete();
    db.commit()]. *)
Definition delete_sessions_by_token (token : string) (d : database) : database :=
  mkdb (notes d) (logs d)
       (filter (λ s, UserSession.access_token s ≠ token) (user_sessions d))
       (comments d)
       (notes_id_seq d) (logs_id_seq d) (user_sessions_id_seq d)
       (comments_id_seq d) (clock d).

(** [query(Comment).filter(Comment.id == comment_id).first()]. *)
Definition comment_by_id (comment_id : Z) (d : database) : option Comment.t :=
  head (filter (λ c, Comment.id c = comment_id) (comments d)).

(** [db.add(new_comment); db.commit(); db.refresh(new_comment)]:
    [youtube_comment_id] is declared [unique]. *)
Definition add_comment_row
    (mk_row : Z → Z → Comment.t) (d : database) : result Comment.t * database :=
  let row := mk_row (comments_id_seq d) (clock d) in
  let bump rows :=
    mkdb (notes d) (logs d) (user_sessions d) rows
         (notes_id_seq d) (logs_id_seq d) (user_sessions_id_seq d)
         (comments_id_seq d + 1) (clock d) in
  if bool_decide (Comment.youtube_comment_id row ∈ (Comment.youtube_comment_id <$> comments d))
  then (Raise (IntegrityError "comments_youtube_comment_id_key"), bump (comments d))
  else (Return row, bump (comments d ++ [row])).

(** [db.delete(comment); db.commit()]: a DELETE by primary key. *)
Definition delete_comment_row (c : Comment.t) (d : database) : database :=
  mkdb (notes d) (logs d) (user_sessions d)
       (filter (λ c', Comment.id c' ≠ Comment.id c) (comments d))
       (notes_id_seq d) (logs_id_seq d) (user_sessions_id_seq d)
       (comments_id_seq d) (clock d).

(** [query(Note).filter(Note.video_id == video_id).first()]. *)
Definition note_by_video (video_id : string) (d : database) : option Note.t :=
  head (filter (λ n, Note.video_id n = video_id) (notes d)).

(** [db.add(note); db.commit()] for a new [Note]; no column is unique. *)
Definition add_note_row (mk_row : Z → Z → Note.t) (d : database) : Note.t * database :=
  let row := mk_row (notes_id_seq d) (clock d) in
  (row, mkdb (notes d ++ [row]) (logs d) (user_sessions d) (comments d)
             (notes_id_seq d + 1) (logs_id_seq d) (user_sessions_id_seq d)
             (comments_id_seq d) (clock d)).

(** The UPDATE the session flushes after [note.title = v] on a loaded row:
    nothing is sent when the attribute did not change; otherwise the row
    with that primary key gets the title and a fresh [updated_at]. *)
Definition update_note_title (n : Note.t) (v : option string) (d : database) : database :=
  if bool_decide (Note.title n = v) then d
  else
    mkdb ((λ n', if bool_decide (Note.id n' = Note.id n)
                 then Note.set_title v (clock d) n' else n') <$> notes d)
         (logs d) (user_sessions d) (comments d)
         (notes_id_seq d) (logs_id_seq d) (user_sessions_id_seq d)
         (comments_id_seq d) (clock d).

(** [order_by(Note.created_at.desc())]. *)
Definition newer_first (a b : Note.t) : Prop := Note.created_at b ≤ Note.created_at a.

#[global] Instance newer_first_dec a b : Decision (newer_first a b) :=
  Z_le_dec (Note.created_at b) (Note.created_at a).

Definition order_by_created_at_desc (l : list Note.t) : list Note.t :=
  merge_sort newer_first l.

(** ** The external collaborators *)

(** Resources of the YouTube Data API as the client hands them back: plain
    dicts.  A video resource keeps all its keys; of a comment resource and a
    thread resource only the keys on the path to the comment id are kept,
    each possibly missing. *)
Module VideoList.
Record t := mk { items : option (list (gmap string json)) }.
End VideoList.

Module ThreadList.
Record t := mk { items : option (list json) }.
End ThreadList.

Module ChannelList.
Record t := mk { items : option (list json) }.
End ChannelList.

Module PlaylistItemList.
Record t := mk { items : option (list json) }.
End PlaylistItemList.

Module CommentResource.
Record t := mk { id : option string }.
End CommentResource.

Module ThreadSnippet.
Record t := mk { topLevelComment : option CommentResource.t }.
End ThreadSnippet.

Module Thread.
Record t := mk { snippet : option ThreadSnippet.t }.
End Thread.

(** [google.oauth2.credentials.Credentials]. *)
Module Credentials.
Record t := mk {
  token : string;
  refresh_token : option string;
  token_uri : option string;
  client_id : option string;
  client_secret : option string;
  scopes : option (list string) }.
End Credentials.

(** [google_auth_oauthlib.flow.Flow] as [build_flow] configures it. *)
Module Flow.
Record t := mk {
  client_id : option string;
  client_secret : option string;
  auth_uri : string;
  token_uri : string;
  scopes : list string;
  redirect_uri : string }.
End Flow.

(** The response object of the HTTP client, by the two methods called on it. *)
Module HttpResponse.
Record t := mk {
  raise_for_status : result unit;
  json : result json }.
End HttpResponse.

(** The requests that leave the process, as they are recorded in the trace
    of a run. *)
Inductive call :=
| ChannelsList (part : string) (mine : bool)
| PlaylistItemsList (part : string) (playlistId : json) (maxResults : Z)
| VideosList (part id : string)
| VideosUpdate (part id : string) (snippet : json)
| CommentThreadsList (part videoId : string) (maxResults : Z) (textFormat : string)
| CommentThreadsInsert (part videoId textOriginal : string)
| CommentsInsert (part parentId textOriginal : string)
| CommentsDelete (id : string)
| FetchToken (flow : Flow.t) (code : string)
| RequestsPost (url : string) (headers : list (string * string))
| HttpxPost (url : string) (headers : list (string * string)) (body : json).

Section Backend.

(** [W] is the state of the world outside the process: whatever the remote
    services remember.  A remote call reads and changes it and either
    returns or raises. *)
Context {W : Type}.

Definition remote (A : Type) : Type := W → result A * W.

(** The object [build("youtube", "v3", credentials=creds)] returns, by the
    call chains the code runs on it, each ending in [.execute()]. *)
Record YouTube := mkYouTube {
  channels_list : string → bool → remote ChannelList.t;
  playlistItems_list : string → json → Z → remote PlaylistItemList.t;
  videos_list : string → string → remote VideoList.t;
  videos_update : string → string → json → remote (gmap string json);
  commentThreads_list : string → string → Z → string → remote ThreadList.t;
  commentThreads_insert : string → string → string → remote Thread.t;
  comments_insert : string → string → string → remote CommentResource.t;
  comments_delete : string → remote unit }.

(** Everything the backend takes from outside: the API client for a
    credential set (building it is taken to contact nobody), the token
    exchange of the OAuth flow, the two HTTP clients ([requests.post]
    answers with a response, kept by its status code), the process
    environment, the ILIKE operator of the storage layer
    ([ilike value pattern]), and two built-ins of the interpreter:
    [str.lower], with its Unicode case mapping, and [format], what an
    f-string makes of a value that is not a string. *)
Record Env := mkEnv {
  build : Credentials.t → YouTube;
  fetch_token : Flow.t → string → remote Credentials.t;
  requests_post : string → list (string * string) → remote Z;
  httpx_post : string → list (string * string) → json → remote HttpResponse.t;
  getenv : string → option string;
  ilike : string → string → bool;
  lower : string → string;
  format : json → string }.

(** ** The monad of a request: state and exceptions *)

Record state := mkstate {
  db : database;
  world : W;
  calls : list call;
  stdout : list string }.

Definition py (A : Type) : Type := state → result A * state.

#[global] Instance py_ret : MRet py := λ A a st, (Return a, st).

#[global] Instance py_bind : MBind py := λ A B f m st,
  match m st with
  | (Return a, st') => f a st'
  | (Raise e, st') => (Raise e, st')
  end.

Definition raise {A} (e : exn) : py A := λ st, (Raise e, st).

Definition lift {A} (r : result A) : py A := λ st, (r, st).

(** [try: body / except Exception as e: handler]. *)
Definition try_except {A} (body : py A) (handler : exn → py A) : py A := λ st,
  match body st with
  | (Return a, st') => (Return a, st')
  | (Raise e, st') => handler e st'
  end.

(** A remote call, recorded in the trace. *)
Definition execute {A} (c : call) (m : remote A) : py A := λ st,
  let '(r, w) := m (world st) in
  (r, mkstate (db st) w (calls st ++ [c]) (stdout st)).

Definition query {A} (f : database → A) : py A := λ st, (Return (f (db st)), st).

Definition commit (f : database → database) : py unit := λ st,
  (Return (), mkstate (f (db st)) (world st) (calls st) (stdout st)).

Definition commit_checked {A} (f : database → result A * database) : py A := λ st,
  let '(r, d) := f (db st) in
  (r, mkstate d (world st) (calls st) (stdout st)).

(** The driver refuses a statement one of whose string parameters holds a
    NUL character: it raises [ValueError] before anything is sent, so the
    statement writes nothing.  Of the parameters of a statement the strings
    that come from the request (path, query and body) are listed: the
    database stores no NUL, the ids and tokens that the platform and the
    provider issue are visible ASCII, and a header cannot carry one. *)
Definition nul_error : exn :=
  ValueError "A string literal cannot contain NUL (0x00) characters.".

Definition bound (params : list string) : py unit :=
  if forallb (λ s, negb (Text.has_nul s)) params then mret () else raise nul_error.

Definition print (line : string) : py unit := λ st,
  (Return (), mkstate (db st) (world st) (calls st) (stdout st ++ [line])).

(** [d[k]] on a dict of which only the key [k] is modelled. *)
Definition subscript {A} (o : option A) (k : string) : py A :=
  match o with
  | Some x => mret x
  | None => raise (KeyError (repr_str k))
  end.

(** What FastAPI answers for the outcome of a handler: 200, the status of a
    raised [HTTPException], or 500 for any other exception. *)
Definition status_of {A} (r : result A) : Z :=
  match r with
  | Return _ => 200
  | Raise (HTTPException c _) => c
  | Raise _ => 500
  end.

Variable env : Env.

(** ** [youtube_api.py] *)

(** The session dict of [get_youtube_from_db] always has its six keys, so
    the defaults of [session.get] never apply. *)
Definition get_youtube_client (session : UserSession.t) : YouTube :=
  build env
    (Credentials.mk
       (UserSession.access_token session)
       (UserSession.refresh_token session)
       (UserSession.token_uri session)
       (UserSession.client_id session)
       (UserSession.client_secret session)
       (Some (UserSession.scopes session))).

(** [sep.join(items)]: every item has to be a [str]; the first one that is
    not is reported with its index. *)
Fixpoint str_items (i : nat) (items : list json) : result (list string) :=
  match items with
  | [] => Return []
  | JStr s :: rest => tail ← str_items (S i) rest; Return (s :: tail)
  | v :: _ =>
      Raise (TypeError ("sequence item " +:+ pretty i +:+ ": expected str instance, "
                        +:+ type_name v +:+ " found"))
  end.

Fixpoint join (sep : string) (items : list string) : string :=
  match items with
  | [] => EmptyString
  | [s] => s
  | s :: rest => s +:+ sep +:+ join sep rest
  end.

Definition join_ids (video_ids : list json) : result string :=
  ids ← str_items 0 video_ids; Return (join "," ids).

(** [[item["contentDetails"]["videoId"] for item in items]]. *)
Fixpoint video_ids_of (items : list json) : result (list json) :=
  match items with
  | [] => Return []
  | item :: rest =>
      details ← getitem item "contentDetails";
      video_id ← getitem details "videoId";
      ids ← video_ids_of rest;
      Return (video_id :: ids)
  end.

Definition list_my_videos (youtube : YouTube) : py (list (gmap string json)) :=
  let max_results := 20 in
  ch_response ← execute (ChannelsList "contentDetails" true)
                        (channels_list youtube "contentDetails" true);
  match default [] (ChannelList.items ch_response) with
  | [] => mret []
  | channel :: _ =>
      details ← lift (getitem channel "contentDetails");
      related ← lift (getitem details "relatedPlaylists");
      uploads_playlist_id ← lift (getitem related "uploads");
      playlist_response ←
        execute (PlaylistItemsList "contentDetails" uploads_playlist_id max_results)
                (playlistItems_list youtube "contentDetails" uploads_playlist_id max_results);
      video_ids ← lift (video_ids_of (default [] (PlaylistItemList.items playlist_response)));
      match video_ids with
      | [] => mret []
      | _ =>
          ids ← lift (join_ids video_ids);
          videos_response ← execute (VideosList "snippet,statistics" ids)
                                    (videos_list youtube "snippet,statistics" ids);
          mret (default [] (VideoList.items videos_response))
      end
  end.

Definition fetch_video_details (youtube : YouTube) (video_id : string)
    : py (option (gmap string json)) :=
  response ← execute (VideosList "snippet,statistics" video_id)
                     (videos_list youtube "snippet,statistics" video_id);
  let items := default [] (VideoList.items response) in
  match items with
  | [] => mret None
  | item :: _ => mret (Some item)
  end.

(** [snippet[k] = v]: item assignment needs a dict. *)
Definition setitem (v : json) (k : string) (x : json) : result json :=
  match v with
  | JObj d => Return (JObj (<[k := x]> d))
  | JList _ => Raise (TypeError "list indices must be integers or slices, not str")
  | _ => Raise (TypeError (repr_str (type_name v)
                           +:+ " object does not support item assignment"))
  end.

Definition update_video_info (youtube : YouTube) (video_id title description : string)
    : py (gmap string json) :=
  video_data ← execute (VideosList "snippet" video_id)
                       (videos_list youtube "snippet" video_id);
  let items := default [] (VideoList.items video_data) in
  match items with
  | [] => raise (ValueError ("Video " +:+ video_id +:+ " not found on YouTube."))
  | item :: _ =>
      snippet ← subscript (item !! "snippet") "snippet";
      snippet ← lift (setitem snippet "title" (JStr title));
      snippet ← lift (setitem snippet "description" (JStr description));
      execute (VideosUpdate "snippet" video_id snippet)
              (videos_update youtube "snippet" video_id snippet)
  end.

(** What the two assignments [snippet["title"] = title] and
    [snippet["description"] = description] make of a snippet dict. *)
Definition merged_snippet (fields : gmap string json) (title description : string)
    : gmap string json :=
  <["description" := JStr description]> (<["title" := JStr title]> fields).

Definition fetch_video_comments (youtube : YouTube) (video_id : string) : py (list json) :=
  response ← execute (CommentThreadsList "snippet,replies" video_id 50 "plainText")
                     (commentThreads_list youtube "snippet,replies" video_id 50 "plainText");
  mret (default [] (ThreadList.items response)).

Definition post_comment (youtube : YouTube) (video_id text : string) : py string :=
  response ← execute (CommentThreadsInsert "snippet" video_id text)
                     (commentThreads_insert youtube "snippet" video_id text);
  snippet ← subscript (Thread.snippet response) "snippet";
  top ← subscript (ThreadSnippet.topLevelComment snippet) "topLevelComment";
  subscript (CommentResource.id top) "id".

Definition reply_to_comment (youtube : YouTube) (parent_id text : string) : py string :=
  response ← execute (CommentsInsert "snippet" parent_id text)
                     (comments_insert youtube "snippet" parent_id text);
  subscript (CommentResource.id response) "id".

Definition delete_comment (youtube : YouTube) (youtube_comment_id : string) : py unit :=
  execute (CommentsDelete youtube_comment_id) (comments_delete youtube youtube_comment_id).

(** ** [ai_service.py] *)

Definition missing_key_titles : list string :=
  [ "Error: GROQ_API_KEY is missing from .env";
    "Get a free key at console.groq.com";
    "Then restart the server" ].

Definition fallback_titles (current_title : string) : list string :=
  [ "You Won't Believe What Happened with " +:+ current_title;
    "The Truth About " +:+ current_title +:+ " Nobody Tells You";
    "I Tried " +:+ current_title +:+ " for 30 Days — Here's What Happened" ].

Definition error_titles (e : exn) : list string :=
  [ "Error: " +:+ Text.slice_to 60 (str e);
    "Check your GROQ_API_KEY in .env";
    "Check server logs for details" ].

Definition groq_url : string := "https://api.groq.com/openai/v1/chat/completions".

Definition groq_prompt (current_title : string) : string :=
  "You are a YouTube growth expert. "
  +:+ "Give me exactly 3 viral, click-worthy YouTube titles for a video currently titled: '"
  +:+ current_title +:+ "'. "
  +:+ "Return ONLY the 3 titles separated by a pipe character | with no extra text, numbering, or explanation. "
  +:+ "Example format: Title One | Title Two | Title Three".

Definition groq_headers (api_key : string) : list (string * string) :=
  [ ("Authorization", "Bearer " +:+ api_key); ("Content-Type", "application/json") ].

Definition groq_body (prompt : string) : json :=
  JObj (<["model" := JStr "llama-3.3-70b-versatile"]>
       (<["messages" := JList [JObj (<["role" := JStr "user"]>
                                    (<["content" := JStr prompt]> ∅))]]>
       (<["temperature" := JFloat "0.9"]>
       (<["max_tokens" := JInt 200]> ∅)))).

(** What the [async with] block does with the response:
    [response.raise_for_status()], [data = response.json()] and
    [data["choices"][0]["message"]["content"].strip()]. *)
Definition completion_text (response : HttpResponse.t) : result string :=
  _ ← HttpResponse.raise_for_status response;
  data ← HttpResponse.json response;
  choices ← getitem data "choices";
  choice ← getitem0 choices;
  message ← getitem choice "message";
  content ← getitem message "content";
  strip_method content.

(** The pieces of the answer: [[t.strip() for t in raw_text.split("|")]]. *)
Definition parse_titles (raw_text : string) : list string :=
  Text.strip <$> Text.split raw_text "|".

Definition generate_viral_titles (current_title : string) : py (list string) :=
  match getenv env "GROQ_API_KEY" with
  | Some (String a k) =>
      let api_key := String a k in
      let prompt := groq_prompt current_title in
      try_except
        (response ← execute (HttpxPost groq_url (groq_headers api_key) (groq_body prompt))
                            (httpx_post env groq_url (groq_headers api_key) (groq_body prompt));
         raw_text ← lift (completion_text response);
         let titles := parse_titles raw_text in
         if bool_decide (length titles < 3)%nat
         then mret (fallback_titles current_title)
         else mret (take 3 titles))
        (λ e, _ ← print ("[AI ERROR] " +:+ str e); mret (error_titles e))
  | _ => mret missing_key_titles
  end.

(** ** [schemas.py]: request bodies *)

Record VideoMetadataUpdate := mkVideoMetadataUpdate {
  vmu_title : string;
  vmu_description : string }.

Record CommentCreate := mkCommentCreate {
  cc_text : string;
  cc_parent_id : option string }.

Record NoteCreate := mkNoteCreate {
  nc_video_id : string;
  nc_title : option string;
  nc_content : string;
  nc_tags : list string }.

Record NoteUpdate := mkNoteUpdate {
  nu_title : option string;
  nu_content : option string;
  nu_tags : option (list string) }.

(** ** [schemas.py]: response models *)

Record NoteResponse := mkNoteResponse {
  nr_id : Z;
  nr_video_id : string;
  nr_title : option string;
  nr_content : option string;
  nr_tags : list string;
  nr_created_at : Z }.

Record CommentResponse := mkCommentResponse {
  cr_id : Z;
  cr_video_id : string;
  cr_youtube_comment_id : string;
  cr_parent_youtube_id : option string;
  cr_text : string;
  cr_created_at : Z }.

(** ** [app.py] *)

(** The constant the module means to bind to [REDIRECT_URI]. *)
Definition REDIRECT_URI : string := "https://your-render-url.onrender.com/auth/callback".

Definition SCOPES : list string := [ "https://www.googleapis.com/auth/youtube.force-ssl" ].

Definition log_event (action details : string) : py unit :=
  commit (add_log action details).

Definition get_token_from_header (authorization : option string) : py string :=
  match authorization with
  | Some (String a h) =>
      let authorization := String a h in
      if Text.startswith authorization "Bearer "
      then
        match Text.split authorization "Bearer " !! 1%nat with
        | Some t => mret (Text.strip t)
        | None => raise (IndexError "list index out of range")
        end
      else raise (HTTPException 401 "Missing or invalid Authorization header.")
  | _ => raise (HTTPException 401 "Missing or invalid Authorization header.")
  end.

Definition get_youtube_from_db (token : string) : py YouTube :=
  session ← query (session_by_token token);
  match session with
  | None => raise (HTTPException 401 "Session not found. Please log in again via /login.")
  | Some session => mret (get_youtube_client session)
  end.

Definition build_flow : Flow.t :=
  Flow.mk (getenv env "GOOGLE_CLIENT_ID") (getenv env "GOOGLE_CLIENT_SECRET")
          "https://accounts.google.com/o/oauth2/auth"
          "https://oauth2.googleapis.com/token"
          SCOPES REDIRECT_URI.

(** [GET /auth/callback]; the result is the URL of the redirect. *)
Definition auth_callback (code : option string) : py string :=
  match code with
  | Some (String a c) =>
      let code := String a c in
      let flow := build_flow in
      creds ← execute (FetchToken flow code) (fetch_token env flow code);
      existing ← query (session_by_token (Credentials.token creds));
      _ ← match existing with
          | Some _ => mret ()
          | None =>
              _ ← commit_checked (add_user_session (λ id now,
                     UserSession.mk id
                       (Credentials.token creds)
                       (Credentials.refresh_token creds)
                       (Credentials.token_uri creds)
                       (Credentials.client_id creds)
                       (Credentials.client_secret creds)
                       (match Credentials.scopes creds with
                        | Some (x :: l) => x :: l
                        | _ => []
                        end)
                       now));
              mret ()
          end;
      _ ← log_event "GOOGLE_LOGIN_SUCCESS" "User authenticated via Google OAuth.";
      mret ("http://localhost:3000/?token=" +:+ Credentials.token creds)
  | _ => raise (HTTPException 400 "Missing code from Google callback.")
  end.

Definition revoke_headers : list (string * string) :=
  [ ("content-type", "application/x-www-form-urlencoded") ].

Definition revoke_url (token : string) : string :=
  "https://oauth2.googleapis.com/revoke?token=" +:+ token.

(** [POST /logout]. *)
Definition logout (authorization : option string) : py string :=
  token ← get_token_from_header authorization;
  _ ← execute (RequestsPost (revoke_url token) revoke_headers)
              (requests_post env (revoke_url token) revoke_headers);
  _ ← commit (delete_sessions_by_token token);
  _ ← log_event "LOGOUT" "User revoked OAuth token.";
  mret "Logged out successfully.".

Definition youtube_api_error {A} (e : exn) : py A :=
  raise (HTTPException 400 ("YouTube API error: " +:+ str e)).

(** Truthiness of what [fetch_video_details] returns: [None] and the empty
    dict are falsy. *)
Definition video_truthy (video : option (gmap string json)) : bool :=
  match video with
  | Some item => negb (bool_decide (item = ∅))
  | None => false
  end.

(** [GET /videos/{video_id}]. *)
Definition get_video (video_id : string) (authorization : option string)
    : py (option (gmap string json)) :=
  token ← get_token_from_header authorization;
  youtube ← get_youtube_from_db token;
  video ← fetch_video_details youtube video_id;
  if video_truthy video
  then
    _ ← bound [video_id];
    _ ← log_event "VIDEO_FETCHED" ("Fetched details for video_id=" +:+ video_id);
    mret video
  else raise (HTTPException 404 ("Video " +:+ video_id +:+ " not found on YouTube.")).

(** [PUT /videos/{video_id}/metadata]. *)
Definition update_metadata (video_id : string) (body : VideoMetadataUpdate)
    (authorization : option string) : py (string * string) :=
  token ← get_token_from_header authorization;
  youtube ← get_youtube_from_db token;
  _ ← try_except
        (update_video_info youtube video_id (vmu_title body) (vmu_description body))
        youtube_api_error;
  _ ← bound [video_id];
  note ← query (note_by_video video_id);
  _ ← bound [vmu_title body];
  _ ← match note with
      | None =>
          commit (λ d,
            (add_note_row (λ id now,
               Note.mk id video_id (Some (vmu_title body)) None (Some []) now None) d).2)
      | Some note => commit (update_note_title note (Some (vmu_title body)))
      end;
  _ ← log_event "VIDEO_METADATA_UPDATED"
                ("video_id=" +:+ video_id +:+ " title='" +:+ vmu_title body +:+ "'");
  mret ("success", "Video title and description updated on YouTube.").

(** [GET /videos/{video_id}/comments]. *)
Definition get_comments (video_id : string) (authorization : option string)
    : py (list json) :=
  token ← get_token_from_header authorization;
  youtube ← get_youtube_from_db token;
  comments ← try_except (fetch_video_comments youtube video_id) youtube_api_error;
  _ ← bound [video_id];
  _ ← log_event "COMMENTS_FETCHED" ("video_id=" +:+ video_id);
  mret comments.

(** The [try] block of [add_comment]. *)
Definition insert_remote (youtube : YouTube) (video_id : string) (body : CommentCreate)
    : py string :=
  match cc_parent_id body with
  | Some (String a p) => reply_to_comment youtube (String a p) (cc_text body)
  | _ => post_comment youtube video_id (cc_text body)
  end.

(** [POST /videos/{video_id}/comments]. *)
Definition add_comment (video_id : string) (body : CommentCreate)
    (authorization : option string) : py Comment.t :=
  token ← get_token_from_header authorization;
  youtube ← get_youtube_from_db token;
  yt_comment_id ← try_except (insert_remote youtube video_id body) youtube_api_error;
  _ ← bound (video_id :: cc_text body :: option_list (cc_parent_id body));
  new_comment ← commit_checked (add_comment_row (λ id now,
                  Comment.mk id video_id yt_comment_id (cc_parent_id body)
                             (cc_text body) now));
  let action := if Text.truthy (cc_parent_id body)
                then "REPLY_POSTED" else "COMMENT_POSTED" in
  _ ← log_event action
                ("video_id=" +:+ video_id +:+ " yt_comment_id=" +:+ yt_comment_id);
  mret new_comment.

(** [DELETE /comments/{comment_id}]. *)
Definition remove_comment (comment_id : Z) (authorization : option string)
    : py (string * string) :=
  token ← get_token_from_header authorization;
  youtube ← get_youtube_from_db token;
  comment ← query (comment_by_id comment_id);
  match comment with
  | None => raise (HTTPException 404 "Comment not found in local DB.")
  | Some comment =>
      _ ← try_except (delete_comment youtube (Comment.youtube_comment_id comment))
                     youtube_api_error;
      let yt_id := Comment.youtube_comment_id comment in
      _ ← commit (delete_comment_row comment);
      _ ← log_event "COMMENT_DELETED" ("yt_comment_id=" +:+ yt_id);
      mret ("success", "Comment deleted from YouTube and local DB.")
  end.

(** The search filter of [get_notes]: [content ILIKE p OR title ILIKE p];
    a NULL column matches nothing. *)
Definition matches_search (search : string) (n : Note.t) : Prop :=
  let p := "%" +:+ search +:+ "%" in
  from_option (λ v, ilike env v p = true) False (Note.content n)
  ∨ from_option (λ v, ilike env v p = true) False (Note.title n).

#[global] Instance matches_search_dec search n : Decision (matches_search search n).
Proof. unfold matches_search. destruct (Note.content n), (Note.title n); simpl; apply _. Defined.

(** The tag test of [get_notes]:
    [any(t.strip().lower() == tag_lower for t in (n.tags or []))]. *)
Definition has_tag (tag_lower : string) (n : Note.t) : Prop :=
  Exists (λ t, lower env (Text.strip t) = tag_lower) (default [] (Note.tags n)).

#[global] Instance has_tag_dec tag_lower n : Decision (has_tag tag_lower n).
Proof. unfold has_tag. apply _. Defined.

(** [GET /videos/{video_id}/notes]. *)
Definition get_notes (video_id : string) (search tag : option string) : py (list Note.t) :=
  _ ← bound (video_id :: match search with
                         | Some (String a s) => [String a s]
                         | _ => []
                         end);
  rows ← query notes;
  let selected := filter (λ n, Note.video_id n = video_id) rows in
  let selected :=
    match search with
    | Some (String a s) => filter (matches_search (String a s)) selected
    | _ => selected
    end in
  let notes := order_by_created_at_desc selected in
  match tag with
  | Some (String a t) =>
      let tag_lower := lower env (Text.strip (String a t)) in
      mret (filter (has_tag tag_lower) notes)
  | _ => mret notes
  end.

(** [POST /videos/{video_id}/notes]. *)
Definition create_note (video_id : string) (body : NoteCreate) : py Note.t :=
  _ ← bound (video_id :: nc_content body :: option_list (nc_title body));
  note ← commit_checked (λ d,
           let '(row, d') :=
             add_note_row (λ id now,
               Note.mk id video_id (nc_title body) (Some (nc_content body))
                       (Some (nc_tags body)) now None) d in
           (Return row, d'));
  _ ← log_event "NOTE_CREATED"
                ("video_id=" +:+ video_id +:+ " note_id=" +:+ pretty (Note.id note));
  mret note.

(** [query(Note).filter(Note.id == note_id).first()]. *)
Definition note_by_id (note_id : Z) (d : database) : option Note.t :=
  head (filter (λ n, Note.id n = note_id) (notes d)).

(** The UPDATE the session flushes for the attributes assigned on a loaded
    row: the columns whose value changed are set, with a fresh
    [updated_at], on the row with that primary key; nothing is sent when
    none changed. *)
Definition update_note_columns (n : Note.t) (title content : option string)
    (tags : option (list string)) (d : database) : database :=
  let t := bool_decide (Note.title n ≠ title) in
  let c := bool_decide (Note.content n ≠ content) in
  let g := bool_decide (Note.tags n ≠ tags) in
  if t || c || g then
    mkdb ((λ n', if bool_decide (Note.id n' = Note.id n)
                 then Note.mk (Note.id n') (Note.video_id n')
                              (if t then title else Note.title n')
                              (if c then content else Note.content n')
                              (if g then tags else Note.tags n')
                              (Note.created_at n') (Some (clock d))
                 else n') <$> notes d)
         (logs d) (user_sessions d) (comments d)
         (notes_id_seq d) (logs_id_seq d) (user_sessions_id_seq d)
         (comments_id_seq d) (clock d)
  else d.

(** [db.delete(note); db.commit()]. *)
Definition delete_note_row (n : Note.t) (d : database) : database :=
  mkdb (filter (λ n', Note.id n' ≠ Note.id n) (notes d))
       (logs d) (user_sessions d) (comments d)
       (notes_id_seq d) (logs_id_seq d) (user_sessions_id_seq d)
       (comments_id_seq d) (clock d).

(** [GET /videos]. *)
Definition list_videos (authorization : option string) : py (list (gmap string json)) :=
  token ← get_token_from_header authorization;
  youtube ← get_youtube_from_db token;
  videos ← try_except (list_my_videos youtube) youtube_api_error;
  _ ← log_event "VIDEOS_LISTED"
                ("Fetched " +:+ pretty (Z.of_nat (length videos))
                 +:+ " videos from channel.");
  mret videos.

(** [POST /videos/{video_id}/suggestions]; the body is any JSON object, of
    which the entry ["title"] is read.  The title is only ever put into
    f-strings, by [generate_viral_titles] and here: a string as it is, any
    other value as [format] renders it. *)
Definition get_ai_suggestions (video_id : string) (data : gmap string json)
    : py (list string) :=
  let current_title := match data !! "title" with
                       | Some (JStr s) => s
                       | Some v => format env v
                       | None => "YouTube Video"
                       end in
  titles ← generate_viral_titles current_title;
  _ ← bound [video_id; current_title];
  _ ← log_event "AI_SUGGESTIONS_GENERATED"
                ("video_id=" +:+ video_id +:+ " base_title='" +:+ current_title +:+ "'");
  mret titles.

(** [PUT /notes/{note_id}]. *)
Definition update_note (note_id : Z) (body : NoteUpdate) : py (option Note.t) :=
  note ← query (note_by_id note_id);
  match note with
  | None => raise (HTTPException 404 "Note not found.")
  | Some note =>
      let title := match nu_title body with
                   | Some v => Some v
                   | None => Note.title note
                   end in
      let content := match nu_content body with
                     | Some v => Some v
                     | None => Note.content note
                     end in
      let tags := match nu_tags body with
                  | Some v => Some v
                  | None => Note.tags note
                  end in
      _ ← bound ((if bool_decide (Note.title note ≠ title) then option_list title else [])
                 ++ (if bool_decide (Note.content note ≠ content)
                     then option_list content else []));
      _ ← commit (update_note_columns note title content tags);
      refreshed ← query (note_by_id note_id);
      _ ← log_event "NOTE_UPDATED" ("note_id=" +:+ pretty note_id);
      mret refreshed
  end.

(** [DELETE /notes/{note_id}]. *)
Definition delete_note (note_id : Z) : py (string * string) :=
  note ← query (note_by_id note_id);
  match note with
  | None => raise (HTTPException 404 "Note not found.")
  | Some note =>
      _ ← commit (delete_note_row note);
      _ ← log_event "NOTE_DELETED" ("note_id=" +:+ pretty note_id);
      mret ("success", "Note deleted.")
  end.

(** ** Routes with a [response_model]

    What a handler returns under [response_model] is validated against the
    model after the handler has returned, so after its commits; a value the
    model refuses makes the route answer 500. *)
Definition response_validation_error : exn :=
  LibraryError "ResponseValidationError" "Input should be a valid list".

Definition respond {A B} (validate : A → result B) (handler : py A) : py B :=
  a ← handler; lift (validate a).

(** [NoteResponse]: [tags: List[str]] refuses a note whose tags are NULL;
    the other columns fit the model as they are stored. *)
Definition note_response (n : Note.t) : result NoteResponse :=
  match Note.tags n with
  | Some tags =>
      Return (mkNoteResponse (Note.id n) (Note.video_id n) (Note.title n)
                             (Note.content n) tags (Note.created_at n))
  | None => Raise response_validation_error
  end.

(** [List[NoteResponse]]. *)
Definition notes_response (notes : list Note.t) : result (list NoteResponse) :=
  mapM note_response notes.

(** [CommentResponse]: a mirror row always fits. *)
Definition comment_response (c : Comment.t) : result CommentResponse :=
  Return (mkCommentResponse (Comment.id c) (Comment.video_id c)
                            (Comment.youtube_comment_id c)
                            (Comment.parent_youtube_id c) (Comment.text c)
                            (Comment.created_at c)).

(** Session resolution, the first two lines of every protected handler:
    what they return or raise. *)
Definition resolve_session (authorization : option string) (st : state) : result YouTube :=
  fst ((token ← get_token_from_header authorization; get_youtube_from_db token) st).

End Backend.

Arguments YouTube : clear implicits.
Arguments Env : clear implicits.
Arguments state : clear implicits.

(** ** The routes that write or call out, and the runs of the service *)

Inductive request :=
| GET_auth_callback (code : option string)
| POST_logout (authorization : option string)
| GET_videos (authorization : option string)
| GET_video (video_id : string) (authorization : option string)
| PUT_metadata (video_id : string) (body : VideoMetadataUpdate)
               (authorization : option string)
| POST_suggestions (video_id : string) (data : gmap string json)
| GET_comments (video_id : string) (authorization : option string)
| POST_comment (video_id : string) (body : CommentCreate)
               (authorization : option string)
| DELETE_comment (comment_id : Z) (authorization : option string)
| POST_note (video_id : string) (body : NoteCreate)
| PUT_note (note_id : Z) (body : NoteUpdate)
| DELETE_note (note_id : Z).

Section Service.
Context {W : Type} (env : Env W).

(** The state a request leaves behind. *)
Definition serve (req : request) (st : state W) : state W :=
  match req with
  | GET_auth_callback code => (auth_callback env code st).2
  | POST_logout authorization => (logout env authorization st).2
  | GET_videos authorization => (list_videos env authorization st).2
  | GET_video video_id authorization => (get_video env video_id authorization st).2
  | PUT_metadata video_id body authorization =>
      (update_metadata env video_id body authorization st).2
  | POST_suggestions video_id data => (get_ai_suggestions env video_id data st).2
  | GET_comments video_id authorization =>
      (get_comments env video_id authorization st).2
  | POST_comment video_id body authorization =>
      (add_comment env video_id body authorization st).2
  | DELETE_comment comment_id authorization =>
      (remove_comment env comment_id authorization st).2
  | POST_note video_id body => (create_note video_id body st).2
  | PUT_note note_id body => (update_note note_id body st).2
  | DELETE_note note_id => (delete_note note_id st).2
  end.

Definition set_clock (now : Z) (d : database) : database :=
  mkdb (notes d) (logs d) (user_sessions d) (comments d)
       (notes_id_seq d) (logs_id_seq d) (user_sessions_id_seq d)
       (comments_id_seq d) now.

(** One step of a run: a request is served, or time passes and the world
    outside changes. *)
Inductive step : state W → state W → Prop :=
| step_serve req st : step st (serve req st)
| step_outside st w now :
    clock (db st) ≤ now →
    step st (mkstate (set_clock now (db st)) w (calls st) (stdout st)).

End Service.

(** ** What the schema promises of a database *)

(** A serial primary key: the ids are pairwise distinct and below the next
    value of the sequence. *)
Definition keyed (ids : list Z) (seq : Z) : Prop :=
  NoDup ids ∧ Forall (λ i, i < seq) ids.

(** The primary keys of the four tables and the two unique columns. *)
Record consistent (d : database) : Prop := mkconsistent {
  notes_key : keyed (Note.id <$> notes d) (notes_id_seq d);
  logs_key : keyed (EventLog.id <$> logs d) (logs_id_seq d);
  user_sessions_key : keyed (UserSession.id <$> user_sessions d) (user_sessions_id_seq d);
  comments_key : keyed (Comment.id <$> comments d) (comments_id_seq d);
  access_token_unique : NoDup (session_tokens d);
  youtube_comment_id_unique : NoDup (Comment.youtube_comment_id <$> comments d) }.

(** A computation keeps a property of the database. *)
Definition preserves {W A} (I : database → Prop) (m : py (W:=W) A) : Prop :=
  ∀ st, I (db st) → I (db (m st).2).

(** ** A reference environment

    An in-memory stand-in for the remote services, used to run the handlers
    on concrete requests.  The video platform keeps one resource per video
    and replaces the snippet of a video by the one an update sends; it
    hands out comment ids from a supply; during an outage every call to it
    raises. *)
Module Mock.

Record world := mk {
  outage : option exn;
  videos : gmap string (gmap string json);
  supply : list string;
  posted : list (string * string);
  grant : Credentials.t;
  revoke_status : Z;
  completion : result HttpResponse.t }.

Definition set_videos (v : gmap string (gmap string json)) (w : world) : world :=
  mk (outage w) v (supply w) (posted w) (grant w) (revoke_status w) (completion w).

Definition set_comments (s : list string) (p : list (string * string)) (w : world) : world :=
  mk (outage w) (videos w) s p (grant w) (revoke_status w) (completion w).

Definition guarded {A} (f : world → result A * world) : world → result A * world := λ w,
  match outage w with
  | Some e => (Raise e, w)
  | None => f w
  end.

Definition HttpError (status : string) : exn :=
  LibraryError "HttpError" ("<HttpError " +:+ status +:+ ">").

Definition insert_comment (text : string) (w : world) : result string * world :=
  match supply w with
  | id :: rest => (Return id, set_comments rest (posted w ++ [(id, text)]) w)
  | [] => (Raise (HttpError "403 quotaExceeded"), w)
  end.

Definition playlist_item (video_id : string) : json :=
  JObj {[ "contentDetails" := JObj {[ "videoId" := JStr video_id ]} ]}.

Definition youtube : YouTube world :=
  mkYouTube
    (λ part mine, guarded (λ w,
       (Return (ChannelList.mk (Some
          [JObj {[ "contentDetails" :=
             JObj {[ "relatedPlaylists" := JObj {[ "uploads" := JStr "UU1" ]} ]} ]}])), w)))
    (λ part playlistId maxResults, guarded (λ w,
       (Return (PlaylistItemList.mk (Some
          (playlist_item <$> (map_to_list (videos w)).*1))), w)))
    (λ part id, guarded (λ w,
       (Return (VideoList.mk (Some (option_list (videos w !! id)))), w)))
    (λ part id snippet, guarded (λ w,
       match videos w !! id with
       | Some item =>
           let item := <["snippet" := snippet]> item in
           (Return item, set_videos (<[id := item]> (videos w)) w)
       | None => (Raise (HttpError "404 videoNotFound"), w)
       end))
    (λ part videoId maxResults textFormat, guarded (λ w,
       (Return (ThreadList.mk (Some ((λ p, JStr p.2) <$> posted w))), w)))
    (λ part videoId text, guarded (λ w,
       let '(r, w') := insert_comment text w in
       (id ← r;
        Return (Thread.mk (Some (ThreadSnippet.mk (Some (CommentResource.mk (Some id)))))),
        w')))
    (λ part parentId text, guarded (λ w,
       let '(r, w') := insert_comment text w in
       (id ← r; Return (CommentResource.mk (Some id)), w')))
    (λ id, guarded (λ w,
       if bool_decide (id ∈ (fst <$> posted w))
       then (Return (), set_comments (supply w) (filter (λ p, p.1 ≠ id) (posted w)) w)
       else (Raise (HttpError "404 commentNotFound"), w))).

(** The case mapping of the reference environment: that of ASCII. *)
Definition lower_char (a : ascii) : ascii :=
  let n := N_of_ascii a in
  if ((65 <=? n) && (n <=? 90))%N then ascii_of_N (n + 32) else a.

Fixpoint lower (s : string) : string :=
  match s with
  | EmptyString => EmptyString
  | String a s' => String (lower_char a) (lower s')
  end.

(** LIKE with the wild cards [%] and [_], and ILIKE on top of it. *)
Fixpoint like (p : string) : string → bool :=
  match p with
  | EmptyString => λ v, bool_decide (v = EmptyString)
  | String c p' =>
      if Ascii.eqb c "%"
      then fix any (v : string) : bool :=
             like p' v || match v with
                          | EmptyString => false
                          | String _ v' => any v'
                          end
      else λ v,
             match v with
             | EmptyString => false
             | String d v' => (Ascii.eqb c "_" || Ascii.eqb c d) && like p' v'
             end
  end.

Definition env (api_key : option string) : Env world :=
  mkEnv
    (λ _, youtube)
    (λ _ _ w, (Return (grant w), w))
    (λ _ _ w, (Return (revoke_status w), w))
    (λ _ _ _ w, (completion w, w))
    (λ name, if bool_decide (name = "GROQ_API_KEY") then api_key else None)
    (λ v p, like (lower p) (lower v))
    lower
    (λ v, match v with
          | JNull => "None"
          | JBool true => "True"
          | JBool false => "False"
          | JInt n => pretty n
          | JFloat s | JStr s => s
          | JList _ => "[...]"
          | JObj _ => "{...}"
          end).

Definition creds (token : string) : Credentials.t :=
  Credentials.mk token (Some "refresh") (Some "https://oauth2.googleapis.com/token")
                 (Some "client") (Some "secret")
                 (Some ["https://www.googleapis.com/auth/youtube.force-ssl"]).

Definition chat (content : string) : HttpResponse.t :=
  HttpResponse.mk (Return ())
    (Return (JObj {[ "choices" :=
       JList [JObj {[ "message" := JObj {[ "content" := JStr content ]} ]}] ]})).

Definition video1 : gmap string json :=
  <["id" := JStr "v1"]>
  (<["snippet" := JObj (<["title" := JStr "Old title"]>
                       (<["description" := JStr "Old description"]>
                       (<["categoryId" := JStr "22"]>
                       (<["tags" := JList [JStr "music"]]> ∅))))]> ∅).

Definition world0 : world :=
  mk None {[ "v1" := video1 ]} ["yt1"; "yt2"] [] (creds "tok") 200
     (Return (chat "One | Two | Three")).

Definition session1 : UserSession.t :=
  UserSession.mk 1 "tok" (Some "refresh") (Some "https://oauth2.googleapis.com/token")
                 (Some "client") (Some "secret")
                 ["https://www.googleapis.com/auth/youtube.force-ssl"] 10.

Definition empty_db : database := mkdb [] [] [] [] 1 1 1 1 100.

(** A database with one session and nothing else. *)
Definition db1 : database := mkdb [] [] [session1] [] 1 1 2 1 100.

(** One session and one mirrored comment, whose remote id is ["yt1"]. *)
Definition comment1 : Comment.t := Comment.mk 1 "v1" "yt1" None "first" 50.

Definition db2 : database := mkdb [] [] [session1] [comment1] 1 1 2 2 100.

(** The platform after that comment was posted. *)
Definition world1 : world :=
  mk None {[ "v1" := video1 ]} ["yt2"] [("yt1", "first")] (creds "tok") 200
     (Return (chat "One | Two | Three")).

(** The platform during an outage. *)
Definition world_down : world :=
  mk (Some (HttpError "503 backendError")) {[ "v1" := video1 ]} ["yt2"]
     [("yt1", "first")] (creds "tok") 200 (Return (chat "One | Two | Three")).

(** The provider answers the revocation request with 400 (the token is
    not one it can revoke). *)
Definition world_revoke_400 : world :=
  mk None {[ "v1" := video1 ]} ["yt1"; "yt2"] [] (creds "tok") 400
     (Return (chat "One | Two | Three")).

(** Three notes on one video: tagged ["Fun "], tagged ["x"; "FUN"], and
    without a tag set. *)
Definition note1 : Note.t := Note.mk 1 "v1" (Some "a") (Some "first") (Some ["Fun "]) 5 None.
Definition note2 : Note.t := Note.mk 2 "v1" None (Some "second") (Some ["x"; "FUN"]) 7 None.
Definition note3 : Note.t := Note.mk 3 "v1" None None None 9 None.

Definition db3 : database := mkdb [note1; note2; note3] [] [session1] [] 4 1 2 1 100.

(** The completion API answers with two candidates only. *)
Definition world_two_titles : world :=
  mk None {[ "v1" := video1 ]} ["yt1"; "yt2"] [] (creds "tok") 200
     (Return (chat " First idea | Second idea ")).

Definition start (d : database) (w : world) : state world := mkstate d w [] [].

Definition new_metadata : VideoMetadataUpdate :=
  mkVideoMetadataUpdate "New title" "New description".

Definition bearer : option string := Some "Bearer tok".

End Mock.

(** ** The read-only routes of [app.py] *)

(** What [get_local_comments] hands out of a mirror row. *)
Module LocalComment.
Record t := mk {
  id : Z;
  youtube_comment_id : string;
  parent_youtube_id : option string;
  text : string }.
End LocalComment.

(** [order_by(EventLog.timestamp.desc())]. *)
Definition newer_event (a b : EventLog.t) : Prop :=
  EventLog.timestamp b ≤ EventLog.timestamp a.

#[global] Instance newer_event_dec a b : Decision (newer_event a b) :=
  Z_le_dec (EventLog.timestamp b) (EventLog.timestamp a).

Section ReadOnly.
Context {W : Type}.

(** [GET /logs]: [limit] is any Python integer; the storage layer takes a
    LIMIT as a [bigint] and refuses a negative one. *)
Definition get_logs (limit : Z) : py (W:=W) (list EventLog.t) :=
  rows ← query logs;
  if bool_decide (limit < - 2 ^ 63 ∨ 2 ^ 63 ≤ limit)
  then raise (LibraryError "DataError" "bigint out of range")
  else if bool_decide (limit < 0)
  then raise (LibraryError "DataError" "LIMIT must not be negative")
  else mret (take (Z.to_nat limit) (merge_sort newer_event rows)).

(** [GET /videos/{video_id}/comments/local]: the query has no ORDER BY, so
    the rows come in the order the storage layer scans them in, [scan], of
    which nothing is known but that it hands out the rows selected. *)
Definition get_local_comments (scan : list Comment.t → list Comment.t)
    (video_id : string) : py (W:=W) (list LocalComment.t) :=
  _ ← bound [video_id];
  rows ← query comments;
  mret ((λ c, LocalComment.mk (Comment.id c) (Comment.youtube_comment_id c)
                              (Comment.parent_youtube_id c) (Comment.text c))
        <$> scan (filter (λ c, Comment.video_id c = video_id) rows)).

End ReadOnly.

(** ** [database.py]: the connection URL *)

(** [sub in s]. *)
Fixpoint contains (sub s : string) : bool :=
  String.prefix sub s
  || match s with
     | EmptyString => false
     | String _ s' => contains sub s'
     end.

(** The slice [s[n:]]. *)
Fixpoint slice_from (n : nat) (s : string) : string :=
  match n, s with
  | S n', String _ s' => slice_from n' s'
  | _, _ => s
  end.

(** [s.replace(old, new, 1)] for a non-empty [old]. *)
Fixpoint replace_first (old new s : string) : string :=
  match s with
  | EmptyString => EmptyString
  | String a s' =>
      if String.prefix old s
      then new +:+ slice_from (String.length old) s
      else String a (replace_first old new s')
  end.

(** The URL the engine is created with, for the process environment
    [os_getenv]: the module raises at import time when [DATABASE_URL] is
    unset or empty. *)
Definition database_url (os_getenv : string → option string) : result string :=
  match os_getenv "DATABASE_URL" with
  | Some (String a u) =>
      let raw_url := String a u in
      if Text.startswith raw_url "postgres://"
      then Return (replace_first "postgres://" "postgresql://" raw_url)
      else Return raw_url
  | _ => Raise (ValueError "DATABASE_URL is missing from .env! Check your file.")
  end.

(** The scopes as the callback stores them: [None] and the empty list both
    become the empty list. *)
Definition stored_scopes (creds : Credentials.t) : list string :=
  match Credentials.scopes creds with
  | Some (x :: l) => x :: l
  | _ => []
  end.

(** The playlist id in a channel resource:
    [channel["contentDetails"]["relatedPlaylists"]["uploads"]]. *)
Definition uploads_of (channel : json) : result json :=
  details ← getitem channel "contentDetails";
  related ← getitem details "relatedPlaylists";
  getitem related "uploads".

(** The remote call [add_comment] issues for a body. *)
Definition insert_call (video_id : string) (body : CommentCreate) : call :=
  match cc_parent_id body with
  | Some (String a p) => CommentsInsert "snippet" (String a p) (cc_text body)
  | _ => CommentThreadsInsert "snippet" video_id (cc_text body)
  end.

(** ** Requests with their outcome, and the audit trail *)

Section Outcome.
Context {W : Type} (env : Env W).

(** The title [get_ai_suggestions] works with:
    [data.get("title", "YouTube Video")] as an f-string renders it. *)
Definition base_title (data : gmap string json) : string :=
  match data !! "title" with
  | Some (JStr s) => s
  | Some v => format env v
  | None => "YouTube Video"
  end.

(** The handler of a request, with what it returns forgotten: returned or
    raised. *)
Definition run_handler (req : request) : py (W:=W) unit :=
  match req with
  | GET_auth_callback code => _ ← auth_callback env code; mret ()
  | POST_logout authorization => _ ← logout env authorization; mret ()
  | GET_videos authorization => _ ← list_videos env authorization; mret ()
  | GET_video video_id authorization =>
      _ ← get_video env video_id authorization; mret ()
  | PUT_metadata video_id body authorization =>
      _ ← update_metadata env video_id body authorization; mret ()
  | POST_suggestions video_id data => _ ← get_ai_suggestions env video_id data; mret ()
  | GET_comments video_id authorization =>
      _ ← get_comments env video_id authorization; mret ()
  | POST_comment video_id body authorization =>
      _ ← add_comment env video_id body authorization; mret ()
  | DELETE_comment comment_id authorization =>
      _ ← remove_comment env comment_id authorization; mret ()
  | POST_note video_id body => _ ← create_note video_id body; mret ()
  | PUT_note note_id body => _ ← update_note note_id body; mret ()
  | DELETE_note note_id => _ ← delete_note note_id; mret ()
  end.

(** The note [update_note] hands to the response model: the refreshed
    row. *)
Definition refreshed_response (note : option Note.t) : result NoteResponse :=
  match note with
  | Some note => note_response note
  | None => Raise response_validation_error
  end.

(** A request with the answer of its route forgotten: the handler, and for
    the routes with a [response_model] the validation of what it
    returned. *)
Definition run_request (req : request) : py (W:=W) unit :=
  match req with
  | POST_comment video_id body authorization =>
      _ ← respond comment_response (add_comment env video_id body authorization);
      mret ()
  | POST_note video_id body =>
      _ ← respond note_response (create_note video_id body); mret ()
  | PUT_note note_id body =>
      _ ← respond refreshed_response (update_note note_id body); mret ()
  | _ => run_handler req
  end.

(** The routes that resolve a session first. *)
Definition protected (req : request) : option (option string) :=
  match req with
  | GET_videos authorization
  | GET_video _ authorization
  | PUT_metadata _ _ authorization
  | GET_comments _ authorization
  | POST_comment _ _ authorization
  | DELETE_comment _ authorization => Some authorization
  | _ => None
  end.

End Outcome.

(** What a computation that writes no audit event keeps: the events, the
    sequence of their ids and the time of the request. *)
Definition trail (events : list EventLog.t) (seq now : Z) (d : database) : Prop :=
  logs d = events ∧ logs_id_seq d = seq ∧ clock d = now.

(** A computation writes no audit event. *)
Definition silent {W A} (m : py (W:=W) A) : Prop :=
  ∀ st, trail (logs (db st)) (logs_id_seq (db st)) (clock (db st)) (db (m st).2).

(** A computation appends exactly one audit event when it returns, with the
    next id of the sequence and the time of the request, and none when it
    raises. *)
Definition audited {W A} (m : py (W:=W) A) : Prop :=
  ∀ st,
    match (m st).1 with
    | Return _ =>
        ∃ action details,
          logs (db (m st).2)
          = logs (db st) ++ [EventLog.mk (logs_id_seq (db st)) action details
                                         (clock (db st))]
    | Raise _ => logs (db (m st).2) = logs (db st)
    end.

(** The rows on file are the same in two databases; the sequences and
    the clock are left aside. *)
Definition same_rows (d d' : database) : Prop :=
  notes d' = notes d ∧ logs d' = logs d
  ∧ user_sessions d' = user_sessions d ∧ comments d' = comments d.

(** A computation writes no row. *)
Definition quiet {W A} (m : py (W:=W) A) : Prop :=
  ∀ st, same_rows (db st) (db (m st).2).

(** A computation always returns. *)
Definition sure {W A} (m : py (W:=W) A) : Prop :=
  ∀ st, ∃ a, (m st).1 = Return a.

(** A computation that raises has written no row. *)
Definition atomic {W A} (m : py (W:=W) A) : Prop :=
  ∀ st e, (m st).1 = Raise e → same_rows (db st) (db (m st).2).

(** A computation raises only errors with the property [P]. *)
Definition raises_only {W A} (P : exn → Prop) (m : py (W:=W) A) : Prop :=
  ∀ st e, (m st).1 = Raise e → P e.

(** An [HTTPException] with one of the given status codes. *)
Definition http_error (statuses : list Z) (e : exn) : Prop :=
  ∃ status detail, e = HTTPException status detail ∧ status ∈ statuses.

(** Further states of the reference environment. *)
Module Fixture.

Definition event (id : Z) (action : string) (at_ : Z) : EventLog.t :=
  EventLog.mk id action "" at_.

Definition db_logs : database :=
  mkdb [] [event 1 "a" 10; event 2 "b" 30; event 3 "c" 20] [] [] 1 4 1 1 100.

(** The channel resource the reference platform lists. *)
Definition channel1 : json :=
  JObj {[ "contentDetails" :=
    JObj {[ "relatedPlaylists" := JObj {[ "uploads" := JStr "UU1" ]} ]} ]}.

(** The platform of an account without uploads. *)
Definition world_no_videos : Mock.world :=
  Mock.mk None ∅ ["yt1"] [] (Mock.creds "tok") 200
          (Return (Mock.chat "One | Two | Three")).

(** Notes that all have a tag list: the two tagged notes of the reference
    database and one with the empty list. *)
Definition note4 : Note.t := Note.mk 4 "v1" None (Some "plain") (Some []) 11 None.

Definition db_tags : database :=
  mkdb [Mock.note1; Mock.note2; note4] [] [Mock.session1] [] 5 1 2 1 100.

(** A video id as the path [/videos/v%001/...] delivers it: it holds a NUL
    character. *)
Definition video_nul : string := String "v" (String zero "1").

(** Seventy times the letter U+00E9. *)
Definition accents : string := String.concat "" (replicate 70 (Text.encode 233)).

(** The completion service cannot be reached. *)
Definition world_no_completion : Mock.world :=
  Mock.mk None ∅ ["yt1"] [] (Mock.creds "tok") 200
          (Raise (LibraryError "ConnectTimeout" "timed out")).

Definition getenv_url (url : option string) (name : string) : option string :=
  if bool_decide (name = "DATABASE_URL") then url else None.

End Fixture.

(** * Properties *)

(** Unfolds the plumbing of the request monad. *)
Ltac py_unfold :=
  repeat (progress unfold mbind, py_bind, mret, py_ret, raise, lift, subscript,
                          try_except, youtube_api_error, execute, query,
                          commit, commit_checked, log_event, print);
  cbn beta.

(** ** Text *)

Lemma split_from_nonempty sep skip cur s : Text.split_from sep skip cur s ≠ [].
Proof.
  revert skip cur. induction s as [|a s IH]; intros skip cur; [done|].
  cbn [Text.split_from]. destruct skip; [|apply IH].
  destruct (String.prefix sep (String a s)); [done|apply IH].
Qed.

(** A string that starts with the separator splits into at least two
    pieces. *)
Lemma split_after_prefix s sep :
  Text.startswith s sep = true → sep ≠ EmptyString →
  ∃ t, Text.split s sep !! 1%nat = Some t.
Proof.
  unfold Text.startswith, Text.split. intros Hpre Hsep.
  destruct s as [|a s].
  - by destruct sep.
  - cbn [Text.split_from]. rewrite Hpre. simpl.
    pose proof (split_from_nonempty sep (Nat.pred (String.length sep)) EmptyString s).
    destruct (Text.split_from _ _ _ s); [done|eauto].
Qed.

(** ** The monad and session resolution *)

Section Resolution.
Context {W : Type} (env : Env W).
Implicit Types (st : state W) (authorization : option string).

Lemma get_token_from_header_frame authorization st :
  (get_token_from_header authorization st).2 = st.
Proof.
  unfold get_token_from_header.
  destruct authorization as [[|a h]|]; try done.
  destruct (Text.startswith _ _); [|done].
  by destruct (_ !! _).
Qed.

Lemma get_youtube_from_db_frame token st :
  (get_youtube_from_db env token st).2 = st.
Proof.
  unfold get_youtube_from_db, query, mbind, py_bind.
  by destruct (session_by_token token (db st)).
Qed.

(** A protected handler either stops at session resolution, with the state
    untouched, or continues with the resolved client in the same state. *)
Lemma resolve_bind {A} (k : YouTube W → py A) authorization st :
  (token ← get_token_from_header authorization;
   youtube ← get_youtube_from_db env token;
   k youtube) st
  = match resolve_session env authorization st with
    | Return youtube => k youtube st
    | Raise e => (Raise e, st)
    end.
Proof.
  unfold resolve_session, mbind, py_bind.
  pose proof (get_token_from_header_frame authorization st) as Ht.
  destruct (get_token_from_header authorization st) as [[token|e] st1];
    simpl in Ht; subst st1; simpl; [|done].
  pose proof (get_youtube_from_db_frame token st) as Hy.
  destruct (get_youtube_from_db env token st) as [[youtube|e] st1];
    simpl in Hy; subst st1; done.
Qed.

(** Resolution fails only with 401: the subscript [[1]] after a successful
    [startswith] is always in range. *)
Lemma resolve_session_raises authorization st e :
  resolve_session env authorization st = Raise e →
  ∃ detail, e = HTTPException 401 detail.
Proof.
  unfold resolve_session, get_token_from_header, get_youtube_from_db. py_unfold.
  destruct authorization as [[|a h]|]; try (intros [= <-]; eauto; fail).
  destruct (Text.startswith _ _) eqn:Hpre; [|intros [= <-]; eauto].
  destruct (split_after_prefix _ _ Hpre) as [t ->]; [done|].
  destruct (session_by_token _ _); [done|intros [= <-]; eauto].
Qed.

End Resolution.

(** ** Remote calls leave the database alone *)

Section RemoteFrame.
Context {W : Type}.
Implicit Types (st : state W) (youtube : YouTube W).

Lemma execute_db {A} (c : call) (m : remote A) st :
  db (execute c m st).2 = db st ∧ calls (execute c m st).2 = calls st ++ [c].
Proof. unfold execute. by destruct (m (world st)). Qed.

Lemma post_comment_frame youtube video_id text st :
  db (post_comment youtube video_id text st).2 = db st
  ∧ calls (post_comment youtube video_id text st).2
    = calls st ++ [CommentThreadsInsert "snippet" video_id text].
Proof.
  unfold post_comment, execute, mbind, py_bind, subscript.
  destruct (commentThreads_insert _ _ _ _ _) as [[r|e] w]; simpl; [|done].
  destruct (Thread.snippet r) as [s|]; simpl; [|done].
  destruct (ThreadSnippet.topLevelComment s) as [t|]; simpl; [|done].
  by destruct (CommentResource.id t).
Qed.

Lemma reply_to_comment_frame youtube parent_id text st :
  db (reply_to_comment youtube parent_id text st).2 = db st
  ∧ calls (reply_to_comment youtube parent_id text st).2
    = calls st ++ [CommentsInsert "snippet" parent_id text].
Proof.
  unfold reply_to_comment, execute, mbind, py_bind, subscript.
  destruct (comments_insert _ _ _ _ _) as [[r|e] w]; simpl; [|done].
  by destruct (CommentResource.id r).
Qed.

Lemma insert_remote_db youtube video_id body st :
  db (insert_remote youtube video_id body st).2 = db st.
Proof.
  unfold insert_remote.
  destruct (cc_parent_id body) as [[|a p]|];
    first [apply post_comment_frame | apply reply_to_comment_frame].
Qed.

End RemoteFrame.

(** ** Rows and keys *)

Section Keys.
Context {A K : Type} `{EqDecision K} (f : A → K).

Lemma filter_key_absent (k : K) (l : list A) :
  k ∉ f <$> l →
  filter (λ y, f y = k) l = [] ∧ filter (λ y, f y ≠ k) l = l.
Proof.
  induction l as [|a l IH]; [done|].
  rewrite fmap_cons, not_elem_of_cons. intros [Hne Hnin].
  destruct (IH Hnin) as [IH1 IH2].
  rewrite filter_cons_False by congruence.
  rewrite filter_cons_True by congruence.
  by rewrite IH1, IH2.
Qed.

(** Under a key, a row of the table is the only one a selection by its key
    finds, and a deletion by its key removes it and nothing else. *)
Lemma filter_key_split (x : A) (l : list A) :
  NoDup (f <$> l) → x ∈ l →
  ∃ l1 l2, l = l1 ++ x :: l2
           ∧ filter (λ y, f y = f x) l = [x]
           ∧ filter (λ y, f y ≠ f x) l = l1 ++ l2.
Proof.
  induction l as [|a l IH]; [by intros _ ?%elem_of_nil|].
  rewrite fmap_cons, NoDup_cons. intros [Ha Hnd] Hx.
  apply elem_of_cons in Hx as [->|Hx].
  - destruct (filter_key_absent (f a) l Ha) as [H1 H2].
    exists [], l. rewrite filter_cons_True by done.
    rewrite filter_cons_False by naive_solver.
    by rewrite H1, H2.
  - destruct (IH Hnd Hx) as (l1 & l2 & -> & H1 & H2).
    assert (f a ≠ f x) as Hne.
    { intros Heq. apply Ha. rewrite Heq. by apply list_elem_of_fmap_2. }
    exists (a :: l1), l2.
    rewrite filter_cons_False by done.
    rewrite filter_cons_True by done.
    by rewrite H1, H2.
Qed.

End Keys.

(** ** Comment creation: the remote insert first, then the mirror row *)

Section AddComment.
Context {W : Type} (env : Env W).
Implicit Types (st : state W) (youtube : YouTube W).

(** C1 (amended). For a request whose session resolves, on a mirror whose
    [youtube_comment_id]s are pairwise distinct, let the remote insert of
    [add_comment] run in the request's state.  If it raises, the handler
    raises the 400 [HTTPException] carrying the error's text and the
    database is unchanged.  If it returns an id and the video id, the text
    or the parent id holds a NUL character, the driver refuses the INSERT:
    the handler raises [ValueError], the request ends with status 500 and
    the database is unchanged, so no row mirrors the remote comment.
    Otherwise the comments table afterwards holds exactly one row with that
    [youtube_comment_id]: when no mirror row carried the id before, exactly
    one row is appended to the table, it is the row the handler returns,
    and its [youtube_comment_id] is the returned id; when a mirror row
    carried it already, the unique constraint rejects the INSERT, the table
    is unchanged and the request ends with status 500. *)
Theorem add_comment_remote_then_mirror video_id body authorization st youtube :
  resolve_session env authorization st = Return youtube →
  NoDup (Comment.youtube_comment_id <$> comments (db st)) →
  let '(remote_result, _) := insert_remote youtube video_id body st in
  let '(r, st') := add_comment env video_id body authorization st in
  match remote_result with
  | Raise e =>
      r = Raise (HTTPException 400 ("YouTube API error: " +:+ str e))
      ∧ db st' = db st
  | Return yt_comment_id =>
      if forallb (λ s, negb (Text.has_nul s))
                 (video_id :: cc_text body :: option_list (cc_parent_id body))
      then
        length (filter (λ c, Comment.youtube_comment_id c = yt_comment_id)
                       (comments (db st'))) = 1%nat
        ∧ if decide (yt_comment_id ∈ (Comment.youtube_comment_id <$> comments (db st)))
          then status_of r = 500 ∧ comments (db st') = comments (db st)
          else ∃ row, r = Return row
                      ∧ comments (db st') = comments (db st) ++ [row]
                      ∧ Comment.youtube_comment_id row = yt_comment_id
      else r = Raise nul_error ∧ status_of r = 500 ∧ db st' = db st
  end.
Proof.
  intros Hres Hnd. unfold add_comment. rewrite resolve_bind, Hres.
  pose proof (insert_remote_db youtube video_id body st) as Hdb.
  unfold mbind at 1. unfold py_bind, try_except, youtube_api_error, raise.
  destruct (insert_remote youtube video_id body st) as [[yt_comment_id|e] st1];
    simpl in Hdb; [|done].
  unfold mbind at 1. unfold py_bind, bound.
  destruct (forallb _ _); [|by rewrite <- Hdb].
  unfold mbind, py_bind, commit_checked, add_comment_row, log_event, commit,
    mret, py_ret. simpl. rewrite Hdb.
  destruct (decide (yt_comment_id ∈ _)) as [Hin|Hnin].
  - rewrite bool_decide_eq_true_2 by done. simpl. split; [|done].
    apply list_elem_of_fmap in Hin as (row & -> & Hin).
    destruct (filter_key_split Comment.youtube_comment_id row _ Hnd Hin)
      as (_ & _ & _ & Hsel & _).
    by rewrite Hsel.
  - rewrite bool_decide_eq_false_2 by done. simpl. split; [|eauto].
    destruct (filter_key_absent Comment.youtube_comment_id yt_comment_id _ Hnin)
      as [Hsel _].
    rewrite filter_app, Hsel. simpl. by rewrite filter_cons_True, filter_nil.
Qed.

End AddComment.

(** C1, an instance: a first comment on the reference environment. *)
Lemma add_comment_remote_then_mirror_witness :
  resolve_session (Mock.env None) Mock.bearer (Mock.start Mock.db1 Mock.world0)
  = Return Mock.youtube
  ∧ NoDup (Comment.youtube_comment_id <$> comments Mock.db1)
  ∧ ∃ row,
      (add_comment (Mock.env None) "v1" (mkCommentCreate "hello" None) Mock.bearer
         (Mock.start Mock.db1 Mock.world0)).1 = Return row
      ∧ Comment.youtube_comment_id row = "yt1".
Proof.
  split; [reflexivity|]. split; [apply NoDup_nil_2|].
  pose proof (add_comment_remote_then_mirror (Mock.env None) "v1"
                (mkCommentCreate "hello" None) Mock.bearer
                (Mock.start Mock.db1 Mock.world0) Mock.youtube eq_refl
                (NoDup_nil_2 : NoDup (Comment.youtube_comment_id <$> comments Mock.db1)))
    as H.
  vm_compute in H. destruct H as (_ & row & Hr & _ & Hid).
  exists row. split; [|exact Hid]. vm_compute. exact Hr.
Defined.

(** C1 as stated fails where the local INSERT is refused after the remote
    insert went through: a reply posted under a video id that holds a NUL
    character is accepted by the platform, which hands back the id ["yt1"],
    and the driver then refuses the row; the request ends with status 500
    and no mirror row carries the id. *)
Lemma add_comment_refused_insert_counterexample :
  (insert_remote Mock.youtube Fixture.video_nul (mkCommentCreate "hello" (Some "yt0"))
     (Mock.start Mock.db1 Mock.world0)).1 = Return "yt1"
  ∧ Mock.posted
      (world (add_comment (Mock.env None) Fixture.video_nul
                (mkCommentCreate "hello" (Some "yt0")) Mock.bearer
                (Mock.start Mock.db1 Mock.world0)).2)
    = [("yt1", "hello")]
  ∧ status_of (add_comment (Mock.env None) Fixture.video_nul
                 (mkCommentCreate "hello" (Some "yt0")) Mock.bearer
                 (Mock.start Mock.db1 Mock.world0)).1 = 500
  ∧ filter (λ c, Comment.youtube_comment_id c = "yt1")
      (comments (db (add_comment (Mock.env None) Fixture.video_nul
                       (mkCommentCreate "hello" (Some "yt0")) Mock.bearer
                       (Mock.start Mock.db1 Mock.world0)).2))
    = [].
Proof. by vm_compute. Qed.

(** ** Comment deletion by local id *)

Section RemoveComment.
Context {W : Type} (env : Env W).
Implicit Types (st : state W) (youtube : YouTube W).

Lemma comment_by_id_None comment_id (d : database) :
  comment_id ∉ Comment.id <$> comments d → comment_by_id comment_id d = None.
Proof.
  intros H. unfold comment_by_id.
  by destruct (filter_key_absent Comment.id comment_id (comments d) H) as [-> _].
Qed.

(** C2 (amended). For a request whose session resolves, on a comments table
    whose primary key is a key: if no row has the local id, the handler
    raises 404 and leaves the state as it was, so no remote call is issued;
    if a row has it, exactly one remote call is issued, the delete of that
    row's [youtube_comment_id]; when that call returns, exactly that row is
    removed from the table, and when it raises, the handler raises 400 and
    the database is unchanged. *)
Theorem remove_comment_by_local_id comment_id authorization st youtube :
  resolve_session env authorization st = Return youtube →
  NoDup (Comment.id <$> comments (db st)) →
  let '(r, st') := remove_comment env comment_id authorization st in
  (comment_id ∉ Comment.id <$> comments (db st) →
     r = Raise (HTTPException 404 "Comment not found in local DB.") ∧ st' = st)
  ∧ (∀ comment,
       comment ∈ comments (db st) → Comment.id comment = comment_id →
       calls st' = calls st ++ [CommentsDelete (Comment.youtube_comment_id comment)]
       ∧ match (comments_delete youtube (Comment.youtube_comment_id comment) (world st)).1 with
         | Return _ =>
             r = Return ("success", "Comment deleted from YouTube and local DB.")
             ∧ ∃ l1 l2, comments (db st) = l1 ++ comment :: l2
                        ∧ comments (db st') = l1 ++ l2
         | Raise e =>
             r = Raise (HTTPException 400 ("YouTube API error: " +:+ str e))
             ∧ db st' = db st
         end).
Proof.
  intros Hres Hkey.
  destruct (remove_comment env comment_id authorization st) as [r st'] eqn:Hrun.
  revert Hrun. unfold remove_comment. rewrite resolve_bind, Hres.
  unfold mbind at 1. unfold py_bind, query. intros Hrun. split.
  - intros Hnone. rewrite (comment_by_id_None _ _ Hnone) in Hrun.
    by injection Hrun as <- <-.
  - intros comment Hin <-.
    destruct (filter_key_split Comment.id comment _ Hkey Hin)
      as (l1 & l2 & Hl & Hsel & Hdel).
    revert Hrun. unfold comment_by_id. rewrite Hsel. simpl.
    unfold mbind, py_bind, try_except, delete_comment, execute, youtube_api_error,
      raise, commit, log_event, mret, py_ret.
    destruct (comments_delete youtube _ (world st)) as [[[]|e] w]; simpl;
      intros [= <- <-]; simpl; [|done].
    split; [done|]. split; [done|]. exists l1, l2. by rewrite Hdel.
Qed.

End RemoveComment.

(** C2, an instance: the one mirrored comment is deleted on the reference
    environment. *)
Lemma remove_comment_by_local_id_witness :
  resolve_session (Mock.env None) Mock.bearer (Mock.start Mock.db2 Mock.world1)
  = Return Mock.youtube
  ∧ NoDup (Comment.id <$> comments Mock.db2)
  ∧ (remove_comment (Mock.env None) 1 Mock.bearer (Mock.start Mock.db2 Mock.world1)).1
    = Return ("success", "Comment deleted from YouTube and local DB.")
  ∧ calls (remove_comment (Mock.env None) 1 Mock.bearer
             (Mock.start Mock.db2 Mock.world1)).2
    = [CommentsDelete "yt1"].
Proof.
  assert (NoDup (Comment.id <$> comments Mock.db2)) as Hkey
    by apply NoDup_singleton.
  split; [reflexivity|]. split; [exact Hkey|].
  pose proof (remove_comment_by_local_id (Mock.env None) 1 Mock.bearer
                (Mock.start Mock.db2 Mock.world1) Mock.youtube eq_refl Hkey) as H.
  destruct (remove_comment _ _ _ _) as [r st'].
  destruct H as [_ H].
  destruct (H Mock.comment1 (list_elem_of_here _ _) eq_refl) as (Hcalls & Hr & _).
  split; [exact Hr|exact Hcalls].
Defined.

(** C2 as stated fails where the remote delete raises: the row exists, one
    remote delete is issued for its remote id, and the row is still there
    afterwards. *)
Lemma remove_comment_remote_failure_counterexample :
  Mock.comment1 ∈ comments Mock.db2
  ∧ calls (remove_comment (Mock.env None) 1 Mock.bearer
             (Mock.start Mock.db2 Mock.world_down)).2
    = [CommentsDelete "yt1"]
  ∧ comments (db (remove_comment (Mock.env None) 1 Mock.bearer
                    (Mock.start Mock.db2 Mock.world_down)).2)
    = comments Mock.db2
  ∧ status_of (remove_comment (Mock.env None) 1 Mock.bearer
                 (Mock.start Mock.db2 Mock.world_down)).1 = 400.
Proof.
  split; [apply list_elem_of_here|]. by vm_compute.
Qed.

(** ** The OAuth callback: find-or-create on the access token *)

Lemma session_by_token_None token (d : database) :
  session_by_token token d = None ↔ token ∉ session_tokens d.
Proof.
  unfold session_by_token, session_tokens. split.
  - intros Hhead Hin. apply list_elem_of_fmap in Hin as (s & -> & Hs).
    assert (s ∈ filter (λ s', UserSession.access_token s' = UserSession.access_token s)
                       (user_sessions d)) as Hf
      by by apply list_elem_of_filter.
    destruct (filter _ _); [by apply elem_of_nil in Hf|done].
  - intros Hnin.
    by destruct (filter_key_absent UserSession.access_token token _ Hnin) as [-> _].
Qed.

Section AuthCallback.
Context {W : Type} (env : Env W).
Implicit Types (st : state W).

(** One run of the callback whose token exchange succeeds: the redirect
    carries the token, and the sessions table is untouched when the token is
    on file and gains one row for it otherwise. *)
Lemma auth_callback_run a c st creds w :
  fetch_token env (build_flow env) (String a c) (world st) = (Return creds, w) →
  ∃ st',
    auth_callback env (Some (String a c)) st
    = (Return ("http://localhost:3000/?token=" +:+ Credentials.token creds), st')
    ∧ world st' = w
    ∧ ((Credentials.token creds ∈ session_tokens (db st)
        ∧ user_sessions (db st') = user_sessions (db st))
       ∨ ((Credentials.token creds ∉ session_tokens (db st))
          ∧ ∃ row, UserSession.access_token row = Credentials.token creds
                   ∧ user_sessions (db st') = user_sessions (db st) ++ [row])).
Proof.
  intros Hfetch.
  unfold auth_callback, mbind, py_bind, execute, query, log_event, commit,
    commit_checked, add_user_session, mret, py_ret.
  rewrite Hfetch. simpl.
  destruct (session_by_token (Credentials.token creds) (db st)) as [s|] eqn:Hs; simpl.
  - eexists. split; [done|]. split; [done|]. left. split; [|done].
    destruct (decide (Credentials.token creds ∈ session_tokens (db st))); [done|].
    apply session_by_token_None in n. congruence.
  - apply session_by_token_None in Hs.
    rewrite bool_decide_eq_false_2 by done. simpl.
    eexists. split; [done|]. split; [done|]. right. split; [done|].
    eexists. split; [|done]. done.
Qed.

(** C3. Two runs of the callback in a row whose token exchanges hand back
    the same access token: the second run leaves the sessions table as the
    first left it, the access tokens in the table stay pairwise distinct,
    and exactly one row carries that token. *)
Theorem auth_callback_idempotent a1 c1 a2 c2 st creds1 creds2 w1 w2 :
  NoDup (session_tokens (db st)) →
  fetch_token env (build_flow env) (String a1 c1) (world st) = (Return creds1, w1) →
  fetch_token env (build_flow env) (String a2 c2) w1 = (Return creds2, w2) →
  Credentials.token creds1 = Credentials.token creds2 →
  let '(_, st1) := auth_callback env (Some (String a1 c1)) st in
  let '(_, st2) := auth_callback env (Some (String a2 c2)) st1 in
  user_sessions (db st2) = user_sessions (db st1)
  ∧ NoDup (session_tokens (db st2))
  ∧ length (filter (λ s, UserSession.access_token s = Credentials.token creds1)
                   (user_sessions (db st2))) = 1%nat.
Proof.
  intros Hnd Hf1 Hf2 Htok.
  destruct (auth_callback_run _ _ _ _ _ Hf1) as (st1 & -> & Hw1 & Hrows1).
  rewrite <- Hw1 in Hf2.
  destruct (auth_callback_run _ _ _ _ _ Hf2) as (st2 & -> & _ & Hrows2).
  rewrite <- Htok in Hrows2.
  assert (Credentials.token creds1 ∈ session_tokens (db st1)
          ∧ NoDup (session_tokens (db st1))) as [Hin1 Hnd1].
  { unfold session_tokens in *.
    destruct Hrows1 as [[Hin Heq]|[Hnin (row & Hrow & Heq)]]; rewrite Heq; [done|].
    rewrite fmap_app. simpl. rewrite Hrow.
    split; [apply elem_of_app; right; apply list_elem_of_here|].
    apply NoDup_app. split_and!; [done| |apply NoDup_singleton].
    intros x Hx ->%list_elem_of_singleton. exact (Hnin Hx). }
  destruct Hrows2 as [[_ Heq]|[Hnin _]]; [|done].
  unfold session_tokens in *.
  rewrite Heq. split; [done|]. split; [done|].
  apply list_elem_of_fmap in Hin1 as (s & Hs & Hin1).
  destruct (filter_key_split UserSession.access_token s _ Hnd1 Hin1)
    as (_ & _ & _ & Hsel & _).
  rewrite Hs. by rewrite Hsel.
Qed.

End AuthCallback.

(** C3, an instance: the callback run twice from an empty database on the
    reference environment leaves one session row. *)
Lemma auth_callback_idempotent_witness :
  NoDup (session_tokens Mock.empty_db)
  ∧ length (filter (λ s, UserSession.access_token s = "tok")
      (user_sessions (db
        (auth_callback (Mock.env None) (Some "code")
           (auth_callback (Mock.env None) (Some "code")
              (Mock.start Mock.empty_db Mock.world0)).2).2))) = 1%nat.
Proof.
  split; [apply NoDup_nil_2|].
  pose proof (auth_callback_idempotent (Mock.env None) "c" "ode" "c" "ode"
                (Mock.start Mock.empty_db Mock.world0)
                (Mock.creds "tok") (Mock.creds "tok") Mock.world0 Mock.world0
                (NoDup_nil_2 : NoDup (session_tokens Mock.empty_db))
                eq_refl eq_refl eq_refl) as H.
  destruct (auth_callback _ _ (Mock.start _ _)) as [r1 st1]. cbn [snd] in *.
  destruct (auth_callback _ _ st1) as [r2 st2]. cbn [snd] in *.
  apply H.
Defined.

(** ** Logout *)

Section Logout.
Context {W : Type} (env : Env W).
Implicit Types (st : state W).

(** C4 (amended). On a logout with a well-formed bearer header the
    revocation request is sent first, and its response is not inspected:
    whenever the request returns a response, whatever its status code, every
    session row with the token is deleted; only when the request itself
    raises does the exception escape with the database unchanged. *)
Theorem logout_deletes_after_any_response authorization st token :
  (get_token_from_header authorization st).1 = Return token →
  let '(revocation, _) :=
    requests_post env (revoke_url token) revoke_headers (world st) in
  let '(r, st') := logout env authorization st in
  calls st' = calls st ++ [RequestsPost (revoke_url token) revoke_headers]
  ∧ match revocation with
    | Return status_code =>
        r = Return "Logged out successfully."
        ∧ user_sessions (db st')
          = filter (λ s, UserSession.access_token s ≠ token) (user_sessions (db st))
        ∧ session_by_token token (db st') = None
    | Raise e => r = Raise e ∧ db st' = db st
    end.
Proof.
  intros Htok. unfold logout, mbind, py_bind.
  pose proof (get_token_from_header_frame authorization st) as Hfr.
  destruct (get_token_from_header authorization st) as [r0 st0].
  simpl in Htok, Hfr. subst r0 st0.
  unfold execute, commit, log_event, mret, py_ret, revoke_url.
  destruct (requests_post env _ _ (world st)) as [[status_code|e] w]; simpl; [|done].
  split; [done|]. split; [done|]. split; [done|].
  apply session_by_token_None. unfold session_tokens. simpl.
  intros (s & Hs & Hin)%list_elem_of_fmap.
  apply list_elem_of_filter in Hin as [Hne _]. done.
Qed.

End Logout.

(** C4, an instance: logout on the reference environment, the provider
    answering 200. *)
Lemma logout_deletes_after_any_response_witness :
  (get_token_from_header Mock.bearer (Mock.start Mock.db1 Mock.world0)).1 = Return "tok"
  ∧ user_sessions (db (logout (Mock.env None) Mock.bearer
                         (Mock.start Mock.db1 Mock.world0)).2) = [].
Proof.
  split; [reflexivity|].
  pose proof (logout_deletes_after_any_response (Mock.env None) Mock.bearer
                (Mock.start Mock.db1 Mock.world0) "tok" eq_refl) as H.
  destruct (requests_post _ _ _ _) as [revocation w] eqn:E.
  vm_compute in E. injection E as <- <-.
  destruct (logout _ _ _) as [r st']. cbn [snd].
  destruct H as (_ & _ & -> & _). reflexivity.
Defined.

(** C4 as stated fails where the provider rejects the revocation: the
    request comes back with status 400, and the session row that was on file
    is gone all the same. *)
Lemma logout_failed_revocation_counterexample :
  (requests_post (Mock.env None) (revoke_url "tok") revoke_headers
     Mock.world_revoke_400).1 = Return 400
  ∧ session_by_token "tok" Mock.db1 = Some Mock.session1
  ∧ session_by_token "tok"
      (db (logout (Mock.env None) Mock.bearer
             (Mock.start Mock.db1 Mock.world_revoke_400)).2) = None
  ∧ (logout (Mock.env None) Mock.bearer
       (Mock.start Mock.db1 Mock.world_revoke_400)).1
    = Return "Logged out successfully.".
Proof. by vm_compute. Qed.

(** ** Reading one video *)

Section GetVideo.
Context {W : Type} (env : Env W).
Implicit Types (st : state W) (youtube : YouTube W).

(** The half of C5 that holds: a video the platform does not list is
    answered with 404. *)
Lemma get_video_absent_404 video_id authorization st youtube w items :
  resolve_session env authorization st = Return youtube →
  videos_list youtube "snippet,statistics" video_id (world st)
  = (Return (VideoList.mk items), w) →
  default [] items = [] →
  (get_video env video_id authorization st).1
  = Raise (HTTPException 404 ("Video " +:+ video_id +:+ " not found on YouTube.")).
Proof.
  intros Hres Hlist Hnone. unfold get_video. rewrite resolve_bind, Hres.
  unfold fetch_video_details. py_unfold.
  rewrite Hlist. simpl. by rewrite Hnone.
Qed.

(** An exception of the remote call is not caught in [get_video]: it leaves
    the handler as it was raised, with no audit event written. *)
Lemma get_video_remote_error_escapes video_id authorization st youtube e w :
  resolve_session env authorization st = Return youtube →
  videos_list youtube "snippet,statistics" video_id (world st) = (Raise e, w) →
  (get_video env video_id authorization st).1 = Raise e
  ∧ db (get_video env video_id authorization st).2 = db st.
Proof.
  intros Hres Hlist. unfold get_video. rewrite resolve_bind, Hres.
  unfold fetch_video_details. py_unfold.
  by rewrite Hlist.
Qed.

(** The sibling read path [get_comments] turns the same failure into 400. *)
Lemma get_comments_remote_error_400 video_id authorization st youtube e w :
  resolve_session env authorization st = Return youtube →
  commentThreads_list youtube "snippet,replies" video_id 50 "plainText" (world st)
  = (Raise e, w) →
  (get_comments env video_id authorization st).1
  = Raise (HTTPException 400 ("YouTube API error: " +:+ str e)).
Proof.
  intros Hres Hlist. unfold get_comments. rewrite resolve_bind, Hres.
  unfold fetch_video_comments. py_unfold.
  by rewrite Hlist.
Qed.

End GetVideo.

(** C5, the failing input: with a valid session and the platform raising
    on the read, [get_video] ends in the raised error, which FastAPI answers
    with 500, where the specification says 400; [list_videos] and [get_comments]
    answer the same failure with 400. *)
Lemma get_video_remote_error_is_500 :
  resolve_session (Mock.env None) Mock.bearer (Mock.start Mock.db1 Mock.world_down)
  = Return Mock.youtube
  ∧ (get_video (Mock.env None) "v1" Mock.bearer
       (Mock.start Mock.db1 Mock.world_down)).1
    = Raise (Mock.HttpError "503 backendError")
  ∧ status_of (get_video (Mock.env None) "v1" Mock.bearer
                 (Mock.start Mock.db1 Mock.world_down)).1 = 500
  ∧ status_of (list_videos (Mock.env None) Mock.bearer
                 (Mock.start Mock.db1 Mock.world_down)).1 = 400
  ∧ status_of (get_comments (Mock.env None) "v1" Mock.bearer
                 (Mock.start Mock.db1 Mock.world_down)).1 = 400.
Proof. by vm_compute. Qed.

(** ** Metadata update: read, modify, write *)

Section UpdateVideoInfo.
Context {W : Type}.
Implicit Types (st : state W) (youtube : YouTube W).

Lemma merged_snippet_frame fields title description k :
  k ≠ "title" → k ≠ "description" →
  merged_snippet fields title description !! k = fields !! k.
Proof.
  intros Ht Hd. unfold merged_snippet.
  rewrite lookup_insert_ne by done. by rewrite lookup_insert_ne.
Qed.

(** A run in which the platform lists the video with a snippet dict: the
    two calls, and the answer to the update as the result. *)
Lemma update_video_info_run youtube video_id title description st item items fields w :
  videos_list youtube "snippet" video_id (world st)
  = (Return (VideoList.mk (Some (item :: items))), w) →
  item !! "snippet" = Some (JObj fields) →
  calls (update_video_info youtube video_id title description st).2
  = calls st ++ [VideosList "snippet" video_id;
                 VideosUpdate "snippet" video_id
                   (JObj (merged_snippet fields title description))]
  ∧ (update_video_info youtube video_id title description st).1
    = (videos_update youtube "snippet" video_id
         (JObj (merged_snippet fields title description)) w).1.
Proof.
  intros Hlist Hsnip. unfold update_video_info. py_unfold.
  rewrite Hlist. simpl. rewrite Hsnip. simpl.
  destruct (videos_update youtube _ _ _ w) as [r w']. simpl.
  split; [by rewrite <- app_assoc|done].
Qed.

(** C6. When the platform lists the video with a snippet, [update_video_info]
    issues exactly two calls: the fetch of the snippet and then one update
    whose body is the fetched snippet with [title] and [description]
    replaced; every other key of the snippet sent has the value that was
    fetched, and the result is the platform's answer to that update. *)
Theorem update_video_info_read_modify_write
    youtube video_id title description st item items fields w :
  videos_list youtube "snippet" video_id (world st)
  = (Return (VideoList.mk (Some (item :: items))), w) →
  item !! "snippet" = Some (JObj fields) →
  let sent := merged_snippet fields title description in
  let '(r, st') := update_video_info youtube video_id title description st in
  calls st' = calls st ++ [VideosList "snippet" video_id;
                           VideosUpdate "snippet" video_id (JObj sent)]
  ∧ r = (videos_update youtube "snippet" video_id (JObj sent) w).1
  ∧ sent !! "title" = Some (JStr title)
  ∧ sent !! "description" = Some (JStr description)
  ∧ ∀ k, k ≠ "title" → k ≠ "description" → sent !! k = fields !! k.
Proof.
  intros Hlist Hsnip.
  destruct (update_video_info_run _ _ title description _ _ _ _ _ Hlist Hsnip)
    as [Hcalls Hr].
  destruct (update_video_info _ _ _ _ _) as [r st']. simpl in *.
  split; [done|]. split; [done|].
  unfold merged_snippet. split_and!.
  - rewrite lookup_insert_ne by done. by rewrite lookup_insert_eq.
  - by rewrite lookup_insert_eq.
  - intros k Ht Hd. by apply merged_snippet_frame.
Qed.

(** No update goes out that is not merged from a snippet fetched in the
    same run: a run either stops after the fetch, raising, or issues the
    fetch and then the update with the merged snippet. *)
Lemma update_video_info_no_blind_write youtube video_id title description st :
  let '(r, st') := update_video_info youtube video_id title description st in
  (calls st' = calls st ++ [VideosList "snippet" video_id] ∧ ∃ e, r = Raise e)
  ∨ ∃ item items fields w,
      videos_list youtube "snippet" video_id (world st)
      = (Return (VideoList.mk (Some (item :: items))), w)
      ∧ item !! "snippet" = Some (JObj fields)
      ∧ calls st' = calls st ++ [VideosList "snippet" video_id;
                                 VideosUpdate "snippet" video_id
                                   (JObj (merged_snippet fields title description))].
Proof.
  destruct (videos_list youtube "snippet" video_id (world st))
    as [[[[[|item items]|]]|e] w] eqn:Hlist;
    try (unfold update_video_info; py_unfold; rewrite Hlist; simpl; left; eauto; fail).
  destruct (item !! "snippet") as [snippet|] eqn:Hsnip;
    [|unfold update_video_info; py_unfold; rewrite Hlist; simpl; rewrite Hsnip;
      simpl; left; eauto].
  destruct snippet as [| | | | | |fields];
    try (unfold update_video_info; py_unfold; rewrite Hlist; simpl; rewrite Hsnip;
         simpl; left; eauto; fail).
  destruct (update_video_info_run _ _ title description _ _ _ _ _ Hlist Hsnip)
    as [Hcalls _].
  destruct (update_video_info _ _ _ _ _) as [r st'].
  right. by exists item, items, fields, w.
Qed.

End UpdateVideoInfo.

(** On the reference platform, which replaces the stored snippet by the one
    sent, a read after the update shows the new title and description and
    every other field of the snippet as it was. *)
Lemma update_video_info_reference_roundtrip video_id title description st item fields :
  Mock.outage (world st) = None →
  Mock.videos (world st) !! video_id = Some item →
  item !! "snippet" = Some (JObj fields) →
  let st' := (update_video_info Mock.youtube video_id title description st).2 in
  ∃ item',
    (fetch_video_details Mock.youtube video_id st').1 = Return (Some item')
    ∧ item' !! "snippet" = Some (JObj (merged_snippet fields title description))
    ∧ ∀ k, k ≠ "snippet" → item' !! k = item !! k.
Proof.
  intros Hup Hvid Hsnip. unfold update_video_info, fetch_video_details. py_unfold.
  simpl. unfold Mock.guarded. rewrite Hup, Hvid. simpl. rewrite Hsnip. simpl.
  rewrite Hup, Hvid. simpl. rewrite Hup. rewrite lookup_insert_eq. simpl.
  eexists. split; [done|]. split; [by rewrite lookup_insert_eq|].
  intros k Hk. by rewrite lookup_insert_ne.
Qed.

(** C6, an instance: the title and description of the reference video are
    replaced, its category and tags are sent back as fetched. *)
Lemma update_video_info_read_modify_write_witness :
  ∃ fields,
    Mock.video1 !! "snippet" = Some (JObj fields)
    ∧ calls (update_video_info Mock.youtube "v1" "New" "Text"
               (Mock.start Mock.db1 Mock.world0)).2
      = [VideosList "snippet" "v1";
         VideosUpdate "snippet" "v1" (JObj (merged_snippet fields "New" "Text"))]
    ∧ merged_snippet fields "New" "Text" !! "categoryId" = Some (JStr "22")
    ∧ merged_snippet fields "New" "Text" !! "tags" = Some (JList [JStr "music"]).
Proof.
  eexists. split; [reflexivity|].
  match goal with |- context [merged_snippet ?f _ _] => set (fields := f) end.
  pose proof (update_video_info_read_modify_write Mock.youtube "v1" "New" "Text"
                (Mock.start Mock.db1 Mock.world0) Mock.video1 [] fields Mock.world0
                eq_refl eq_refl) as H.
  destruct (update_video_info _ _ _ _ _) as [r st'].
  destruct H as (Hcalls & _ & _ & _ & Hframe).
  split; [exact Hcalls|].
  split; (rewrite Hframe by done; reflexivity).
Defined.

(** ** Listing notes by tag *)

#[global] Instance newer_first_transitive : Transitive newer_first.
Proof. unfold newer_first. intros a b c ??. lia. Qed.

#[global] Instance newer_first_total : Total newer_first.
Proof. unfold newer_first. intros a b. lia. Qed.

Lemma StronglySorted_filter {A} (R : relation A) (P : A → Prop)
    `{!∀ x, Decision (P x)} (l : list A) :
  StronglySorted R l → StronglySorted R (filter P l).
Proof.
  induction 1 as [|a l Hs IH Hall]; [constructor|].
  rewrite filter_cons. case_decide; [|done].
  constructor; [done|].
  rewrite Forall_forall in Hall |- *.
  intros x [_ Hx]%list_elem_of_filter. auto.
Qed.

Section GetNotes.
Context {W : Type} (env : Env W).
Implicit Types (st : state W).

Lemma has_tag_iff tag_lower (n : Note.t) :
  has_tag env tag_lower n
  ↔ ∃ tags x, Note.tags n = Some tags ∧ x ∈ tags
              ∧ lower env (Text.strip x) = tag_lower.
Proof.
  unfold has_tag. rewrite Exists_exists. split.
  - intros (x & Hx & Heq). destruct (Note.tags n) as [tags|]; simpl in Hx.
    + eauto.
    + by apply elem_of_nil in Hx.
  - intros (tags & x & -> & Hx & Heq). simpl. eauto.
Qed.

(** Notes with a tag list fit the response model, one by one. *)
Lemma notes_response_tagged (l : list Note.t) :
  Forall (λ n, Note.tags n ≠ None) l →
  ∃ responses,
    notes_response l = Return responses
    ∧ Forall2 (λ n r, note_response n = Return r) l responses.
Proof.
  unfold notes_response. induction 1 as [|n l Hn _ (responses & IH & Hall)].
  - by exists [].
  - destruct (note_response n) as [r|e] eqn:Hr.
    + exists (r :: responses). cbn [mapM]. rewrite Hr, IH. split; [done|].
      by constructor.
    + unfold note_response in Hr. by destruct (Note.tags n).
Qed.

(** C7 (amended). For every video id without a NUL character and every
    non-empty tag string, and no search term, [get_notes] returns, leaving
    the state alone, exactly the notes of that video with a tag set holding
    an element equal to the tag once both are stripped and lower-cased: a
    note is in the result if and only if it is such a row, the result has
    each such row as often as the table has, and every note in the result
    is at least as recent as all the notes after it.  Each of these notes
    fits the response model, so the route answers with them. *)
Theorem get_notes_tag_filter video_id a t st :
  Text.has_nul video_id = false →
  ∃ result responses,
    get_notes env video_id None (Some (String a t)) st = (Return result, st)
    ∧ (∀ n, n ∈ result ↔
            n ∈ notes (db st) ∧ Note.video_id n = video_id
            ∧ ∃ tags x, Note.tags n = Some tags ∧ x ∈ tags
                        ∧ lower env (Text.strip x)
                          = lower env (Text.strip (String a t)))
    ∧ result ≡ₚ filter (has_tag env (lower env (Text.strip (String a t))))
                  (filter (λ n, Note.video_id n = video_id) (notes (db st)))
    ∧ StronglySorted newer_first result
    ∧ respond notes_response (get_notes env video_id None (Some (String a t))) st
      = (Return responses, st)
    ∧ Forall2 (λ n r, note_response n = Return r) result responses.
Proof.
  intros Hnul.
  set (result := filter (has_tag env (lower env (Text.strip (String a t))))
                   (order_by_created_at_desc
                      (filter (λ n, Note.video_id n = video_id) (notes (db st))))).
  assert (get_notes env video_id None (Some (String a t)) st = (Return result, st))
    as Hrun.
  { unfold get_notes, bound. simpl. by rewrite Hnul. }
  assert (Forall (λ n, Note.tags n ≠ None) result) as Htagged.
  { apply Forall_forall. intros n [Htag _]%list_elem_of_filter.
    apply has_tag_iff in Htag as (tags & x & -> & _). done. }
  destruct (notes_response_tagged result Htagged) as (responses & Hresp & Hall).
  exists result, responses.
  assert (result
          ≡ₚ filter (has_tag env (lower env (Text.strip (String a t))))
               (filter (λ n, Note.video_id n = video_id) (notes (db st)))) as Hperm
    by (unfold result, order_by_created_at_desc; by rewrite merge_sort_Permutation).
  split_and!; try done.
  - intros n. rewrite Hperm, !list_elem_of_filter, has_tag_iff. tauto.
  - apply StronglySorted_filter, StronglySorted_merge_sort; apply _.
  - unfold respond, mbind, py_bind. rewrite Hrun. unfold lift. by rewrite Hresp.
Qed.

(** A video id that holds a NUL character is refused by the driver, and
    the route answers 500. *)
Lemma get_notes_nul_video_id video_id search tag st :
  Text.has_nul video_id = true →
  get_notes env video_id search tag st = (Raise nul_error, st).
Proof. intros Hnul. unfold get_notes, bound. simpl. by rewrite Hnul. Qed.

(** Without a tag, or with the empty tag string, no tag filter is applied:
    all the notes of the video are returned, newest first. *)
Lemma get_notes_no_tag_filter video_id tag st :
  Text.has_nul video_id = false →
  Text.truthy tag = false →
  ∃ result,
    get_notes env video_id None tag st = (Return result, st)
    ∧ result ≡ₚ filter (λ n, Note.video_id n = video_id) (notes (db st))
    ∧ StronglySorted newer_first result.
Proof.
  intros Hnul Htag. exists (order_by_created_at_desc
                         (filter (λ n, Note.video_id n = video_id) (notes (db st)))).
  split.
  { unfold get_notes, bound. simpl. rewrite Hnul. by destruct tag as [[|??]|]. }
  unfold order_by_created_at_desc. split; [apply merge_sort_Permutation|].
  apply StronglySorted_merge_sort; apply _.
Qed.

End GetNotes.

(** C7, an instance: the tag ["fun"] on the reference notes. *)
Lemma get_notes_tag_filter_witness :
  Text.has_nul "v1" = false
  ∧ ∃ result responses,
      get_notes (Mock.env None) "v1" None (Some "fun")
        (Mock.start Mock.db3 Mock.world0)
      = (Return result, Mock.start Mock.db3 Mock.world0)
      ∧ (Mock.note1 ∈ result ∧ Mock.note2 ∈ result ∧ Mock.note3 ∉ result)
      ∧ respond notes_response (get_notes (Mock.env None) "v1" None (Some "fun"))
          (Mock.start Mock.db3 Mock.world0)
        = (Return responses, Mock.start Mock.db3 Mock.world0).
Proof.
  split; [reflexivity|].
  destruct (get_notes_tag_filter (Mock.env None) "v1" "f"%char "un"
              (Mock.start Mock.db3 Mock.world0) eq_refl)
    as (result & responses & Hrun & Hiff & _ & _ & Hroute & _).
  exists result, responses. split; [exact Hrun|]. split; [|exact Hroute].
  split_and!.
  - apply Hiff. split; [apply list_elem_of_here|]. split; [done|].
    exists ["Fun "], "Fun ". split; [done|]. split; [apply list_elem_of_here|done].
  - apply Hiff. split; [apply list_elem_of_further, list_elem_of_here|].
    split; [done|]. exists ["x"; "FUN"], "FUN". split; [done|].
    split; [apply list_elem_of_further, list_elem_of_here|done].
  - intros Hin. apply Hiff in Hin as (_ & _ & tags & x & Htags & _). discriminate Htags.
Defined.

(** C7 as stated fails at the empty tag string: the route on [?tag=]
    answers with every note of the video, among them one with an empty tag
    set and one none of whose tags strips to the empty string. *)
Lemma get_notes_empty_tag_counterexample :
  (respond notes_response (get_notes (Mock.env None) "v1" None (Some ""))
     (Mock.start Fixture.db_tags Mock.world0)).1
  = Return [ mkNoteResponse 4 "v1" None (Some "plain") [] 11;
             mkNoteResponse 2 "v1" None (Some "second") ["x"; "FUN"] 7;
             mkNoteResponse 1 "v1" (Some "a") (Some "first") ["Fun "] 5 ]
  ∧ Note.tags Fixture.note4 = Some []
  ∧ ¬ has_tag (Mock.env None) (lower (Mock.env None) (Text.strip "")) Mock.note2.
Proof.
  split; [by vm_compute|]. split; [done|].
  rewrite has_tag_iff. intros (tags & x & [= <-] & Hx & Heq).
  apply elem_of_cons in Hx as [->|Hx]; [vm_compute in Heq; discriminate|].
  apply elem_of_cons in Hx as [->|Hx]; [vm_compute in Heq; discriminate|].
  by apply elem_of_nil in Hx.
Qed.

(** The scenario of the specification: the tag ["fun"] finds the notes
    tagged ["Fun "] and ["FUN"], newest first, and not the untagged one. *)
Example get_notes_tag_fun :
  (get_notes (Mock.env None) "v1" None (Some "fun") (Mock.start Mock.db3 Mock.world0)).1
  = Return [Mock.note2; Mock.note1].
Proof. by vm_compute. Qed.

(** ** Title suggestions *)

Section Suggestions.
Context {W : Type} (env : Env W).
Implicit Types (st : state W).

(** C8. [generate_viral_titles] never raises and always returns a list of
    exactly three strings; and when the key is configured, the completion
    request returns a response and the text taken from it splits into fewer
    than three candidates, the list returned is the fallback built from
    [current_title]. *)
Theorem generate_viral_titles_three_strings current_title st :
  let '(r, _) := generate_viral_titles env current_title st in
  (∃ titles, r = Return titles ∧ length titles = 3%nat)
  ∧ ∀ a k response w raw_text,
      getenv env "GROQ_API_KEY" = Some (String a k) →
      httpx_post env groq_url (groq_headers (String a k))
                 (groq_body (groq_prompt current_title)) (world st)
      = (Return response, w) →
      completion_text response = Return raw_text →
      (length (parse_titles raw_text) < 3)%nat →
      r = Return (fallback_titles current_title).
Proof.
  unfold generate_viral_titles.
  destruct (getenv env "GROQ_API_KEY") as [[|a k]|] eqn:Hkey;
    try (split; [by eexists|intros; discriminate]).
  py_unfold.
  destruct (httpx_post env _ _ _ (world st)) as [[response|e] w] eqn:Hpost; simpl;
    [|split; [by eexists|intros ????? [= <- <-]; congruence]].
  destruct (completion_text response) as [raw_text|e] eqn:Htext; simpl;
    [|split; [by eexists|intros ????? [= <- <-]; congruence]].
  case_bool_decide as Hlen; simpl.
  - split; [by eexists|]. done.
  - split.
    + eexists. split; [done|]. rewrite length_take. lia.
    + intros a' k' response' w' raw' [= <- <-] Hp Ht Hl.
      assert (response' = response) as -> by congruence.
      assert (raw' = raw_text) as -> by congruence. lia.
Qed.

(** C9. When [GROQ_API_KEY] is unset or empty, [generate_viral_titles]
    returns the three fixed instructions for every title and leaves the
    state as it was: no request is issued. *)
Theorem generate_viral_titles_missing_key current_title st :
  Text.truthy (getenv env "GROQ_API_KEY") = false →
  generate_viral_titles env current_title st = (Return missing_key_titles, st)
  ∧ length missing_key_titles = 3%nat
  ∧ calls (generate_viral_titles env current_title st).2 = calls st.
Proof.
  intros Hkey. unfold generate_viral_titles.
  by destruct (getenv env "GROQ_API_KEY") as [[|a k]|].
Qed.

End Suggestions.

(** C8, an instance: two candidates in the answer give the fallback for
    the title. *)
Lemma generate_viral_titles_three_strings_witness :
  (length (parse_titles "First idea | Second idea") < 3)%nat
  ∧ (generate_viral_titles (Mock.env (Some "gsk")) "X"
       (Mock.start Mock.db1 Mock.world_two_titles)).1
    = Return (fallback_titles "X").
Proof.
  split; [vm_compute; lia|].
  pose proof (generate_viral_titles_three_strings (Mock.env (Some "gsk")) "X"
                (Mock.start Mock.db1 Mock.world_two_titles)) as H.
  destruct (generate_viral_titles _ _ _) as [r st']. cbn [fst].
  destruct H as [_ H].
  apply (H "g"%char "sk" (Mock.chat " First idea | Second idea ")
           Mock.world_two_titles "First idea | Second idea");
    [reflexivity|reflexivity|reflexivity|vm_compute; lia].
Defined.

(** C9, an instance: no key in the reference environment. *)
Lemma generate_viral_titles_missing_key_witness :
  Text.truthy (getenv (Mock.env None) "GROQ_API_KEY") = false
  ∧ generate_viral_titles (Mock.env None) "X" (Mock.start Mock.db1 Mock.world0)
    = (Return missing_key_titles, Mock.start Mock.db1 Mock.world0).
Proof.
  split; [reflexivity|].
  apply (generate_viral_titles_missing_key (Mock.env None) "X"
           (Mock.start Mock.db1 Mock.world0)).
  reflexivity.
Defined.

(** ** Metadata update: the local upsert *)

Section UpdateMetadata.
Context {W : Type} (env : Env W).
Implicit Types (st : state W) (youtube : YouTube W).

Lemma update_video_info_db youtube video_id title description st :
  db (update_video_info youtube video_id title description st).2 = db st.
Proof.
  unfold update_video_info, setitem. py_unfold.
  destruct (videos_list youtube _ _ (world st)) as [[response|e] w]; simpl; [|done].
  destruct (default [] (VideoList.items response)) as [|item items]; simpl; [done|].
  destruct (item !! "snippet") as [[]|]; simpl; try done.
  by destruct (videos_update youtube _ _ _ w).
Qed.

Lemma note_by_video_elem video_id (d : database) note :
  note_by_video video_id d = Some note →
  note ∈ notes d ∧ Note.video_id note = video_id.
Proof.
  unfold note_by_video. intros H%head_Some_elem_of.
  apply list_elem_of_filter in H. tauto.
Qed.

(** The database a successful metadata update leaves: the upsert on the
    notes table, then the audit event.  The description does not occur. *)
Lemma update_metadata_db video_id body authorization st ok st' :
  update_metadata env video_id body authorization st = (Return ok, st') →
  db st'
  = add_log "VIDEO_METADATA_UPDATED"
      ("video_id=" +:+ video_id +:+ " title='" +:+ vmu_title body +:+ "'")
      match note_by_video video_id (db st) with
      | Some note => update_note_title note (Some (vmu_title body)) (db st)
      | None =>
          (add_note_row (λ id now,
             Note.mk id video_id (Some (vmu_title body)) None (Some []) now None)
             (db st)).2
      end.
Proof.
  unfold update_metadata. rewrite resolve_bind.
  destruct (resolve_session env authorization st) as [youtube|e]; [|done].
  pose proof (update_video_info_db youtube video_id (vmu_title body)
                (vmu_description body) st) as Hdb.
  py_unfold. unfold bound.
  destruct (update_video_info youtube _ _ _ st) as [[item|e] st1];
    simpl in *; [|done].
  destruct (Text.has_nul video_id); simpl; [done|].
  destruct (Text.has_nul (vmu_title body)); simpl; [done|].
  rewrite Hdb.
  destruct (note_by_video video_id (db st)) as [note|]; simpl; intros [= <- <-];
    simpl; by rewrite Hdb.
Qed.

(** C10. After a metadata update that succeeded, the notes table holds, of
    the submission, only the title.  If a note of the video was found, the
    table is the old one row by row: every row keeps its id, video, content,
    tags and creation time, rows with another id are untouched, the row
    found has the new title, and [updated_at] changes only where the UPDATE
    for a changed title stamps it with the time of the request.  If none
    was found, one row is appended, with the new title, no content and the
    empty tag list.  The whole database is the same whatever description
    was submitted. *)
Theorem update_metadata_mirrors_title_only video_id body authorization st ok st' :
  update_metadata env video_id body authorization st = (Return ok, st') →
  match note_by_video video_id (db st) with
  | Some note =>
      note ∈ notes (db st)
      ∧ Forall2 (λ n n',
           Note.id n' = Note.id n ∧ Note.video_id n' = Note.video_id n
           ∧ Note.content n' = Note.content n ∧ Note.tags n' = Note.tags n
           ∧ Note.created_at n' = Note.created_at n
           ∧ (Note.id n ≠ Note.id note → n' = n)
           ∧ (n = note → Note.title n' = Some (vmu_title body))
           ∧ (Note.updated_at n' = Note.updated_at n
              ∨ Note.title note ≠ Some (vmu_title body)
                ∧ Note.id n = Note.id note
                ∧ Note.updated_at n' = Some (clock (db st))))
         (notes (db st)) (notes (db st'))
  | None =>
      notes (db st')
      = notes (db st)
        ++ [Note.mk (notes_id_seq (db st)) video_id (Some (vmu_title body))
                    None (Some []) (clock (db st)) None]
  end
  ∧ ∀ description ok2 st2,
      update_metadata env video_id
        (mkVideoMetadataUpdate (vmu_title body) description) authorization st
      = (Return ok2, st2) →
      db st2 = db st'.
Proof.
  intros Hrun. pose proof (update_metadata_db _ _ _ _ _ _ Hrun) as Hdb.
  split; [|intros description ok2 st2 Hrun2;
           rewrite (update_metadata_db _ _ _ _ _ _ Hrun2); by rewrite Hdb].
  rewrite Hdb.
  destruct (note_by_video video_id (db st)) as [note|] eqn:Hnote; [|done].
  apply note_by_video_elem in Hnote as [Hin _]. split; [done|].
  unfold update_note_title. case_bool_decide as Htitle; simpl.
  - apply Forall_Forall2_diag, Forall_forall. intros n _.
    split_and!; try done; [by intros ->|by left].
  - apply Forall2_fmap_r, Forall_Forall2_diag, Forall_forall. intros n _. simpl.
    case_bool_decide as Hid; simpl.
    + split_and!; try done. by right.
    + split_and!; try done; [by intros ->|by left].
Qed.

End UpdateMetadata.

(** C10, an instance: the video of the three notes gets a new title; the
    first note of the video takes it and keeps its content and tags. *)
Lemma update_metadata_mirrors_title_only_witness :
  ∃ ok st',
    update_metadata (Mock.env None) "v1" Mock.new_metadata Mock.bearer
      (Mock.start Mock.db3 Mock.world0) = (Return ok, st')
    ∧ Mock.note1 ∈ notes Mock.db3
    ∧ ∀ description ok2 st2,
        update_metadata (Mock.env None) "v1"
          (mkVideoMetadataUpdate "New title" description) Mock.bearer
          (Mock.start Mock.db3 Mock.world0) = (Return ok2, st2) →
        db st2 = db st'.
Proof.
  destruct (update_metadata (Mock.env None) "v1" Mock.new_metadata Mock.bearer
              (Mock.start Mock.db3 Mock.world0)) as [r st'] eqn:Hrun.
  assert (∃ ok, r = Return ok) as [ok ->].
  { vm_compute in Hrun. injection Hrun as <- _. by eexists. }
  exists ok, st'. split; [reflexivity|].
  destruct (update_metadata_mirrors_title_only _ _ _ _ _ _ _ Hrun) as [Hrows Hindep].
  change (note_by_video "v1" (db (Mock.start Mock.db3 Mock.world0)))
    with (Some Mock.note1) in Hrows.
  split; [exact (proj1 Hrows)|exact Hindep].
Defined.

(** ** The schema is kept by every run *)

Lemma keyed_nil seq : keyed [] seq.
Proof. split; [apply NoDup_nil_2|apply Forall_nil_2]. Qed.

Lemma keyed_snoc ids seq : keyed ids seq → keyed (ids ++ [seq]) (seq + 1).
Proof.
  intros [Hnd Hlt]. split.
  - apply NoDup_app. split_and!; [done| |apply NoDup_singleton].
    intros i Hi ->%list_elem_of_singleton.
    rewrite Forall_forall in Hlt. specialize (Hlt _ Hi). lia.
  - apply Forall_app. split; [|by repeat constructor; lia].
    eapply Forall_impl; [done|]. simpl. lia.
Qed.

Lemma keyed_bump ids seq : keyed ids seq → keyed ids (seq + 1).
Proof.
  intros [Hnd Hlt]. split; [done|].
  eapply Forall_impl; [done|]. simpl. lia.
Qed.

Lemma keyed_sublist ids' ids seq :
  ids' `sublist_of` ids → keyed ids seq → keyed ids' seq.
Proof.
  intros Hsub [Hnd Hlt]. split; [by eapply sublist_NoDup|].
  rewrite Forall_forall in Hlt |- *. eauto using elem_of_sublist.
Qed.

Lemma keyed_filter {A} (f : A → Z) (P : A → Prop) `{!∀ x, Decision (P x)} l seq :
  keyed (f <$> l) seq → keyed (f <$> filter P l) seq.
Proof. apply keyed_sublist, fmap_sublist, sublist_filter. Qed.

Lemma NoDup_fmap_filter {A B} (f : A → B) (P : A → Prop) `{!∀ x, Decision (P x)} l :
  NoDup (f <$> l) → NoDup (f <$> filter P l).
Proof. intros Hnd. eapply sublist_NoDup; [done|]. apply fmap_sublist, sublist_filter. Qed.

Section Writes.
Implicit Types (d : database).

Lemma empty_consistent now : consistent (mkdb [] [] [] [] 1 1 1 1 now).
Proof. constructor; simpl; try apply keyed_nil; apply NoDup_nil_2. Qed.

Lemma set_clock_consistent now d : consistent d → consistent (set_clock now d).
Proof. by intros []. Qed.

Lemma add_log_consistent action details d :
  consistent d → consistent (add_log action details d).
Proof.
  intros []. constructor; simpl; try done.
  rewrite fmap_app. by apply keyed_snoc.
Qed.

Lemma add_user_session_consistent mk_row d :
  (∀ i now, UserSession.id (mk_row i now) = i) →
  consistent d → consistent (add_user_session mk_row d).2.
Proof.
  intros Hid []. unfold add_user_session. case_bool_decide as Hin; simpl.
  - constructor; simpl; try done. by apply keyed_bump.
  - constructor; simpl; try done.
    + rewrite fmap_app. simpl. rewrite Hid. by apply keyed_snoc.
    + unfold session_tokens in *. simpl. rewrite fmap_app.
      apply NoDup_app. split_and!; [done| |apply NoDup_singleton].
      intros x Hx ->%list_elem_of_singleton. done.
Qed.

Lemma delete_sessions_by_token_consistent token d :
  consistent d → consistent (delete_sessions_by_token token d).
Proof.
  intros []. constructor; simpl; try done.
  - by apply keyed_filter.
  - by apply NoDup_fmap_filter.
Qed.

Lemma add_comment_row_consistent mk_row d :
  (∀ i now, Comment.id (mk_row i now) = i) →
  consistent d → consistent (add_comment_row mk_row d).2.
Proof.
  intros Hid []. unfold add_comment_row. case_bool_decide as Hin; simpl.
  - constructor; simpl; try done. by apply keyed_bump.
  - constructor; simpl; try done.
    + rewrite fmap_app. simpl. rewrite Hid. by apply keyed_snoc.
    + rewrite fmap_app. apply NoDup_app. split_and!; [done| |apply NoDup_singleton].
      intros x Hx ->%list_elem_of_singleton. done.
Qed.

Lemma delete_comment_row_consistent c d :
  consistent d → consistent (delete_comment_row c d).
Proof.
  intros []. constructor; simpl; try done.
  - by apply keyed_filter.
  - by apply NoDup_fmap_filter.
Qed.

Lemma add_note_row_consistent mk_row d :
  (∀ i now, Note.id (mk_row i now) = i) →
  consistent d → consistent (add_note_row mk_row d).2.
Proof.
  intros Hid []. constructor; simpl; try done.
  rewrite fmap_app. simpl. rewrite Hid. by apply keyed_snoc.
Qed.

Lemma fmap_id_preserved (g : Note.t → Note.t) (l : list Note.t) :
  (∀ n, Note.id (g n) = Note.id n) → Note.id <$> (g <$> l) = Note.id <$> l.
Proof.
  intros Hg. rewrite <- list_fmap_compose. apply list_fmap_ext. intros ???. apply Hg.
Qed.

Lemma update_note_title_consistent n v d :
  consistent d → consistent (update_note_title n v d).
Proof.
  intros []. unfold update_note_title. case_bool_decide; [done|].
  constructor; simpl; try done.
  rewrite fmap_id_preserved; [done|]. intros n'. by case_bool_decide.
Qed.

Lemma update_note_columns_consistent n title content tags d :
  consistent d → consistent (update_note_columns n title content tags d).
Proof.
  intros []. unfold update_note_columns. case_match; [|done].
  constructor; simpl; try done.
  rewrite fmap_id_preserved; [done|]. intros n'.
  by destruct (bool_decide (Note.id n' = Note.id n)).
Qed.

Lemma delete_note_row_consistent n d :
  consistent d → consistent (delete_note_row n d).
Proof.
  intros []. constructor; simpl; try done. by apply keyed_filter.
Qed.

End Writes.

(** The rules for [preserves]. *)
Section Preserves.
Context {W : Type} (I : database → Prop).

Lemma preserves_ret {A} (a : A) : preserves (W:=W) I (mret a).
Proof. by intros st. Qed.

Lemma preserves_raise {A} e : preserves (W:=W) (A:=A) I (raise e).
Proof. by intros st. Qed.

Lemma preserves_lift {A} (r : result A) : preserves (W:=W) I (lift r).
Proof. by intros st. Qed.

Lemma preserves_query {A} (f : database → A) : preserves (W:=W) I (query f).
Proof. by intros st. Qed.

Lemma preserves_print line : preserves (W:=W) I (print line).
Proof. by intros st. Qed.

Lemma preserves_bound params : preserves (W:=W) I (bound params).
Proof. intros st. unfold bound. by destruct (forallb _ _). Qed.

Lemma preserves_execute {A} c (m : remote (W:=W) A) : preserves I (execute c m).
Proof. intros st. unfold execute. by destruct (m (world st)). Qed.

Lemma preserves_commit f : (∀ d, I d → I (f d)) → preserves (W:=W) I (commit f).
Proof. intros Hf st. apply Hf. Qed.

Lemma preserves_commit_checked {A} (f : database → result A * database) :
  (∀ d, I d → I (f d).2) → preserves (W:=W) I (commit_checked f).
Proof.
  intros Hf st HI. unfold commit_checked. specialize (Hf _ HI).
  by destruct (f (db st)).
Qed.

Lemma preserves_bind {A B} (m : py (W:=W) A) (k : A → py B) :
  preserves I m → (∀ a, preserves I (k a)) → preserves I (m ≫= k).
Proof.
  intros Hm Hk st HI. unfold mbind, py_bind. specialize (Hm st HI).
  destruct (m st) as [[a|e] st1]; [by apply Hk|done].
Qed.

Lemma preserves_try_except {A} (body : py (W:=W) A) handler :
  preserves I body → (∀ e, preserves I (handler e)) →
  preserves I (try_except body handler).
Proof.
  intros Hb Hh st HI. unfold try_except. specialize (Hb st HI).
  destruct (body st) as [[a|e] st1]; [done|by apply Hh].
Qed.

End Preserves.

(** Walks through a handler along its binds, branches and handlers, leaving
    the writes. *)
Ltac preserves_step :=
  first
    [ apply preserves_ret | apply preserves_raise | apply preserves_lift
    | apply preserves_query | apply preserves_print | apply preserves_bound
    | apply preserves_execute
    | apply preserves_bind; [|intros ?]
    | apply preserves_try_except; [|intros ?]
    | apply preserves_commit; intros ? ?
    | apply preserves_commit_checked; intros ? ?
    | match goal with
      | |- preserves _ (match ?x with _ => _ end) => destruct x
      end ].

Create HintDb schema discriminated.

#[local] Hint Resolve set_clock_consistent add_log_consistent
  delete_sessions_by_token_consistent delete_comment_row_consistent
  update_note_title_consistent update_note_columns_consistent
  delete_note_row_consistent : schema.
#[local] Hint Extern 2 (consistent (add_user_session _ _).2) =>
  apply add_user_session_consistent; [done|] : schema.
#[local] Hint Extern 2 (consistent (add_comment_row _ _).2) =>
  apply add_comment_row_consistent; [done|] : schema.
#[local] Hint Extern 2 (consistent (add_note_row _ _).2) =>
  apply add_note_row_consistent; [done|] : schema.

Ltac preserves_consistent :=
  repeat preserves_step; cbn [fst snd]; eauto with schema.

Section ServeConsistent.
Context {W : Type} (env : Env W).

Lemma get_token_from_header_consistent authorization :
  preserves (W:=W) consistent (get_token_from_header authorization).
Proof. unfold get_token_from_header. preserves_consistent. Qed.

Lemma get_youtube_from_db_consistent token :
  preserves consistent (get_youtube_from_db env token).
Proof. unfold get_youtube_from_db. preserves_consistent. Qed.

Lemma log_event_consistent action details :
  preserves (W:=W) consistent (log_event action details).
Proof. unfold log_event. preserves_consistent. Qed.

Lemma generate_viral_titles_consistent current_title :
  preserves consistent (generate_viral_titles env current_title).
Proof. unfold generate_viral_titles. preserves_consistent. Qed.

#[local] Hint Resolve get_token_from_header_consistent get_youtube_from_db_consistent
  log_event_consistent generate_viral_titles_consistent : schema.

Lemma auth_callback_consistent code :
  preserves consistent (auth_callback env code).
Proof. unfold auth_callback. preserves_consistent. Qed.

Lemma logout_consistent authorization :
  preserves consistent (logout env authorization).
Proof. unfold logout. preserves_consistent. Qed.

Lemma list_videos_consistent authorization :
  preserves consistent (list_videos env authorization).
Proof.
  unfold list_videos, list_my_videos, youtube_api_error. preserves_consistent.
Qed.

Lemma get_video_consistent video_id authorization :
  preserves consistent (get_video env video_id authorization).
Proof. unfold get_video, fetch_video_details. preserves_consistent. Qed.

Lemma update_metadata_consistent video_id body authorization :
  preserves consistent (update_metadata env video_id body authorization).
Proof.
  unfold update_metadata, update_video_info, subscript, youtube_api_error.
  preserves_consistent.
Qed.

Lemma get_ai_suggestions_consistent video_id data :
  preserves consistent (get_ai_suggestions env video_id data).
Proof. unfold get_ai_suggestions. preserves_consistent. Qed.

Lemma get_comments_consistent video_id authorization :
  preserves consistent (get_comments env video_id authorization).
Proof.
  unfold get_comments, fetch_video_comments, youtube_api_error. preserves_consistent.
Qed.

Lemma add_comment_consistent video_id body authorization :
  preserves consistent (add_comment env video_id body authorization).
Proof.
  unfold add_comment, insert_remote, post_comment, reply_to_comment, subscript,
    youtube_api_error.
  preserves_consistent.
Qed.

Lemma remove_comment_consistent comment_id authorization :
  preserves consistent (remove_comment env comment_id authorization).
Proof.
  unfold remove_comment, delete_comment, youtube_api_error. preserves_consistent.
Qed.

Lemma create_note_consistent video_id body :
  preserves (W:=W) consistent (create_note video_id body).
Proof.
  unfold create_note. preserves_consistent.
  match goal with
  | |- context [add_note_row ?f ?d] =>
      pose proof (add_note_row_consistent f d) as Hrow;
      destruct (add_note_row f d); auto
  end.
Qed.

Lemma update_note_consistent note_id body :
  preserves (W:=W) consistent (update_note note_id body).
Proof. unfold update_note. preserves_consistent. Qed.

Lemma delete_note_consistent note_id :
  preserves (W:=W) consistent (delete_note note_id).
Proof. unfold delete_note. preserves_consistent. Qed.

(** Every request leaves the primary keys and the unique columns intact. *)
Lemma serve_consistent req st :
  consistent (db st) → consistent (db (serve env req st)).
Proof.
  destruct req; simpl;
    [ apply auth_callback_consistent | apply logout_consistent
    | apply list_videos_consistent | apply get_video_consistent
    | apply update_metadata_consistent | apply get_ai_suggestions_consistent
    | apply get_comments_consistent | apply add_comment_consistent
    | apply remove_comment_consistent | apply create_note_consistent
    | apply update_note_consistent | apply delete_note_consistent ].
Qed.

(** The schema is an invariant of the runs: from a consistent database, and
    so from the empty one, only consistent databases are reached. *)
Lemma run_consistent st st' :
  rtc (step env) st st' → consistent (db st) → consistent (db st').
Proof.
  induction 1 as [|st st1 st' Hstep _ IH]; [done|].
  intros Hst. apply IH. destruct Hstep as [req st|st w now Hnow].
  - by apply serve_consistent.
  - simpl. by apply set_clock_consistent.
Qed.

(** In particular the keys that the properties of comment creation,
    comment deletion and the OAuth callback rely on hold in every state of
    a run that starts from a consistent database. *)
Lemma run_keys st st' :
  rtc (step env) st st' → consistent (db st) →
  NoDup (Comment.id <$> comments (db st'))
  ∧ NoDup (Comment.youtube_comment_id <$> comments (db st'))
  ∧ NoDup (session_tokens (db st')).
Proof.
  intros Hrun Hst. destruct (run_consistent _ _ Hrun Hst) as [_ _ _ [Hkey _] Htok Hyt].
  done.
Qed.

End ServeConsistent.

(** The scenario of the specification: a note posted with the tag ["Fun"]
    is found under the tag ["fun"]. *)
Example create_note_then_get_notes :
  (get_notes (Mock.env None) "abc123" None (Some "fun")
     (create_note "abc123" (mkNoteCreate "abc123" None "hi" ["Fun"])
        (Mock.start Mock.empty_db Mock.world0)).2).1
  = Return [Note.mk 1 "abc123" None (Some "hi") (Some ["Fun"]) 100 None].
Proof. by vm_compute. Qed.

(** The stamp of the model's [onupdate] rule: the row whose title the
    upsert changes gets [updated_at], the other rows keep theirs. *)
Example update_metadata_stamps_updated_at :
  Note.updated_at Mock.note1 = None
  ∧ Note.updated_at <$>
      notes (db (update_metadata (Mock.env None) "v1" Mock.new_metadata Mock.bearer
                   (Mock.start Mock.db3 Mock.world0)).2)
    = [Some 100; None; None]
  ∧ Note.title <$>
      notes (db (update_metadata (Mock.env None) "v1" Mock.new_metadata Mock.bearer
                   (Mock.start Mock.db3 Mock.world0)).2)
    = [Some "New title"; None; None].
Proof. by vm_compute. Qed.

(** * Further properties *)

(** ** Strings *)

Lemma str_app_cons a s t : String a s +:+ t = String a (s +:+ t).
Proof. reflexivity. Qed.

Lemma str_app_empty_r s : s +:+ EmptyString = s.
Proof. induction s as [|a s IH]; [done|]. by rewrite str_app_cons, IH. Qed.

Lemma str_app_assoc s1 s2 s3 : (s1 +:+ s2) +:+ s3 = s1 +:+ s2 +:+ s3.
Proof. induction s1 as [|a s1 IH]; [done|]. by rewrite !str_app_cons, IH. Qed.

Lemma prefix_app p t : String.prefix p (p +:+ t) = true.
Proof.
  induction p as [|a p IH]; [by destruct t|].
  rewrite str_app_cons. cbn [String.prefix].
  destruct (ascii_dec a a); [done|congruence].
Qed.

Lemma split_from_skip sep cur p t :
  Text.split_from sep (String.length p) cur (p +:+ t) = Text.split_from sep 0 cur t.
Proof.
  induction p as [|a p IH]; [done|]. rewrite str_app_cons.
  cbn [String.length Text.split_from]. exact IH.
Qed.

(** A string in which the separator does not occur is its own single
    piece. *)
Lemma split_from_no_occurrence sep cur s :
  contains sep s = false → Text.split_from sep 0 cur s = [cur +:+ s].
Proof.
  revert cur. induction s as [|a s IH]; intros cur Hno.
  - cbn [Text.split_from]. by rewrite str_app_empty_r.
  - cbn [contains] in Hno. apply orb_false_iff in Hno as [Hpre Hno].
    cbn [Text.split_from]. rewrite Hpre, (IH _ Hno).
    by rewrite str_app_assoc.
Qed.

Lemma split_prefixed sep t :
  sep ≠ EmptyString → contains sep t = false →
  Text.split (sep +:+ t) sep = [EmptyString; t].
Proof.
  intros Hsep Hno. unfold Text.split. destruct sep as [|a sep]; [done|].
  rewrite str_app_cons. cbn [Text.split_from].
  rewrite <- str_app_cons, prefix_app. f_equal.
  cbn [String.length Nat.pred].
  rewrite split_from_skip. by apply split_from_no_occurrence.
Qed.

(** ** The bearer header *)

Section BearerHeader.
Context {W : Type} (env : Env W).
Implicit Types (st : state W).

(** X1. [get_token_from_header] returns a token exactly for a header that
    starts with ["Bearer "]; for a missing or any other header it raises
    401; it never changes the state. *)
Theorem get_token_from_header_accepts authorization st :
  (get_token_from_header authorization st).2 = st
  ∧ if match authorization with
       | Some header => Text.startswith header "Bearer "
       | None => false
       end
    then ∃ token, (get_token_from_header authorization st).1 = Return token
    else (get_token_from_header authorization st).1
         = Raise (HTTPException 401 "Missing or invalid Authorization header.").
Proof.
  split; [apply get_token_from_header_frame|].
  unfold get_token_from_header.
  destruct authorization as [[|a h]|]; [done| |done].
  destruct (Text.startswith (String a h) "Bearer ") eqn:Hpre; [|done].
  destruct (split_after_prefix _ _ Hpre) as [t ->]; [done|]. by eexists.
Qed.

Lemma get_token_from_header_bearer text st :
  contains "Bearer " text = false →
  get_token_from_header (Some ("Bearer " +:+ text)) st = (Return (Text.strip text), st).
Proof.
  intros Hno. unfold get_token_from_header.
  change ("Bearer " +:+ text) with (String "B" ("earer " +:+ text)).
  cbv iota beta.
  change (String "B" ("earer " +:+ text)) with ("Bearer " +:+ text).
  unfold Text.startswith. rewrite prefix_app.
  by rewrite split_prefixed.
Qed.

(** X2. For a header made of ["Bearer "] and a text in which ["Bearer "]
    does not occur again, the token is that text without the white space
    around it. *)
Theorem get_token_from_header_strips text st :
  contains "Bearer " text = false →
  get_token_from_header (Some ("Bearer " +:+ text)) st = (Return (Text.strip text), st).
Proof. apply get_token_from_header_bearer. Qed.

(** X3. A protected route whose session does not resolve ends in the 401
    of the resolution with the state as it was: no remote call is issued
    and nothing is written. *)
Theorem protected_requires_session req authorization st e :
  protected req = Some authorization →
  resolve_session env authorization st = Raise e →
  run_request env req st = (Raise e, st)
  ∧ ∃ detail, e = HTTPException 401 detail.
Proof.
  intros Hreq Hres. split; [|by eapply resolve_session_raises].
  destruct req; simplify_eq/=; unfold respond; unfold mbind at 1; unfold py_bind.
  - unfold list_videos. by rewrite resolve_bind, Hres.
  - unfold get_video. by rewrite resolve_bind, Hres.
  - unfold update_metadata. by rewrite resolve_bind, Hres.
  - unfold get_comments. by rewrite resolve_bind, Hres.
  - unfold mbind at 1. unfold py_bind, add_comment. by rewrite resolve_bind, Hres.
  - unfold remove_comment. by rewrite resolve_bind, Hres.
Qed.

End BearerHeader.

(** X2, an instance: the white space around the token is dropped. *)
Lemma get_token_from_header_strips_witness :
  contains "Bearer " " tok " = false
  ∧ get_token_from_header (W:=Mock.world) (Some "Bearer  tok ")
      (Mock.start Mock.db1 Mock.world0)
    = (Return "tok", Mock.start Mock.db1 Mock.world0).
Proof.
  split; [reflexivity|].
  apply (get_token_from_header_strips " tok " (Mock.start Mock.db1 Mock.world0)).
  reflexivity.
Defined.

(** A second ["Bearer "] in the header cuts the token short. *)
Example get_token_from_header_cut :
  (get_token_from_header (W:=Mock.world) (Some "Bearer abcBearer xyz")
     (Mock.start Mock.db1 Mock.world0)).1 = Return "abc".
Proof. reflexivity. Qed.

(** White space beyond ASCII is stripped as well: a no-break space (U+00A0)
    behind the token, an ideographic space (U+3000) before it. *)
Example get_token_from_header_no_break_space :
  (get_token_from_header (W:=Mock.world)
     (Some ("Bearer " +:+ Text.encode 12288 +:+ "tok" +:+ Text.encode 160))
     (Mock.start Mock.db1 Mock.world0)).1 = Return "tok".
Proof. reflexivity. Qed.

(** X3, an instance: a comment posted with an unknown token. *)
Lemma protected_requires_session_witness :
  protected (POST_comment "v1" (mkCommentCreate "hello" None) (Some "Bearer nope"))
  = Some (Some "Bearer nope")
  ∧ run_request (Mock.env None)
      (POST_comment "v1" (mkCommentCreate "hello" None) (Some "Bearer nope"))
      (Mock.start Mock.db1 Mock.world0)
    = (Raise (HTTPException 401 "Session not found. Please log in again via /login."),
       Mock.start Mock.db1 Mock.world0).
Proof.
  split; [reflexivity|].
  apply (protected_requires_session (Mock.env None)
           (POST_comment "v1" (mkCommentCreate "hello" None) (Some "Bearer nope"))
           (Some "Bearer nope") (Mock.start Mock.db1 Mock.world0)); reflexivity.
Defined.

(** ** From the callback to a resolved session *)

Section CallbackThenResolve.
Context {W : Type} (env : Env W).
Implicit Types (st : state W).

(** The row a callback appends for a token that is not on file. *)
Lemma auth_callback_new_row a c st creds w :
  fetch_token env (build_flow env) (String a c) (world st) = (Return creds, w) →
  Credentials.token creds ∉ session_tokens (db st) →
  user_sessions (db (auth_callback env (Some (String a c)) st).2)
  = user_sessions (db st)
    ++ [UserSession.mk (user_sessions_id_seq (db st)) (Credentials.token creds)
          (Credentials.refresh_token creds) (Credentials.token_uri creds)
          (Credentials.client_id creds) (Credentials.client_secret creds)
          (stored_scopes creds) (clock (db st))].
Proof.
  intros Hfetch Hnew.
  unfold auth_callback, add_user_session. py_unfold. rewrite Hfetch. simpl.
  apply session_by_token_None in Hnew as Hnone. rewrite Hnone. simpl.
  by rewrite bool_decide_eq_false_2.
Qed.

(** X4. After a callback whose exchange handed back credentials with a
    token that was not on file, that has no white space around it and does
    not contain ["Bearer "], the header ["Bearer " + token] resolves to the
    client built from exactly those credentials (the scopes as stored). *)
Theorem auth_callback_then_resolve a c st creds w :
  fetch_token env (build_flow env) (String a c) (world st) = (Return creds, w) →
  Credentials.token creds ∉ session_tokens (db st) →
  contains "Bearer " (Credentials.token creds) = false →
  Text.strip (Credentials.token creds) = Credentials.token creds →
  resolve_session env (Some ("Bearer " +:+ Credentials.token creds))
    (auth_callback env (Some (String a c)) st).2
  = Return (build env
      (Credentials.mk (Credentials.token creds) (Credentials.refresh_token creds)
         (Credentials.token_uri creds) (Credentials.client_id creds)
         (Credentials.client_secret creds) (Some (stored_scopes creds)))).
Proof.
  intros Hfetch Hnew Hno Hstrip.
  pose proof (auth_callback_new_row _ _ _ _ _ Hfetch Hnew) as Hrows.
  unfold resolve_session. unfold mbind at 1. unfold py_bind.
  rewrite (get_token_from_header_bearer _ _ Hno), Hstrip.
  unfold get_youtube_from_db. py_unfold. unfold session_by_token.
  rewrite Hrows, filter_app.
  destruct (filter_key_absent UserSession.access_token _ _ Hnew) as [-> _].
  simpl. by rewrite filter_cons_True, filter_nil.
Qed.

End CallbackThenResolve.

(** X4, an instance: log in on the reference environment, then present the
    token. *)
Lemma auth_callback_then_resolve_witness :
  (Credentials.token (Mock.creds "tok") ∉ session_tokens Mock.empty_db)
  ∧ resolve_session (Mock.env None) (Some "Bearer tok")
      (auth_callback (Mock.env None) (Some "code")
         (Mock.start Mock.empty_db Mock.world0)).2
    = Return Mock.youtube.
Proof.
  split; [by apply not_elem_of_nil|].
  apply (auth_callback_then_resolve (Mock.env None) "c" "ode"
           (Mock.start Mock.empty_db Mock.world0) (Mock.creds "tok") Mock.world0);
    [reflexivity|by apply not_elem_of_nil|reflexivity|reflexivity].
Defined.

(** ** Listing the uploads *)

Lemma join_ids_strings (ids : list string) :
  join_ids (JStr <$> ids) = Return (join "," ids).
Proof.
  unfold join_ids.
  assert (∀ i, str_items i (JStr <$> ids) = Return ids) as ->; [|done].
  induction ids as [|s ids IH]; intros i; [done|].
  simpl. by rewrite IH.
Qed.

Section ListMyVideos.
Context {W : Type}.
Implicit Types (st : state W) (youtube : YouTube W).

(** X5. With a channel listed, its uploads playlist holding the video ids
    [ids] (at least one), [list_my_videos] issues exactly three calls: the
    channel lookup, the playlist listing for the uploads id with the cap 20,
    and one [videos.list] whose [id] is the ids joined by commas in playlist
    order; the result is what that last call answers. *)
Theorem list_my_videos_chain youtube st channel channels playlist items ids w1 w2 :
  channels_list youtube "contentDetails" true (world st)
  = (Return (ChannelList.mk (Some (channel :: channels))), w1) →
  uploads_of channel = Return playlist →
  playlistItems_list youtube "contentDetails" playlist 20 w1
  = (Return (PlaylistItemList.mk (Some items)), w2) →
  video_ids_of items = Return (JStr <$> ids) →
  ids ≠ [] →
  calls (list_my_videos youtube st).2
  = calls st ++ [ChannelsList "contentDetails" true;
                 PlaylistItemsList "contentDetails" playlist 20;
                 VideosList "snippet,statistics" (join "," ids)]
  ∧ (list_my_videos youtube st).1
    = match (videos_list youtube "snippet,statistics" (join "," ids) w2).1 with
      | Return response => Return (default [] (VideoList.items response))
      | Raise e => Raise e
      end.
Proof.
  intros Hch Hup Hpl Hids Hne. unfold list_my_videos. py_unfold.
  rewrite Hch. simpl. revert Hup. unfold uploads_of, mbind, result_bind.
  destruct (getitem channel "contentDetails") as [details|]; [|done]. simpl.
  destruct (getitem details "relatedPlaylists") as [related|]; [|done]. simpl.
  intros ->. simpl. rewrite Hpl. simpl. rewrite Hids. simpl.
  destruct ids as [|i ids]; [done|]. simpl fmap.
  change (JStr i :: (JStr <$> ids)) with (JStr <$> (i :: ids)).
  rewrite join_ids_strings. simpl.
  destruct (videos_list youtube _ _ w2) as [[response|e] w3]; simpl;
    by rewrite <- !app_assoc.
Qed.

(** X6. Without a channel, [list_my_videos] returns the empty list after
    the channel lookup alone; with a channel whose uploads playlist is
    empty, it returns the empty list after the playlist listing.  In both
    cases [videos.list] is not issued. *)
Theorem list_my_videos_nothing_to_fetch youtube st channels w1 :
  channels_list youtube "contentDetails" true (world st)
  = (Return (ChannelList.mk channels), w1) →
  (default [] channels = [] →
   (list_my_videos youtube st).1 = Return []
   ∧ calls (list_my_videos youtube st).2
     = calls st ++ [ChannelsList "contentDetails" true])
  ∧ (∀ channel rest playlist items w2,
       default [] channels = channel :: rest →
       uploads_of channel = Return playlist →
       playlistItems_list youtube "contentDetails" playlist 20 w1
       = (Return (PlaylistItemList.mk items), w2) →
       default [] items = [] →
       (list_my_videos youtube st).1 = Return []
       ∧ calls (list_my_videos youtube st).2
         = calls st ++ [ChannelsList "contentDetails" true;
                        PlaylistItemsList "contentDetails" playlist 20]).
Proof.
  intros Hch. unfold list_my_videos. py_unfold. rewrite Hch. simpl. split.
  - by intros ->.
  - intros channel rest playlist items w2 -> Hup Hpl Hit.
    revert Hup. unfold uploads_of, mbind, result_bind.
    destruct (getitem channel "contentDetails") as [details|]; [|done]. simpl.
    destruct (getitem details "relatedPlaylists") as [related|]; [|done]. simpl.
    intros ->. simpl. rewrite Hpl. simpl. rewrite Hit. simpl.
    by rewrite <- app_assoc.
Qed.

End ListMyVideos.

(** X5, an instance: the one video of the reference platform. *)
Lemma list_my_videos_chain_witness :
  calls (list_my_videos Mock.youtube (Mock.start Mock.db1 Mock.world0)).2
  = [ChannelsList "contentDetails" true;
     PlaylistItemsList "contentDetails" (JStr "UU1") 20;
     VideosList "snippet,statistics" "v1"]
  ∧ (list_my_videos Mock.youtube (Mock.start Mock.db1 Mock.world0)).1
    = Return [Mock.video1].
Proof.
  apply (list_my_videos_chain Mock.youtube (Mock.start Mock.db1 Mock.world0)
           Fixture.channel1 [] (JStr "UU1") [Mock.playlist_item "v1"] ["v1"]
           Mock.world0 Mock.world0);
    by vm_compute.
Defined.

(** X6, an instance: an account without uploads. *)
Lemma list_my_videos_nothing_to_fetch_witness :
  (list_my_videos Mock.youtube (Mock.start Mock.db1 Fixture.world_no_videos)).1
  = Return []
  ∧ calls (list_my_videos Mock.youtube (Mock.start Mock.db1 Fixture.world_no_videos)).2
    = [ChannelsList "contentDetails" true;
       PlaylistItemsList "contentDetails" (JStr "UU1") 20].
Proof.
  eapply (list_my_videos_nothing_to_fetch Mock.youtube
            (Mock.start Mock.db1 Fixture.world_no_videos)); by vm_compute.
Defined.

(** ** Metadata update: remote first *)

Section UpdateMetadataRemoteFirst.
Context {W : Type} (env : Env W).
Implicit Types (st : state W) (youtube : YouTube W).

(** X7. When the remote part of a metadata update raises, be it the fetch,
    the missing video or the update itself, [update_metadata] answers 400
    with the error's text and the database is as it was: no note is created
    or retitled and no audit event is written. *)
Theorem update_metadata_remote_first video_id body authorization st youtube e :
  resolve_session env authorization st = Return youtube →
  (update_video_info youtube video_id (vmu_title body) (vmu_description body) st).1
  = Raise e →
  (update_metadata env video_id body authorization st).1
  = Raise (HTTPException 400 ("YouTube API error: " +:+ str e))
  ∧ db (update_metadata env video_id body authorization st).2 = db st.
Proof.
  intros Hres Hup. unfold update_metadata. rewrite resolve_bind, Hres.
  pose proof (update_video_info_db youtube video_id (vmu_title body)
                (vmu_description body) st) as Hdb.
  py_unfold.
  destruct (update_video_info youtube _ _ _ st) as [[item|e'] st1];
    simpl in *; [done|]. by simplify_eq.
Qed.

(** A video the platform does not list: the text names it, and only the
    fetch was issued. *)
Lemma update_metadata_video_not_found video_id body authorization st youtube items w :
  resolve_session env authorization st = Return youtube →
  videos_list youtube "snippet" video_id (world st)
  = (Return (VideoList.mk items), w) →
  default [] items = [] →
  update_metadata env video_id body authorization st
  = (Raise (HTTPException 400
              ("YouTube API error: Video " +:+ video_id +:+ " not found on YouTube.")),
     mkstate (db st) w (calls st ++ [VideosList "snippet" video_id]) (stdout st)).
Proof.
  intros Hres Hlist Hnone. unfold update_metadata. rewrite resolve_bind, Hres.
  unfold update_video_info. py_unfold. rewrite Hlist. simpl. by rewrite Hnone.
Qed.

End UpdateMetadataRemoteFirst.

(** X7, an instance: the platform is down. *)
Lemma update_metadata_remote_first_witness :
  resolve_session (Mock.env None) Mock.bearer (Mock.start Mock.db3 Mock.world_down)
  = Return Mock.youtube
  ∧ status_of (update_metadata (Mock.env None) "v1" Mock.new_metadata Mock.bearer
                 (Mock.start Mock.db3 Mock.world_down)).1 = 400
  ∧ db (update_metadata (Mock.env None) "v1" Mock.new_metadata Mock.bearer
          (Mock.start Mock.db3 Mock.world_down)).2 = Mock.db3.
Proof.
  split; [reflexivity|].
  destruct (update_metadata_remote_first (Mock.env None) "v1" Mock.new_metadata
              Mock.bearer (Mock.start Mock.db3 Mock.world_down) Mock.youtube
              (Mock.HttpError "503 backendError") eq_refl eq_refl) as [-> ->].
  done.
Defined.

(** ** Comments: one call out, and back again *)

Section CommentRoundTrip.
Context {W : Type} (env : Env W).
Implicit Types (st : state W) (youtube : YouTube W).

Lemma insert_remote_calls youtube video_id body st :
  calls (insert_remote youtube video_id body st).2
  = calls st ++ [insert_call video_id body].
Proof.
  unfold insert_remote, insert_call.
  destruct (cc_parent_id body) as [[|a p]|];
    first [apply post_comment_frame | apply reply_to_comment_frame].
Qed.

(** What a comment creation that returned has done. *)
Lemma add_comment_returns video_id body authorization st youtube row st1 :
  resolve_session env authorization st = Return youtube →
  add_comment env video_id body authorization st = (Return row, st1) →
  comments (db st1) = comments (db st) ++ [row]
  ∧ user_sessions (db st1) = user_sessions (db st)
  ∧ comments_id_seq (db st1) = comments_id_seq (db st) + 1
  ∧ Comment.id row = comments_id_seq (db st)
  ∧ Comment.video_id row = video_id
  ∧ Comment.parent_youtube_id row = cc_parent_id body
  ∧ Comment.text row = cc_text body
  ∧ (insert_remote youtube video_id body st).1 = Return (Comment.youtube_comment_id row)
  ∧ world st1 = world (insert_remote youtube video_id body st).2
  ∧ Text.has_nul video_id = false.
Proof.
  intros Hres. unfold add_comment. rewrite resolve_bind, Hres.
  pose proof (insert_remote_db youtube video_id body st) as Hdb.
  py_unfold. unfold bound, add_comment_row.
  destruct (insert_remote youtube video_id body st) as [[yt|e] st0];
    simpl in *; [|done].
  destruct (Text.has_nul video_id); simpl; [done|].
  destruct (_ && _); simpl; [|done].
  rewrite Hdb. case_bool_decide; simpl; [done|].
  intros [= <- <-]. done.
Qed.

(** X8. A comment creation with a resolved session issues exactly one
    remote call: the reply insert under the parent when [parent_id] is a
    non-empty string, the thread insert on the video otherwise (so also for
    the empty string); and a row it returns carries the video, the text and
    the [parent_id] as submitted. *)
Theorem add_comment_one_remote_call video_id body authorization st youtube :
  resolve_session env authorization st = Return youtube →
  calls (add_comment env video_id body authorization st).2
  = calls st ++ [insert_call video_id body]
  ∧ ∀ row, (add_comment env video_id body authorization st).1 = Return row →
           Comment.video_id row = video_id
           ∧ Comment.text row = cc_text body
           ∧ Comment.parent_youtube_id row = cc_parent_id body.
Proof.
  intros Hres. split.
  - unfold add_comment. rewrite resolve_bind, Hres.
    pose proof (insert_remote_calls youtube video_id body st) as Hcalls.
    py_unfold. unfold bound, add_comment_row.
    destruct (insert_remote youtube video_id body st) as [[yt|e] st0];
      simpl in *; [|done].
    destruct (_ && _); simpl; [|done].
    by case_bool_decide.
  - intros row Hrow.
    destruct (add_comment env video_id body authorization st) as [r st1] eqn:Hrun.
    simpl in Hrow. subst r.
    destruct (add_comment_returns _ _ _ _ _ _ _ Hres Hrun)
      as (_ & _ & _ & _ & ? & ? & ? & _). done.
Qed.

Lemma resolve_session_sessions authorization st st' :
  user_sessions (db st') = user_sessions (db st) →
  resolve_session env authorization st' = resolve_session env authorization st.
Proof.
  intros Heq. unfold resolve_session, get_token_from_header, get_youtube_from_db.
  py_unfold.
  destruct authorization as [[|a h]|]; try done.
  destruct (Text.startswith _ _); [|done].
  destruct (_ !! _); [|done]. simpl.
  unfold session_by_token. rewrite Heq. by destruct (head _).
Qed.

(** X9. Creation and deletion undo each other in the mirror: on a comments
    table keyed by its primary key, after a comment creation that returned a
    row, the deletion by that row's local id, when the remote delete
    returns, leaves the comments table exactly as it was before the
    creation; the remote delete it issues is for the id the remote insert
    had handed back. *)
Theorem add_then_remove_comment video_id body authorization st youtube row st1 :
  keyed (Comment.id <$> comments (db st)) (comments_id_seq (db st)) →
  resolve_session env authorization st = Return youtube →
  add_comment env video_id body authorization st = (Return row, st1) →
  (comments_delete youtube (Comment.youtube_comment_id row) (world st1)).1 = Return () →
  (remove_comment env (Comment.id row) authorization st1).1
  = Return ("success", "Comment deleted from YouTube and local DB.")
  ∧ comments (db (remove_comment env (Comment.id row) authorization st1).2)
    = comments (db st)
  ∧ calls (remove_comment env (Comment.id row) authorization st1).2
    = calls st1 ++ [CommentsDelete (Comment.youtube_comment_id row)].
Proof.
  intros [Hnd Hlt] Hres Hrun Hdel.
  destruct (add_comment_returns _ _ _ _ _ _ _ Hres Hrun)
    as (Hrows & Hsess & _ & Hid & _).
  assert (Comment.id row ∉ Comment.id <$> comments (db st)) as Hfresh.
  { intros Hin. rewrite Forall_forall in Hlt. specialize (Hlt _ Hin). lia. }
  destruct (filter_key_absent Comment.id _ _ Hfresh) as [Hsel Hkeep].
  unfold remove_comment.
  rewrite resolve_bind, (resolve_session_sessions _ _ _ Hsess), Hres.
  unfold delete_comment. py_unfold. unfold comment_by_id.
  rewrite Hrows, filter_app, Hsel. simpl.
  rewrite filter_cons_True by done. rewrite filter_nil. simpl.
  destruct (comments_delete youtube _ (world st1)) as [[[]|e] w]; simpl in *; [|done].
  rewrite Hrows, filter_app, Hkeep. simpl.
  rewrite filter_cons_False by naive_solver. by rewrite filter_nil, app_nil_r.
Qed.

(** X10. After a comment creation that returned a row, the local listing
    of the video shows the entries it showed before and one more, that of
    the row, with the local id under which the row can be deleted; the
    order of the listing is the storage layer's, and the listing changes
    nothing. *)
Theorem add_comment_then_local scan video_id body authorization st youtube row st1 :
  (∀ rows, scan rows ≡ₚ rows) →
  resolve_session env authorization st = Return youtube →
  add_comment env video_id body authorization st = (Return row, st1) →
  ∃ before after,
    get_local_comments scan video_id st = (Return before, st)
    ∧ get_local_comments scan video_id st1 = (Return after, st1)
    ∧ after ≡ₚ LocalComment.mk (Comment.id row) (Comment.youtube_comment_id row)
                               (cc_parent_id body) (cc_text body) :: before.
Proof.
  intros Hscan Hres Hrun.
  destruct (add_comment_returns _ _ _ _ _ _ _ Hres Hrun)
    as (Hrows & _ & _ & _ & Hvid & Hparent & Htext & _ & _ & Hnul).
  eexists _, _. unfold get_local_comments, bound. py_unfold. simpl. rewrite Hnul. simpl.
  split; [reflexivity|]. split; [reflexivity|].
  rewrite !Hscan, Hrows, filter_app.
  rewrite filter_cons_True by done. rewrite filter_nil, fmap_app. simpl.
  rewrite Hparent, Htext. by rewrite <- Permutation_cons_append.
Qed.

End CommentRoundTrip.

(** X8, an instance: a reply on the reference environment. *)
Lemma add_comment_one_remote_call_witness :
  resolve_session (Mock.env None) Mock.bearer (Mock.start Mock.db1 Mock.world0)
  = Return Mock.youtube
  ∧ calls (add_comment (Mock.env None) "v1" (mkCommentCreate "me too" (Some "yt0"))
             Mock.bearer (Mock.start Mock.db1 Mock.world0)).2
    = [CommentsInsert "snippet" "yt0" "me too"].
Proof.
  split; [reflexivity|].
  apply (add_comment_one_remote_call (Mock.env None) "v1"
           (mkCommentCreate "me too" (Some "yt0")) Mock.bearer
           (Mock.start Mock.db1 Mock.world0) Mock.youtube eq_refl).
Defined.

(** X9 and X10, the run they are instantiated on: a comment is posted on
    the reference environment. *)
Lemma add_comment_reference_run :
  ∃ row st1,
    add_comment (Mock.env None) "v1" (mkCommentCreate "hello" None) Mock.bearer
      (Mock.start Mock.db1 Mock.world0) = (Return row, st1)
    ∧ Comment.youtube_comment_id row = "yt1"
    ∧ world st1 = Mock.set_comments ["yt2"] [("yt1", "hello")] Mock.world0.
Proof. eexists _, _. split; [by vm_compute|]. by vm_compute. Defined.

(** X9, an instance: the comment posted is deleted again. *)
Lemma add_then_remove_comment_witness :
  keyed (Comment.id <$> comments Mock.db1) (comments_id_seq Mock.db1)
  ∧ ∃ row st1,
      add_comment (Mock.env None) "v1" (mkCommentCreate "hello" None) Mock.bearer
        (Mock.start Mock.db1 Mock.world0) = (Return row, st1)
      ∧ comments (db (remove_comment (Mock.env None) (Comment.id row) Mock.bearer st1).2)
        = comments Mock.db1.
Proof.
  split; [apply keyed_nil|].
  destruct add_comment_reference_run as (row & st1 & Hrun & Hid & Hw).
  exists row, st1. split; [exact Hrun|].
  apply (add_then_remove_comment (Mock.env None) "v1" (mkCommentCreate "hello" None)
           Mock.bearer (Mock.start Mock.db1 Mock.world0) Mock.youtube row st1);
    [apply keyed_nil|reflexivity|exact Hrun|].
  rewrite Hid, Hw. reflexivity.
Defined.

(** X10, an instance: the comment posted shows in the local listing, for a
    storage layer that scans the rows back to front. *)
Lemma add_comment_then_local_witness :
  (∀ rows : list Comment.t, reverse rows ≡ₚ rows)
  ∧ ∃ row st1 after,
      add_comment (Mock.env None) "v1" (mkCommentCreate "hello" None) Mock.bearer
        (Mock.start Mock.db1 Mock.world0) = (Return row, st1)
      ∧ get_local_comments reverse "v1" st1 = (Return after, st1)
      ∧ after ≡ₚ [LocalComment.mk (Comment.id row) (Comment.youtube_comment_id row)
                    None "hello"].
Proof.
  split; [apply reverse_Permutation|].
  destruct add_comment_reference_run as (row & st1 & Hrun & _).
  destruct (add_comment_then_local (Mock.env None) reverse "v1"
              (mkCommentCreate "hello" None)
              Mock.bearer (Mock.start Mock.db1 Mock.world0) Mock.youtube row st1
              reverse_Permutation eq_refl Hrun)
    as (before & after & Hbefore & Hafter & Hperm).
  exists row, st1, after. split; [exact Hrun|]. split; [exact Hafter|].
  injection Hbefore as <-. exact Hperm.
Defined.

(** ** Notes *)

Section Notes.
Context {W : Type} (env : Env W).
Implicit Types (st : state W).

(** The driver accepts the strings of a statement none of which holds
    NUL. *)
Lemma bound_accepts (params : list string) st :
  Forall (λ s, Text.has_nul s = false) params → bound params st = (Return (), st).
Proof.
  intros Hok. unfold bound.
  assert (forallb (λ s, negb (Text.has_nul s)) params = true) as ->; [|done].
  induction Hok as [|s l Hs _ IH]; [done|]. simpl. by rewrite Hs, IH.
Qed.

(** X11. A note just created is found again: when the video id, the
    content and the title hold no NUL character, [create_note] returns a
    note with the submitted title, content and tags under the video of the
    path, the note fits the response model, and the listing of that video
    afterwards contains it, without a tag filter and under each of the tags
    it was submitted with. *)
Theorem create_note_found_by_get_notes video_id body st :
  Text.has_nul video_id = false →
  Text.has_nul (nc_content body) = false →
  from_option Text.has_nul false (nc_title body) = false →
  ∃ note st1,
    create_note video_id body st = (Return note, st1)
    ∧ Note.video_id note = video_id
    ∧ Note.title note = nc_title body
    ∧ Note.content note = Some (nc_content body)
    ∧ Note.tags note = Some (nc_tags body)
    ∧ (∃ response, note_response note = Return response
                   ∧ nr_tags response = nc_tags body)
    ∧ ∀ tag,
        tag = None ∨ (∃ x, tag = Some x ∧ x ∈ nc_tags body) →
        ∃ result, get_notes env video_id None tag st1 = (Return result, st1)
                  ∧ note ∈ result.
Proof.
  intros Hvideo Hcontent Htitle.
  assert (∀ st', bound (video_id :: nc_content body :: option_list (nc_title body)) st'
                 = (Return (), st')) as Hbound.
  { intros st'. apply bound_accepts. repeat constructor; try done.
    destruct (nc_title body); [by constructor|constructor]. }
  assert (∀ st', bound [video_id] st' = (Return (), st')) as Hbound1.
  { intros st'. apply bound_accepts. by repeat constructor. }
  unfold create_note. unfold mbind at 1. unfold py_bind. rewrite Hbound.
  eexists _, _. split; [reflexivity|]. simpl. split_and!; try done.
  { by eexists. }
  intros tag Htag.
  set (note := Note.mk _ _ _ _ _ _ _).
  assert (note ∈ order_by_created_at_desc
                   (filter (λ n, Note.video_id n = video_id)
                           (notes (db st) ++ [note]))) as Hin.
  { unfold order_by_created_at_desc. rewrite merge_sort_Permutation.
    apply list_elem_of_filter. split; [done|].
    apply elem_of_app. right. apply list_elem_of_here. }
  unfold get_notes. unfold mbind at 1. unfold py_bind. rewrite Hbound1.
  py_unfold. simpl.
  destruct Htag as [->|(x & -> & Hx)]; [by eexists|].
  destruct x as [|a x]; [by eexists|].
  eexists. split; [reflexivity|].
  apply list_elem_of_filter. split; [|done].
  apply has_tag_iff. by exists (nc_tags body), (String a x).
Qed.

(** What an update of a note that the driver accepts does. *)
Lemma update_note_run note_id body st note :
  NoDup (Note.id <$> notes (db st)) →
  note ∈ notes (db st) → Note.id note = note_id →
  from_option Text.has_nul false (nu_title body) = false →
  from_option Text.has_nul false (nu_content body) = false →
  ∃ note',
    (update_note note_id body st).1 = Return (Some note')
    ∧ Note.id note' = note_id
    ∧ Note.video_id note' = Note.video_id note
    ∧ Note.created_at note' = Note.created_at note
    ∧ Note.title note' = from_option Some (Note.title note) (nu_title body)
    ∧ Note.content note' = from_option Some (Note.content note) (nu_content body)
    ∧ Note.tags note' = from_option Some (Note.tags note) (nu_tags body)
    ∧ notes (db (update_note note_id body st).2)
      = (λ n, if bool_decide (Note.id n = note_id) then note' else n) <$> notes (db st).
Proof.
  intros Hnd Hin <- Htitle Hcontent.
  destruct (filter_key_split Note.id note _ Hnd Hin) as (l1 & l2 & Hl & Hsel & _).
  assert (note_by_id (Note.id note) (db st) = Some note) as Hfind
    by (unfold note_by_id; by rewrite Hsel).
  unfold update_note. py_unfold. rewrite !Hfind. simpl.
  set (title := match nu_title body with Some v => Some v | None => Note.title note end).
  set (content := match nu_content body with Some v => Some v | None => Note.content note end).
  set (tags := match nu_tags body with Some v => Some v | None => Note.tags note end).
  assert (bound ((if bool_decide (Note.title note ≠ title) then option_list title else [])
                 ++ (if bool_decide (Note.content note ≠ content)
                     then option_list content else [])) st
          = (Return (), st)) as Hbound.
  { apply bound_accepts, Forall_app. split.
    - unfold title. destruct (nu_title body) as [v|]; simpl in Htitle.
      + destruct (bool_decide _); by repeat constructor.
      + rewrite bool_decide_eq_false_2 by (by intros ?). constructor.
    - unfold content. destruct (nu_content body) as [v|]; simpl in Hcontent.
      + destruct (bool_decide _); by repeat constructor.
      + rewrite bool_decide_eq_false_2 by (by intros ?). constructor. }
  rewrite Hbound. clear Hbound.
  assert (title = from_option Some (Note.title note) (nu_title body)) as Ht
    by by destruct (nu_title body).
  assert (content = from_option Some (Note.content note) (nu_content body)) as Hc
    by by destruct (nu_content body).
  assert (tags = from_option Some (Note.tags note) (nu_tags body)) as Hg
    by by destruct (nu_tags body).
  rewrite <- Ht, <- Hc, <- Hg. clearbody title content tags.
  unfold update_note_columns, note_by_id.
  destruct (bool_decide (Note.title note ≠ title) || bool_decide (Note.content note ≠ content)
            || bool_decide (Note.tags note ≠ tags)) eqn:Hchanged; simpl.
  - set (g := λ n', if bool_decide (Note.id n' = Note.id note) then _ else n').
    assert (filter (λ n, Note.id n = Note.id note) (g <$> notes (db st)) = [g note])
      as Hsel'.
    { assert (NoDup (Note.id <$> (g <$> notes (db st)))) as Hnd'.
      { replace (Note.id <$> (g <$> notes (db st))) with (Note.id <$> notes (db st));
          [done|].
        rewrite <- list_fmap_compose. apply list_fmap_ext. intros i n _. simpl.
        unfold g. by destruct (bool_decide (Note.id n = Note.id note)). }
      assert (g note ∈ g <$> notes (db st)) as Hin' by by apply list_elem_of_fmap_2.
      destruct (filter_key_split Note.id (g note) _ Hnd' Hin') as (_ & _ & _ & H' & _).
      assert (Note.id (g note) = Note.id note) as Hid
        by (unfold g; by destruct (bool_decide (Note.id note = Note.id note))).
      by rewrite Hid in H'. }
    rewrite Hsel'. simpl. exists (g note).
    pose proof (eq_refl (g note)) as Hgn. unfold g in Hgn at 2.
    rewrite bool_decide_eq_true_2 in Hgn by done.
    split_and!; try done; try (by rewrite Hgn).
    + rewrite Hgn. simpl. destruct (decide (Note.title note = title)) as [He|He].
      * by rewrite bool_decide_eq_false_2 by by intros ?.
      * by rewrite bool_decide_eq_true_2.
    + rewrite Hgn. simpl. destruct (decide (Note.content note = content)) as [He|He].
      * by rewrite bool_decide_eq_false_2 by by intros ?.
      * by rewrite bool_decide_eq_true_2.
    + rewrite Hgn. simpl. destruct (decide (Note.tags note = tags)) as [He|He].
      * by rewrite bool_decide_eq_false_2 by by intros ?.
      * by rewrite bool_decide_eq_true_2.
    + apply list_fmap_ext. intros i n Hn. simpl.
      destruct (decide (Note.id n = Note.id note)) as [Hid|Hid].
      * rewrite bool_decide_eq_true_2 by done. f_equal.
        apply list_elem_of_lookup_2 in Hn.
        destruct (filter_key_split Note.id n _ Hnd Hn) as (_ & _ & _ & Hn' & _).
        rewrite Hid, Hsel in Hn'. by injection Hn'.
      * rewrite bool_decide_eq_false_2 by done. unfold g.
        by rewrite bool_decide_eq_false_2.
  - rewrite Hsel. simpl. exists note.
    apply orb_false_iff in Hchanged as [[H1 H2]%orb_false_iff H3].
    apply bool_decide_eq_false, dec_stable in H1.
    apply bool_decide_eq_false, dec_stable in H2.
    apply bool_decide_eq_false, dec_stable in H3.
    split_and!; try done.
    rewrite <- (list_fmap_id (notes (db st))) at 1.
    apply list_fmap_ext. intros i n Hn. simpl.
    case_bool_decide as Hid; [|done].
    apply list_elem_of_lookup_2 in Hn.
    destruct (filter_key_split Note.id n _ Hnd Hn) as (_ & _ & _ & Hn' & _).
    rewrite Hid, Hsel in Hn'. by injection Hn'.
Qed.

(** X12. A partial update keeps what it is not given: on a notes table
    keyed by its primary key, when the title and the content of the body
    hold no NUL character, [update_note] returns the row of that id with
    each of title, content and tags replaced where the body has a value and
    kept where the body has none, with its id, video and creation time
    unchanged; the notes with another id are untouched.  The route answers
    with that note when it has a tag list; when its tags are NULL, the
    response model refuses it and the route answers 500, after the
    update. *)
Theorem update_note_partial note_id body st note :
  NoDup (Note.id <$> notes (db st)) →
  note ∈ notes (db st) → Note.id note = note_id →
  from_option Text.has_nul false (nu_title body) = false →
  from_option Text.has_nul false (nu_content body) = false →
  ∃ note',
    (update_note note_id body st).1 = Return (Some note')
    ∧ Note.id note' = note_id
    ∧ Note.video_id note' = Note.video_id note
    ∧ Note.created_at note' = Note.created_at note
    ∧ Note.title note' = from_option Some (Note.title note) (nu_title body)
    ∧ Note.content note' = from_option Some (Note.content note) (nu_content body)
    ∧ Note.tags note' = from_option Some (Note.tags note) (nu_tags body)
    ∧ notes (db (update_note note_id body st).2)
      = (λ n, if bool_decide (Note.id n = note_id) then note' else n) <$> notes (db st)
    ∧ (run_request env (PUT_note note_id body) st).1
      = match Note.tags note' with
        | Some _ => Return ()
        | None => Raise response_validation_error
        end.
Proof.
  intros Hnd Hin Hid Htitle Hcontent.
  destruct (update_note_run note_id body st note Hnd Hin Hid Htitle Hcontent)
    as (note' & Hrun & H).
  exists note'. split; [exact Hrun|].
  destruct H as (? & ? & ? & ? & ? & ? & Hrows). split_and!; try done.
  cbn [run_request]. unfold respond, mbind, py_bind.
  destruct (update_note note_id body st) as [r st1]. simpl in Hrun. subst r.
  simpl. unfold lift, note_response. by destruct (Note.tags note').
Qed.

(** X13. Deleting a note removes exactly that row, and a second deletion of
    the same id is answered with 404 and changes nothing; an id that no note
    has is answered with 404 at once. *)
Theorem delete_note_once note_id st :
  NoDup (Note.id <$> notes (db st)) →
  (note_id ∉ Note.id <$> notes (db st) →
   delete_note note_id st = (Raise (HTTPException 404 "Note not found."), st))
  ∧ (∀ note,
       note ∈ notes (db st) → Note.id note = note_id →
       (delete_note note_id st).1 = Return ("success", "Note deleted.")
       ∧ (∃ l1 l2, notes (db st) = l1 ++ note :: l2
                   ∧ notes (db (delete_note note_id st).2) = l1 ++ l2)
       ∧ delete_note note_id (delete_note note_id st).2
         = (Raise (HTTPException 404 "Note not found."), (delete_note note_id st).2)).
Proof.
  intros Hnd.
  assert (∀ k st', k ∉ Note.id <$> notes (db st') →
            delete_note k st' = (Raise (HTTPException 404 "Note not found."), st'))
    as Habsent.
  { intros k st' Hnone. unfold delete_note, note_by_id. py_unfold.
    by destruct (filter_key_absent Note.id k _ Hnone) as [-> _]. }
  split; [apply Habsent|].
  intros note Hin <-.
  destruct (filter_key_split Note.id note _ Hnd Hin) as (l1 & l2 & Hl & Hsel & Hdel).
  assert ((delete_note (Note.id note) st).1 = Return ("success", "Note deleted.")
          ∧ notes (db (delete_note (Note.id note) st).2) = l1 ++ l2) as [Hr Hn].
  { unfold delete_note, note_by_id. py_unfold. rewrite Hsel. simpl. by rewrite Hdel. }
  split; [done|]. split; [by exists l1, l2|].
  apply Habsent. rewrite Hn.
  rewrite Hl, fmap_app, fmap_cons in Hnd.
  apply NoDup_app in Hnd as (_ & Hdisj & [Hnot _]%NoDup_cons).
  rewrite fmap_app. intros [H1|H2]%elem_of_app; [|done].
  apply (Hdisj _ H1). apply list_elem_of_here.
Qed.

(** X14. The note routes are local: creating, updating and deleting a note
    issue no remote call, leave the world outside, the sessions and the
    mirrored comments as they were, and need no session. *)
Theorem note_routes_local req st :
  match req with
  | POST_note _ _ | PUT_note _ _ | DELETE_note _ => True
  | _ => False
  end →
  calls (serve env req st) = calls st
  ∧ world (serve env req st) = world st
  ∧ user_sessions (db (serve env req st)) = user_sessions (db st)
  ∧ comments (db (serve env req st)) = comments (db st).
Proof.
  destruct req; try done; intros _; simpl.
  - unfold create_note, bound, add_note_row. py_unfold.
    by destruct (forallb _ _).
  - unfold update_note, update_note_columns, bound. py_unfold.
    destruct (note_by_id _ _); simpl; [|done].
    destruct (forallb _ _); simpl; [|done]. by case_match.
  - unfold delete_note. py_unfold. by destruct (note_by_id _ _).
Qed.

End Notes.

(** X11, an instance: a note tagged ["Fun"] is created and found under that
    tag. *)
Lemma create_note_found_by_get_notes_witness :
  Text.has_nul "abc123" = false
  ∧ Text.has_nul "hi" = false
  ∧ ∃ note st1,
      create_note "abc123" (mkNoteCreate "abc123" None "hi" ["Fun"])
        (Mock.start Mock.empty_db Mock.world0) = (Return note, st1)
      ∧ Note.tags note = Some ["Fun"]
      ∧ ∃ result, get_notes (Mock.env None) "abc123" None (Some "Fun") st1
                  = (Return result, st1)
                  ∧ note ∈ result.
Proof.
  split; [reflexivity|]. split; [reflexivity|].
  destruct (create_note_found_by_get_notes (Mock.env None) "abc123"
              (mkNoteCreate "abc123" None "hi" ["Fun"])
              (Mock.start Mock.empty_db Mock.world0) eq_refl eq_refl eq_refl)
    as (note & st1 & Hrun & _ & _ & _ & Htags & _ & Hfound).
  exists note, st1. split; [exact Hrun|]. split; [exact Htags|].
  apply Hfound. right. exists "Fun". split; [reflexivity|apply list_elem_of_here].
Defined.

(** A note whose content holds a NUL character is refused by the driver:
    the handler raises [ValueError] and nothing is written. *)
Example create_note_nul_content :
  create_note "v1" (mkNoteCreate "v1" None Fixture.video_nul [])
    (Mock.start Mock.db1 Mock.world0)
  = (Raise nul_error, Mock.start Mock.db1 Mock.world0).
Proof. reflexivity. Qed.

(** X12, an instance: the second of three notes gets a new title and keeps
    its content and tags. *)
Lemma update_note_partial_witness :
  NoDup (Note.id <$> notes Mock.db3)
  ∧ Mock.note2 ∈ notes Mock.db3
  ∧ from_option Text.has_nul false (Some "t") = false
  ∧ ∃ note',
      (update_note 2 (mkNoteUpdate (Some "t") None None)
         (Mock.start Mock.db3 Mock.world0)).1 = Return (Some note')
      ∧ Note.title note' = Some "t"
      ∧ Note.content note' = Some "second"
      ∧ Note.tags note' = Some ["x"; "FUN"]
      ∧ (run_request (Mock.env None) (PUT_note 2 (mkNoteUpdate (Some "t") None None))
           (Mock.start Mock.db3 Mock.world0)).1 = Return ().
Proof.
  assert (NoDup (Note.id <$> notes Mock.db3)) as Hkey
    by (apply (bool_decide_unpack _); by vm_compute).
  assert (Mock.note2 ∈ notes Mock.db3) as Hin
    by apply list_elem_of_further, list_elem_of_here.
  split; [exact Hkey|]. split; [exact Hin|]. split; [reflexivity|].
  destruct (update_note_partial (Mock.env None) 2 (mkNoteUpdate (Some "t") None None)
              (Mock.start Mock.db3 Mock.world0) Mock.note2 Hkey Hin eq_refl
              eq_refl eq_refl)
    as (note' & Hr & _ & _ & _ & Ht & Hc & Hg & _ & Hroute).
  exists note'. split; [exact Hr|]. split; [exact Ht|]. split; [exact Hc|].
  split; [exact Hg|]. rewrite Hroute, Hg. reflexivity.
Defined.

(** X13, an instance: the second of three notes is deleted, and deleting it
    again is answered with 404. *)
Lemma delete_note_once_witness :
  NoDup (Note.id <$> notes Mock.db3)
  ∧ Mock.note2 ∈ notes Mock.db3
  ∧ (delete_note 2 (Mock.start Mock.db3 Mock.world0)).1
    = Return ("success", "Note deleted.")
  ∧ (delete_note 2 (delete_note 2 (Mock.start Mock.db3 Mock.world0)).2).1
    = Raise (HTTPException 404 "Note not found.").
Proof.
  assert (NoDup (Note.id <$> notes Mock.db3)) as Hkey
    by (apply (bool_decide_unpack _); by vm_compute).
  assert (Mock.note2 ∈ notes Mock.db3) as Hin
    by apply list_elem_of_further, list_elem_of_here.
  split; [exact Hkey|]. split; [exact Hin|].
  destruct (delete_note_once 2 (Mock.start Mock.db3 Mock.world0) Hkey) as [_ H].
  destruct (H Mock.note2 Hin eq_refl) as (Hr & _ & Hagain).
  split; [exact Hr|]. by rewrite Hagain.
Defined.

(** X14, an instance: a note is created while the platform is down. *)
Lemma note_routes_local_witness :
  calls (serve (Mock.env None) (POST_note "v1" (mkNoteCreate "v1" None "c" []))
           (Mock.start Mock.db1 Mock.world_down)) = []
  ∧ user_sessions (db (serve (Mock.env None)
                         (POST_note "v1" (mkNoteCreate "v1" None "c" []))
                         (Mock.start Mock.db1 Mock.world_down)))
    = [Mock.session1].
Proof.
  destruct (note_routes_local (Mock.env None)
              (POST_note "v1" (mkNoteCreate "v1" None "c" []))
              (Mock.start Mock.db1 Mock.world_down) I) as (Hc & _ & Hs & _).
  split; [exact Hc|exact Hs].
Defined.

(** ** The audit trail *)

Section Audit.
Context {W : Type}.

Lemma silent_preserves {A} (m : py (W:=W) A) :
  (∀ events seq now, preserves (trail events seq now) m) → silent m.
Proof. intros H st. by apply H. Qed.

Lemma audited_raise {A} e : audited (W:=W) (A:=A) (raise e).
Proof. by intros st. Qed.

Lemma audited_log {A} action details (r : A) :
  audited (W:=W) (log_event action details ≫= λ _, mret r).
Proof. intros st. simpl. by eexists _, _. Qed.

Lemma audited_bind {A B} (m : py (W:=W) A) (k : A → py B) :
  silent m → (∀ a, audited (k a)) → audited (m ≫= k).
Proof.
  intros Hm Hk st. unfold mbind, py_bind. specialize (Hm st).
  destruct (m st) as [[a|e] st1]; simpl in *.
  - destruct Hm as (Hl & Hs & Hc). specialize (Hk a st1).
    rewrite Hl, Hs, Hc in Hk. exact Hk.
  - by destruct Hm.
Qed.

Lemma audited_forget {A} (m : py (W:=W) A) : audited m → audited (m ≫= λ _, mret ()).
Proof.
  intros Hm st. unfold mbind, py_bind. specialize (Hm st).
  by destruct (m st) as [[a|e] st1].
Qed.

End Audit.

(** The writes of the handlers other than [log_event] keep the trail. *)
Ltac trail_write :=
  unfold trail, add_user_session, add_comment_row, add_note_row,
    delete_sessions_by_token, delete_comment_row, update_note_title,
    update_note_columns, delete_note_row in *;
  repeat case_match; simpl in *; simplify_eq/=; done.

Ltac silent_frame :=
  apply silent_preserves; intros ? ? ?; repeat preserves_step; cbn [fst snd];
  try trail_write.

Ltac audited_step :=
  first
    [ apply audited_raise | apply audited_log
    | apply audited_bind; [silent_frame|intros ?]
    | match goal with
      | |- audited (match ?x with _ => _ end) => destruct x
      end ].

Section RequestAudited.
Context {W : Type} (env : Env W).
Implicit Types (st : state W).

Lemma run_handler_serve req st : (run_handler env req st).2 = serve env req st.
Proof.
  destruct req; cbn [run_handler serve]; unfold mbind, py_bind;
    match goal with
    | |- _ = (?m).2 => by destruct m as [[?|?] ?]
    end.
Qed.

(** The validation of the response comes after the handler and changes
    nothing: the route ends as its handler does, or the handler returned
    and the response model refused what it returned. *)
Lemma run_request_handler req st :
  (run_request env req st).2 = (run_handler env req st).2
  ∧ ((run_request env req st).1 = (run_handler env req st).1
     ∨ (run_handler env req st).1 = Return ()
       ∧ (run_request env req st).1 = Raise response_validation_error).
Proof.
  destruct req; try (split; [done|by left]);
    cbn [run_request run_handler]; unfold respond, mbind, py_bind, lift.
  - destruct (add_comment _ _ _ _ _) as [[row|e] st1]; simpl; split; try done;
      by left.
  - destruct (create_note _ _ _) as [[note|e] st1]; simpl; [|split; [done|by left]].
    unfold note_response. destruct (Note.tags note); simpl; split; try done;
      [by left|by right].
  - destruct (update_note _ _ _) as [[[note|]|e] st1]; simpl;
      [|split; [done|by right]|split; [done|by left]].
    unfold note_response. destruct (Note.tags note); simpl; split; try done;
      [by left|by right].
Qed.

Lemma run_request_serve req st : (run_request env req st).2 = serve env req st.
Proof.
  destruct (run_request_handler req st) as [-> _]. apply run_handler_serve.
Qed.

Lemma handlers_audited req : audited (run_handler env req).
Proof.
  destruct req; simpl; apply audited_forget.
  - unfold auth_callback. repeat audited_step.
  - unfold logout, get_token_from_header. repeat audited_step.
  - unfold list_videos, list_my_videos, get_token_from_header, get_youtube_from_db,
      youtube_api_error.
    repeat audited_step.
  - unfold get_video, fetch_video_details, get_token_from_header, get_youtube_from_db.
    repeat audited_step.
  - unfold update_metadata, update_video_info, subscript, youtube_api_error,
      get_token_from_header, get_youtube_from_db.
    repeat audited_step.
  - unfold get_ai_suggestions, generate_viral_titles. repeat audited_step.
  - unfold get_comments, fetch_video_comments, youtube_api_error,
      get_token_from_header, get_youtube_from_db.
    repeat audited_step.
  - unfold add_comment, insert_remote, post_comment, reply_to_comment, subscript,
      youtube_api_error, get_token_from_header, get_youtube_from_db.
    repeat audited_step.
  - unfold remove_comment, delete_comment, youtube_api_error,
      get_token_from_header, get_youtube_from_db.
    repeat audited_step.
  - unfold create_note. repeat audited_step.
  - unfold update_note. repeat audited_step.
  - unfold delete_note. repeat audited_step.
Qed.

End RequestAudited.

Section AuditTrail.
Context {W : Type} (env : Env W).
Implicit Types (st : state W).


Lemma serve_logs_prefix req st : logs (db st) `prefix_of` logs (db (serve env req st)).
Proof.
  pose proof (handlers_audited env req st) as H.
  rewrite run_handler_serve in H.
  destruct (run_handler env req st).1.
  - destruct H as (action & details & ->). by eexists.
  - by rewrite H.
Qed.

(** X16. The audit log is append-only: along every run of the service,
    whatever the requests and whatever happens outside, the events on file
    stay on file, unchanged and in their order; later states only add
    events behind them. *)
Theorem run_logs_append_only st st' :
  rtc (step env) st st' → logs (db st) `prefix_of` logs (db st').
Proof.
  induction 1 as [|st st1 st' Hstep _ IH]; [done|].
  etrans; [|exact IH].
  destruct Hstep as [req st|st w now Hnow]; [apply serve_logs_prefix|done].
Qed.

(** X17. Every state the service reaches from an empty database satisfies
    the schema: primary keys are pairwise distinct and below their
    sequences, and no two sessions share an access token and no two
    mirrored comments a remote id. *)
Theorem reachable_consistent now w st' :
  rtc (step env) (mkstate (mkdb [] [] [] [] 1 1 1 1 now) w [] []) st' →
  consistent (db st').
Proof.
  intros Hrun. apply (run_consistent env _ _ Hrun). apply empty_consistent.
Qed.

End AuditTrail.

(** X16, an instance: a login on top of three events on file. *)
Lemma run_logs_append_only_witness :
  rtc (step (Mock.env None))
      (Mock.start Fixture.db_logs Mock.world0)
      (serve (Mock.env None) (GET_auth_callback (Some "code"))
             (Mock.start Fixture.db_logs Mock.world0))
  ∧ logs Fixture.db_logs
    `prefix_of` logs (db (serve (Mock.env None) (GET_auth_callback (Some "code"))
                            (Mock.start Fixture.db_logs Mock.world0))).
Proof.
  assert (rtc (step (Mock.env None))
            (Mock.start Fixture.db_logs Mock.world0)
            (serve (Mock.env None) (GET_auth_callback (Some "code"))
                   (Mock.start Fixture.db_logs Mock.world0))) as Hrun
    by apply rtc_once, step_serve.
  split; [exact Hrun|].
  exact (run_logs_append_only (Mock.env None) _ _ Hrun).
Defined.

(** X17, an instance: a login and then a note, from the empty database. *)
Lemma reachable_consistent_witness :
  rtc (step (Mock.env None))
      (mkstate (mkdb [] [] [] [] 1 1 1 1 100) Mock.world0 [] [])
      (serve (Mock.env None) (POST_note "v1" (mkNoteCreate "v1" None "c" []))
         (serve (Mock.env None) (GET_auth_callback (Some "code"))
            (mkstate (mkdb [] [] [] [] 1 1 1 1 100) Mock.world0 [] [])))
  ∧ consistent
      (db (serve (Mock.env None) (POST_note "v1" (mkNoteCreate "v1" None "c" []))
             (serve (Mock.env None) (GET_auth_callback (Some "code"))
                (mkstate (mkdb [] [] [] [] 1 1 1 1 100) Mock.world0 [] [])))).
Proof.
  assert (rtc (step (Mock.env None))
            (mkstate (mkdb [] [] [] [] 1 1 1 1 100) Mock.world0 [] [])
            (serve (Mock.env None) (POST_note "v1" (mkNoteCreate "v1" None "c" []))
               (serve (Mock.env None) (GET_auth_callback (Some "code"))
                  (mkstate (mkdb [] [] [] [] 1 1 1 1 100) Mock.world0 [] []))))
    as Hrun.
  { eapply rtc_l; [apply step_serve|]. apply rtc_once, step_serve. }
  split; [exact Hrun|].
  exact (reachable_consistent (Mock.env None) _ _ _ Hrun).
Defined.

(** ** The event log route *)

#[global] Instance newer_event_transitive : Transitive newer_event.
Proof. intros a b c. unfold newer_event. lia. Qed.

#[global] Instance newer_event_total : Total newer_event.
Proof. intros a b. unfold newer_event. lia. Qed.

Section GetLogs.
Context {W : Type}.
Implicit Types (st : state W).

(** X18. [GET /logs] returns the most recent events: for a limit that is
    not negative and fits a [bigint] it changes nothing and returns as many
    events as the limit allows, or all of them when there are fewer, newest
    first; the returned events and the ones left out make up the log, and
    no event left out is newer than a returned one.  Any other limit is
    refused by the storage layer. *)
Theorem get_logs_most_recent limit st :
  0 ≤ limit < 2 ^ 63 →
  ∃ result rest,
    get_logs limit st = (Return result, st)
    ∧ result ++ rest ≡ₚ logs (db st)
    ∧ length result = (Z.to_nat limit `min` length (logs (db st)))%nat
    ∧ StronglySorted newer_event result
    ∧ ∀ e e', e ∈ result → e' ∈ rest →
              EventLog.timestamp e' ≤ EventLog.timestamp e.
Proof.
  intros Hlimit.
  pose proof (StronglySorted_merge_sort newer_event (logs (db st))) as Hsorted.
  pose proof (merge_sort_Permutation newer_event (logs (db st))) as Hperm.
  exists (take (Z.to_nat limit) (merge_sort newer_event (logs (db st)))),
         (drop (Z.to_nat limit) (merge_sort newer_event (logs (db st)))).
  rewrite <- (take_drop (Z.to_nat limit)) in Hsorted.
  split_and!.
  - unfold get_logs. py_unfold.
    rewrite bool_decide_eq_false_2 by lia. by rewrite bool_decide_eq_false_2 by lia.
  - by rewrite take_drop.
  - by rewrite length_take, (Permutation_length Hperm).
  - by apply StronglySorted_app_1_l in Hsorted.
  - intros e e' He He'. by apply (StronglySorted_app_1_elem_of _ _ _ _ _ Hsorted He He').
Qed.

(** A limit that is negative or does not fit a [bigint] is refused, and
    the route answers 500. *)
Lemma get_logs_refused limit st :
  limit < 0 ∨ 2 ^ 63 ≤ limit →
  ∃ message, get_logs limit st = (Raise (LibraryError "DataError" message), st).
Proof.
  intros Hlimit. unfold get_logs. py_unfold.
  destruct (decide (limit < - 2 ^ 63 ∨ 2 ^ 63 ≤ limit)) as [Hout|Hin].
  - rewrite bool_decide_eq_true_2 by done. by eexists.
  - rewrite bool_decide_eq_false_2 by done.
    rewrite bool_decide_eq_true_2 by lia. by eexists.
Qed.

End GetLogs.

(** X18, an instance: the two most recent of three events. *)
Lemma get_logs_most_recent_witness :
  0 ≤ 2 < 2 ^ 63
  ∧ ∃ result (rest : list EventLog.t),
      get_logs 2 (Mock.start Fixture.db_logs Mock.world0)
      = (Return result, Mock.start Fixture.db_logs Mock.world0)
      ∧ length result = 2%nat
      ∧ ∀ e e', e ∈ result → e' ∈ rest →
                EventLog.timestamp e' ≤ EventLog.timestamp e.
Proof.
  split; [lia|].
  destruct (get_logs_most_recent 2 (Mock.start Fixture.db_logs Mock.world0) ltac:(lia))
    as (result & rest & Hrun & _ & Hlen & _ & Hnewer).
  exists result, rest. split; [exact Hrun|]. split; [exact Hlen|exact Hnewer].
Defined.

(** ** Title suggestions: the answer of the model and the failures *)

Lemma str_app_empty_l s : EmptyString +:+ s = s.
Proof. reflexivity. Qed.

Lemma split_from_char c cur p rest :
  contains (String c EmptyString) p = false →
  Text.split_from (String c EmptyString) 0 cur (p +:+ String c rest)
  = (cur +:+ p) :: Text.split_from (String c EmptyString) 0 EmptyString rest.
Proof.
  assert (∀ a s, String.prefix (String c EmptyString) (String a s)
                 = bool_decide (c = a)) as Hprefix.
  { intros a s. cbn [String.prefix].
    destruct (ascii_dec c a) as [->|Hne].
    - rewrite bool_decide_eq_true_2 by done. by destruct s.
    - by rewrite bool_decide_eq_false_2. }
  revert cur. induction p as [|a p IH]; intros cur Hno.
  - rewrite str_app_empty_l. cbn [Text.split_from].
    rewrite Hprefix, bool_decide_eq_true_2 by done.
    cbn [String.length Nat.pred]. by rewrite str_app_empty_r.
  - cbn [contains] in Hno. apply orb_false_iff in Hno as [Hpre Hno].
    rewrite Hprefix in Hpre.
    rewrite str_app_cons. cbn [Text.split_from].
    rewrite Hprefix, Hpre.
    by rewrite (IH _ Hno), str_app_assoc.
Qed.

(** Splitting undoes joining, for pieces that do not hold the separator. *)
Lemma split_join_char c pieces :
  pieces ≠ [] →
  Forall (λ p, contains (String c EmptyString) p = false) pieces →
  Text.split (join (String c EmptyString) pieces) (String c EmptyString) = pieces.
Proof.
  unfold Text.split. induction pieces as [|p pieces IH]; [done|].
  intros _ [Hp Hrest]%Forall_cons. destruct pieces as [|q pieces].
  - cbn [join]. by rewrite split_from_no_occurrence.
  - cbn [join] in *. rewrite str_app_cons, str_app_empty_l.
    rewrite split_from_char by done. rewrite str_app_empty_l.
    f_equal. by apply IH.
Qed.

(** A slice of [n] code points has at most [n] code points and starts the
    string it is cut from. *)
Lemma slice_to_len n s : (Text.len (Text.slice_to n s) ≤ n)%nat.
Proof.
  revert n. induction s as [|a s IH]; intros n; cbn [Text.slice_to Text.len]; [lia|].
  destruct (Text.continuation a) eqn:Ha.
  - cbn [Text.len]. rewrite Ha. apply IH.
  - destruct n as [|n]; cbn [Text.len]; [lia|]. rewrite Ha. specialize (IH n). lia.
Qed.

Lemma slice_to_prefix n s : String.prefix (Text.slice_to n s) s = true.
Proof.
  revert n. induction s as [|a s IH]; intros n; cbn [Text.slice_to]; [done|].
  destruct (Text.continuation a).
  - cbn [String.prefix]. destruct (ascii_dec a a); [apply IH|done].
  - destruct n as [|n]; [done|]. cbn [String.prefix].
    destruct (ascii_dec a a); [apply IH|done].
Qed.

Section Completion.
Context {W : Type} (env : Env W).
Implicit Types (st : state W).

(** [generate_viral_titles] returns, with three strings, and leaves the
    database alone. *)
Lemma generate_viral_titles_returns current_title st :
  ∃ titles st1,
    generate_viral_titles env current_title st = (Return titles, st1)
    ∧ length titles = 3%nat ∧ db st1 = db st.
Proof.
  unfold generate_viral_titles.
  destruct (getenv env "GROQ_API_KEY") as [[|a k]|]; try by eexists _, _.
  py_unfold.
  destruct (httpx_post env _ _ _ (world st)) as [[response|e] w]; simpl;
    [|by eexists _, _].
  destruct (completion_text response) as [raw_text|e]; simpl; [|by eexists _, _].
  destruct (bool_decide (length (parse_titles raw_text) < 3)%nat) eqn:Hlen; simpl.
  - by eexists _, _.
  - eexists _, _. split; [done|]. split; [|done].
    apply bool_decide_eq_false in Hlen. rewrite length_take. lia.
Qed.

(** X19. The titles are the first three pieces of the answer: with a key
    configured, when the completion request returns a response whose text
    is made of three or more pieces joined by pipes, none of them holding a
    pipe, [generate_viral_titles] returns the first three pieces, each
    without the white space around it, and drops the others; it has sent
    one request, with the key as bearer token and the prompt built from the
    title, and has printed nothing. *)
Theorem generate_viral_titles_first_three current_title a k response w pieces st :
  getenv env "GROQ_API_KEY" = Some (String a k) →
  httpx_post env groq_url (groq_headers (String a k))
             (groq_body (groq_prompt current_title)) (world st)
  = (Return response, w) →
  completion_text response = Return (join "|" pieces) →
  Forall (λ p, contains "|" p = false) pieces →
  (3 ≤ length pieces)%nat →
  generate_viral_titles env current_title st
  = (Return (take 3 (Text.strip <$> pieces)),
     mkstate (db st) w
             (calls st ++ [HttpxPost groq_url (groq_headers (String a k))
                                     (groq_body (groq_prompt current_title))])
             (stdout st)).
Proof.
  intros Hkey Hpost Htext Hpieces Hlen.
  unfold generate_viral_titles. rewrite Hkey. py_unfold. rewrite Hpost. simpl.
  rewrite Htext. simpl. unfold parse_titles.
  rewrite split_join_char; [|intros ->; simpl in Hlen; lia|done].
  rewrite bool_decide_eq_false_2; [done|]. rewrite length_fmap. lia.
Qed.

(** X20. A failure of the completion request is reported in the titles and
    never raised: with a key configured, when the request raises, or
    returns a response from which no text can be read, the result is three
    strings of which the first is ["Error: "] followed by the start of the
    error's text, at most 60 code points of it; one line is printed and the
    database is untouched. *)
Theorem generate_viral_titles_failure current_title a k e w st :
  getenv env "GROQ_API_KEY" = Some (String a k) →
  httpx_post env groq_url (groq_headers (String a k))
             (groq_body (groq_prompt current_title)) (world st)
  = (Raise e, w)
  ∨ (∃ response,
       httpx_post env groq_url (groq_headers (String a k))
                  (groq_body (groq_prompt current_title)) (world st)
       = (Return response, w)
       ∧ completion_text response = Raise e) →
  ∃ text,
    generate_viral_titles env current_title st
    = (Return [ "Error: " +:+ text; "Check your GROQ_API_KEY in .env";
                "Check server logs for details" ],
       mkstate (db st) w
               (calls st ++ [HttpxPost groq_url (groq_headers (String a k))
                                       (groq_body (groq_prompt current_title))])
               (stdout st ++ ["[AI ERROR] " +:+ str e]))
    ∧ (Text.len text ≤ 60)%nat
    ∧ String.prefix text (str e) = true.
Proof.
  intros Hkey Hfail. exists (Text.slice_to 60 (str e)).
  split; [|split; [apply slice_to_len|apply slice_to_prefix]].
  unfold generate_viral_titles, error_titles. rewrite Hkey. py_unfold.
  destruct Hfail as [Hpost|(response & Hpost & Htext)]; rewrite Hpost; simpl;
    [done|]. by rewrite Htext.
Qed.

(** X21. [POST /videos/{video_id}/suggestions] answers whatever the
    completion service does: the handler returns three strings and records
    the request with the title it used, which is ["YouTube Video"] when the
    body has none, unless the video id or that title holds a NUL character;
    then the driver refuses the audit event and the handler raises
    [ValueError] with nothing recorded. *)
Theorem get_ai_suggestions_answers video_id data st :
  (data !! "title" = None → base_title env data = "YouTube Video")
  ∧ (∀ s, data !! "title" = Some (JStr s) → base_title env data = s)
  ∧ if Text.has_nul video_id || Text.has_nul (base_title env data)
    then (get_ai_suggestions env video_id data st).1 = Raise nul_error
         ∧ db (get_ai_suggestions env video_id data st).2 = db st
    else ∃ titles,
           (get_ai_suggestions env video_id data st).1 = Return titles
           ∧ length titles = 3%nat
           ∧ logs (db (get_ai_suggestions env video_id data st).2)
             = logs (db st)
               ++ [EventLog.mk (logs_id_seq (db st)) "AI_SUGGESTIONS_GENERATED"
                     ("video_id=" +:+ video_id +:+ " base_title='"
                      +:+ base_title env data +:+ "'")
                     (clock (db st))].
Proof.
  split; [by unfold base_title; intros ->|].
  split; [by unfold base_title; intros s ->|].
  unfold get_ai_suggestions. fold (base_title env data).
  destruct (generate_viral_titles_returns (base_title env data) st)
    as (titles & st1 & Hrun & Hlen & Hdb).
  unfold mbind, py_bind. rewrite Hrun. unfold bound. simpl.
  destruct (Text.has_nul video_id); simpl; [done|].
  destruct (Text.has_nul (base_title env data)); simpl; [done|].
  exists titles. by rewrite Hdb.
Qed.

End Completion.

(** X19, an instance: three candidates between pipes. *)
Lemma generate_viral_titles_first_three_witness :
  getenv (Mock.env (Some "gsk")) "GROQ_API_KEY" = Some "gsk"
  ∧ completion_text (Mock.chat "One | Two | Three")
    = Return (join "|" ["One "; " Two "; " Three"])
  ∧ Forall (λ p, contains "|" p = false) ["One "; " Two "; " Three"]
  ∧ (generate_viral_titles (Mock.env (Some "gsk")) "X"
       (Mock.start Mock.db1 Mock.world0)).1
    = Return ["One"; "Two"; "Three"].
Proof.
  assert (Forall (λ p, contains "|" p = false) ["One "; " Two "; " Three"]) as Hpieces
    by (repeat constructor).
  split; [reflexivity|]. split; [reflexivity|]. split; [exact Hpieces|].
  rewrite (generate_viral_titles_first_three (Mock.env (Some "gsk")) "X"
             "g"%char "sk" (Mock.chat "One | Two | Three") Mock.world0
             ["One "; " Two "; " Three"] (Mock.start Mock.db1 Mock.world0)
             eq_refl eq_refl eq_refl Hpieces (le_n 3)).
  reflexivity.
Defined.

(** X20, an instance: the completion service cannot be reached. *)
Lemma generate_viral_titles_failure_witness :
  getenv (Mock.env (Some "gsk")) "GROQ_API_KEY" = Some "gsk"
  ∧ ∃ text,
      (generate_viral_titles (Mock.env (Some "gsk")) "X"
         (Mock.start Mock.db1 Fixture.world_no_completion)).1
      = Return [ "Error: " +:+ text; "Check your GROQ_API_KEY in .env";
                 "Check server logs for details" ]
      ∧ (Text.len text ≤ 60)%nat.
Proof.
  split; [reflexivity|].
  destruct (generate_viral_titles_failure (Mock.env (Some "gsk")) "X"
              "g"%char "sk" (LibraryError "ConnectTimeout" "timed out")
              Fixture.world_no_completion
              (Mock.start Mock.db1 Fixture.world_no_completion)
              eq_refl (or_introl eq_refl))
    as (text & Hrun & Hlen & _).
  exists text. split; [by rewrite Hrun|exact Hlen].
Defined.

(** White space beyond ASCII around a candidate is stripped, and the error
    text is cut by code points: of seventy two-byte letters sixty are
    kept. *)
Example parse_titles_no_break_space :
  parse_titles ("One" +:+ Text.encode 160 +:+ "| Two | Three") = ["One"; "Two"; "Three"].
Proof. reflexivity. Qed.

Example error_titles_code_points :
  Text.len (Text.slice_to 60 Fixture.accents) = 60%nat
  ∧ String.length (Text.slice_to 60 Fixture.accents) = 120%nat
  ∧ Text.len Fixture.accents = 70%nat.
Proof. by vm_compute. Qed.

(** ** The connection URL *)

Lemma prefix_slice_from p s :
  String.prefix p s = true → s = p +:+ slice_from (String.length p) s.
Proof.
  revert s. induction p as [|a p IH]; intros s Hpre; [by destruct s|].
  destruct s as [|b s]; [done|]. cbn [String.prefix] in Hpre.
  destruct (ascii_dec a b) as [->|]; [|done].
  rewrite str_app_cons. cbn [String.length slice_from]. f_equal. by apply IH.
Qed.

(** X22. The engine is never created with the scheme [postgres://]: when
    [DATABASE_URL] is set and not empty, the URL used is the configured one
    with a leading [postgres://] replaced by [postgresql://] and what
    follows left as it is, or the configured one unchanged when it starts
    otherwise; when it is unset or empty the module raises [ValueError]. *)
Theorem database_url_scheme os_getenv :
  match os_getenv "DATABASE_URL" with
  | Some (String a u) =>
      ∃ url,
        database_url os_getenv = Return url
        ∧ Text.startswith url "postgres://" = false
        ∧ (∀ rest, String a u = "postgres://" +:+ rest → url = "postgresql://" +:+ rest)
        ∧ (Text.startswith (String a u) "postgres://" = false → url = String a u)
  | _ =>
      database_url os_getenv
      = Raise (ValueError "DATABASE_URL is missing from .env! Check your file.")
  end.
Proof.
  unfold database_url.
  destruct (os_getenv "DATABASE_URL") as [[|a u]|]; [done| |done].
  destruct (Text.startswith (String a u) "postgres://") eqn:Hpre.
  - unfold Text.startswith in Hpre.
    pose proof (prefix_slice_from _ _ Hpre) as Hurl.
    set (tail := slice_from (String.length "postgres://") (String a u)) in *.
    exists ("postgresql://" +:+ tail). split_and!.
    + f_equal. cbn [replace_first]. by rewrite Hpre.
    + reflexivity.
    + intros rest Hrest. rewrite Hrest in Hurl.
      f_equal. unfold tail. rewrite Hrest.
      reflexivity.
    + done.
  - exists (String a u). split_and!; try done.
    intros rest Hrest. unfold Text.startswith in Hpre.
    by rewrite Hrest, (prefix_app "postgres://" rest) in Hpre.
Qed.

Example database_url_heroku :
  database_url (Fixture.getenv_url (Some "postgres://u:p@host:5432/db"))
  = Return "postgresql://u:p@host:5432/db".
Proof. reflexivity. Qed.

(** ** Requests that fail *)

Section Atomic.
Context {W : Type}.

Lemma same_rows_refl d : same_rows d d.
Proof. by repeat split. Qed.

Lemma same_rows_trans d1 d2 d3 : same_rows d1 d2 → same_rows d2 d3 → same_rows d1 d3.
Proof. intros (?&?&?&?) (?&?&?&?). repeat split; congruence. Qed.

Lemma quiet_preserves {A} (m : py (W:=W) A) :
  (∀ d0, preserves (same_rows d0) m) → quiet m.
Proof. intros H st. apply H, same_rows_refl. Qed.

Lemma sure_ret {A} (a : A) : sure (W:=W) (mret a).
Proof. intros st. by eexists. Qed.

Lemma sure_query {A} (f : database → A) : sure (W:=W) (query f).
Proof. intros st. by eexists. Qed.

Lemma sure_commit f : sure (W:=W) (commit f).
Proof. intros st. by eexists. Qed.

Lemma sure_log_event action details : sure (W:=W) (log_event action details).
Proof. intros st. by eexists. Qed.

Lemma sure_bind {A B} (m : py (W:=W) A) (k : A → py B) :
  sure m → (∀ a, sure (k a)) → sure (m ≫= k).
Proof.
  intros Hm Hk st. unfold mbind, py_bind. destruct (Hm st) as [a Ha].
  destruct (m st) as [r st1]. simpl in Ha. subst r. apply Hk.
Qed.

Lemma atomic_raise {A} e : atomic (W:=W) (A:=A) (raise e).
Proof. intros st e' _. apply same_rows_refl. Qed.

Lemma atomic_sure {A} (m : py (W:=W) A) : sure m → atomic m.
Proof. intros Hm st e He. destruct (Hm st) as [a Ha]. congruence. Qed.

Lemma atomic_bind {A B} (m : py (W:=W) A) (k : A → py B) :
  quiet m → (∀ a, atomic (k a)) → atomic (m ≫= k).
Proof.
  intros Hm Hk st e. unfold mbind, py_bind. specialize (Hm st).
  destruct (m st) as [[a|e'] st1]; simpl in *; [|done].
  intros He. eapply same_rows_trans; [exact Hm|]. by eapply Hk.
Qed.

(** A write that the database may refuse, followed by steps that cannot
    fail: when it is refused no row was written. *)
Lemma atomic_commit_checked {A B} (f : database → result A * database)
    (k : A → py (W:=W) B) :
  (∀ d e, (f d).1 = Raise e → same_rows d (f d).2) →
  (∀ a, sure (k a)) →
  atomic (commit_checked f ≫= k).
Proof.
  intros Hf Hk st e. unfold mbind, py_bind, commit_checked.
  specialize (Hf (db st)). destruct (f (db st)) as [[a|e'] d]; simpl in *.
  - intros He. destruct (Hk a (mkstate d (world st) (calls st) (stdout st))) as [b Hb].
    congruence.
  - intros _. by eapply Hf.
Qed.

Lemma atomic_assoc {A B C} (m : py (W:=W) A) (g : A → py B) (k : B → py C) :
  atomic (m ≫= λ a, g a ≫= k) → atomic ((m ≫= g) ≫= k).
Proof.
  intros H st e. specialize (H st e). unfold mbind, py_bind in *.
  by destruct (m st) as [[a|e'] st1].
Qed.

End Atomic.

Ltac sure_step :=
  first
    [ apply sure_ret | apply sure_query | apply sure_commit | apply sure_log_event
    | apply sure_bind; [|intros ?]
    | match goal with
      | |- sure (match ?x with _ => _ end) => destruct x
      end ].

Ltac quiet_frame :=
  apply quiet_preserves; intros ?; repeat preserves_step.

Ltac refused_write :=
  intros ? ?;
  unfold add_user_session, add_comment_row, add_note_row;
  cbv zeta; repeat case_match; simpl; intros; simplify_eq/=; by repeat split.

Ltac atomic_step :=
  first
    [ apply atomic_raise
    | apply atomic_sure; solve [repeat sure_step]
    | apply atomic_commit_checked; [refused_write|intros ?; solve [repeat sure_step]]
    | apply atomic_bind; [solve [quiet_frame]|intros ?]
    | apply atomic_assoc
    | match goal with
      | |- atomic (match ?x with _ => _ end) => destruct x
      | |- atomic (mbind _ (match ?x with _ => _ end)) => destruct x
      end ].

Section FailedRequest.
Context {W : Type} (env : Env W).
Implicit Types (st : state W).

Lemma handlers_atomic req : atomic (run_handler env req).
Proof.
  assert (∀ A (m : py (W:=W) A), atomic m → atomic (m ≫= λ _, mret ())) as Hforget.
  { intros A m Hm st e. specialize (Hm st e). unfold mbind, py_bind.
    destruct (m st) as [[a|e'] st1]; simpl in *; [done|].
    intros [= ->]. by apply Hm. }
  destruct req; simpl; apply Hforget.
  - unfold auth_callback. repeat atomic_step.
  - unfold logout, get_token_from_header. repeat atomic_step.
  - unfold list_videos, list_my_videos, get_token_from_header, get_youtube_from_db,
      youtube_api_error.
    repeat atomic_step.
  - unfold get_video, fetch_video_details, get_token_from_header, get_youtube_from_db.
    repeat atomic_step.
  - unfold update_metadata, update_video_info, subscript, youtube_api_error,
      get_token_from_header, get_youtube_from_db.
    repeat atomic_step.
  - unfold get_ai_suggestions, generate_viral_titles. repeat atomic_step.
  - unfold get_comments, fetch_video_comments, youtube_api_error,
      get_token_from_header, get_youtube_from_db.
    repeat atomic_step.
  - unfold add_comment, insert_remote, post_comment, reply_to_comment, subscript,
      youtube_api_error, get_token_from_header, get_youtube_from_db.
    repeat atomic_step.
  - unfold remove_comment, delete_comment, youtube_api_error,
      get_token_from_header, get_youtube_from_db.
    repeat atomic_step.
  - unfold create_note. repeat atomic_step.
  - unfold update_note. repeat atomic_step.
  - unfold delete_note. repeat atomic_step.
Qed.

(** X23. A request whose handler raises has written no row, and so has
    every request that ends in an error other than the refusal of the
    response by its model: the notes, the audit events, the sessions and
    the mirrored comments on file are those from before the request.  (The
    refusal of a response comes after the handler has returned and
    committed.) *)
Theorem failed_request_writes_no_row req st e :
  (run_request env req st).1 = Raise e →
  e ≠ response_validation_error →
  (run_handler env req st).1 = Raise e
  ∧ notes (db (serve env req st)) = notes (db st)
  ∧ logs (db (serve env req st)) = logs (db st)
  ∧ user_sessions (db (serve env req st)) = user_sessions (db st)
  ∧ comments (db (serve env req st)) = comments (db st).
Proof.
  intros He Hne.
  assert ((run_handler env req st).1 = Raise e) as Hh.
  { destruct (run_request_handler env req st) as [_ [<-|[_ Hv]]]; [done|].
    rewrite He in Hv. by injection Hv. }
  split; [exact Hh|].
  rewrite <- run_handler_serve. exact (handlers_atomic req st e Hh).
Qed.

End FailedRequest.

(** X23, an instance: a comment is posted during an outage of the
    platform. *)
Lemma failed_request_writes_no_row_witness :
  (run_request (Mock.env None)
     (POST_comment "v1" (mkCommentCreate "hello" None) Mock.bearer)
     (Mock.start Mock.db2 Mock.world_down)).1
  = Raise (HTTPException 400
             ("YouTube API error: " +:+ str (Mock.HttpError "503 backendError")))
  ∧ HTTPException 400
      ("YouTube API error: " +:+ str (Mock.HttpError "503 backendError"))
    ≠ response_validation_error
  ∧ comments (db (serve (Mock.env None)
                    (POST_comment "v1" (mkCommentCreate "hello" None) Mock.bearer)
                    (Mock.start Mock.db2 Mock.world_down)))
    = [Mock.comment1]
  ∧ logs (db (serve (Mock.env None)
                (POST_comment "v1" (mkCommentCreate "hello" None) Mock.bearer)
                (Mock.start Mock.db2 Mock.world_down)))
    = [].
Proof.
  assert ((run_request (Mock.env None)
             (POST_comment "v1" (mkCommentCreate "hello" None) Mock.bearer)
             (Mock.start Mock.db2 Mock.world_down)).1
          = Raise (HTTPException 400
                     ("YouTube API error: "
                      +:+ str (Mock.HttpError "503 backendError")))) as Hfail
    by reflexivity.
  assert (HTTPException 400
            ("YouTube API error: " +:+ str (Mock.HttpError "503 backendError"))
          ≠ response_validation_error) as Hne by discriminate.
  split; [exact Hfail|]. split; [exact Hne|].
  destruct (failed_request_writes_no_row (Mock.env None) _ _ _ Hfail Hne)
    as (_ & _ & Hlogs & _ & Hcomments).
  split; [exact Hcomments|exact Hlogs].
Defined.

(** ** Logout ends the session *)

Lemma filter_other_key {A K} `{EqDecision K} (f : A → K) (k other : K) (l : list A) :
  other ≠ k →
  filter (λ x, f x = other) (filter (λ x, f x ≠ k) l) = filter (λ x, f x = other) l.
Proof.
  intros Hne. induction l as [|x l IH]; [done|].
  destruct (decide (f x = k)) as [Hk|Hk].
  - rewrite (filter_cons_False (λ x, f x ≠ k)) by naive_solver.
    rewrite (filter_cons_False (λ x, f x = other)) by congruence. done.
  - rewrite (filter_cons_True (λ x, f x ≠ k)) by done.
    rewrite !(filter_cons (λ x, f x = other)). by rewrite IH.
Qed.

Section LogoutEndsSession.
Context {W : Type} (env : Env W).
Implicit Types (st : state W).

(** X24. A session that was logged out cannot be used again: after a
    logout that was answered normally, resolving the same header fails with
    401, so every protected route refuses it, while the sessions of the
    other tokens are found as before. *)
Theorem logout_ends_session authorization st token :
  (get_token_from_header authorization st).1 = Return token →
  (logout env authorization st).1 = Return "Logged out successfully." →
  resolve_session env authorization (logout env authorization st).2
  = Raise (HTTPException 401 "Session not found. Please log in again via /login.")
  ∧ ∀ other, other ≠ token →
      session_by_token other (db (logout env authorization st).2)
      = session_by_token other (db st).
Proof.
  intros Htok Hout.
  assert (user_sessions (db (logout env authorization st).2)
          = filter (λ s, UserSession.access_token s ≠ token) (user_sessions (db st)))
    as Hrows.
  { revert Hout. unfold logout, mbind, py_bind.
    pose proof (get_token_from_header_frame authorization st) as Hfr.
    destruct (get_token_from_header authorization st) as [r0 st0].
    simpl in Htok, Hfr. subst r0 st0.
    unfold execute, commit, log_event, mret, py_ret.
    by destruct (requests_post env _ _ (world st)) as [[status_code|e] w]. }
  split.
  - assert (∀ st', (get_token_from_header authorization st').1 = Return token) as Htok'.
    { intros st'. revert Htok. unfold get_token_from_header.
      destruct authorization as [[|a h]|]; try done.
      destruct (Text.startswith _ _); [|done]. by destruct (_ !! _). }
    unfold resolve_session, mbind, py_bind.
    pose proof (get_token_from_header_frame authorization
                  (logout env authorization st).2) as Hfr.
    specialize (Htok' (logout env authorization st).2).
    destruct (get_token_from_header authorization (logout env authorization st).2)
      as [r0 st0].
    simpl in Htok', Hfr. subst r0 st0.
    unfold get_youtube_from_db, query, mbind, py_bind.
    assert (session_by_token token (db (logout env authorization st).2) = None) as ->;
      [|done].
    apply session_by_token_None. unfold session_tokens. rewrite Hrows.
    intros (s & Hs & Hin)%list_elem_of_fmap.
    by apply list_elem_of_filter in Hin as [Hne _].
  - intros other Hother. unfold session_by_token. rewrite Hrows.
    by rewrite filter_other_key.
Qed.

End LogoutEndsSession.

(** X24, an instance: the session of the reference database is logged
    out. *)
Lemma logout_ends_session_witness :
  (get_token_from_header Mock.bearer (Mock.start Mock.db1 Mock.world0)).1 = Return "tok"
  ∧ (logout (Mock.env None) Mock.bearer (Mock.start Mock.db1 Mock.world0)).1
    = Return "Logged out successfully."
  ∧ resolve_session (Mock.env None) Mock.bearer
      (logout (Mock.env None) Mock.bearer (Mock.start Mock.db1 Mock.world0)).2
    = Raise (HTTPException 401 "Session not found. Please log in again via /login.").
Proof.
  split; [reflexivity|]. split; [reflexivity|].
  apply (logout_ends_session (Mock.env None) Mock.bearer
           (Mock.start Mock.db1 Mock.world0) "tok" eq_refl eq_refl).
Defined.

(** ** The errors of the routes *)

Section RaisesOnly.
Context {W : Type} (P : exn → Prop).

Lemma raises_only_ret {A} (a : A) : raises_only (W:=W) P (mret a).
Proof. by intros st e. Qed.

Lemma raises_only_query {A} (f : database → A) : raises_only (W:=W) P (query f).
Proof. by intros st e. Qed.

Lemma raises_only_commit f : raises_only (W:=W) P (commit f).
Proof. by intros st e. Qed.

Lemma raises_only_log_event action details :
  raises_only (W:=W) P (log_event action details).
Proof. by intros st e. Qed.

Lemma raises_only_print line : raises_only (W:=W) P (print line).
Proof. by intros st e. Qed.

Lemma raises_only_raise {A} e : P e → raises_only (W:=W) (A:=A) P (raise e).
Proof. by intros He st e' [= <-]. Qed.

Lemma raises_only_bound params : P nul_error → raises_only (W:=W) P (bound params).
Proof.
  intros He st e'. unfold bound. destruct (forallb _ _); [done|]. by intros [= <-].
Qed.

Lemma raises_only_lift {A} (r : result A) :
  (∀ e, r = Raise e → P e) → raises_only (W:=W) P (lift r).
Proof. intros Hr st e. apply Hr. Qed.

Lemma raises_only_commit_checked {A} (f : database → result A * database) :
  (∀ d e, (f d).1 = Raise e → P e) → raises_only (W:=W) P (commit_checked f).
Proof.
  intros Hf st e. unfold commit_checked. specialize (Hf (db st) e).
  by destruct (f (db st)).
Qed.

Lemma raises_only_bind {A B} (m : py (W:=W) A) (k : A → py B) :
  raises_only P m → (∀ a, raises_only P (k a)) → raises_only P (m ≫= k).
Proof.
  intros Hm Hk st e. unfold mbind, py_bind. specialize (Hm st).
  destruct (m st) as [[a|e'] st1]; simpl in *; [apply Hk|].
  intros [= ->]. by apply Hm.
Qed.

(** Whatever the body raises, only the errors of the handler leave a
    [try] block. *)
Lemma raises_only_try_except {A} (body : py (W:=W) A) handler :
  (∀ e, raises_only P (handler e)) → raises_only P (try_except body handler).
Proof.
  intros Hh st e. unfold try_except.
  destruct (body st) as [[a|e'] st1]; simpl; [done|apply Hh].
Qed.

End RaisesOnly.

(** A header is refused with 401 and with nothing else. *)
Lemma get_token_from_header_raises {W} (P : exn → Prop) authorization :
  (∀ detail, P (HTTPException 401 detail)) →
  raises_only (W:=W) P (get_token_from_header authorization).
Proof.
  intros HP st e. unfold get_token_from_header.
  destruct authorization as [[|a h]|]; try (by intros [= <-]).
  destruct (Text.startswith (String a h) "Bearer ") eqn:Hpre; [|by intros [= <-]].
  by destruct (split_after_prefix _ _ Hpre) as [t ->].
Qed.

Ltac declared_error :=
  first
    [ reflexivity
    | solve [ eexists _, _; split; [reflexivity|];
              repeat first [apply list_elem_of_here | apply list_elem_of_further] ]
    | left; declared_error
    | right; declared_error ].

Ltac raises_step :=
  first
    [ apply raises_only_ret | apply raises_only_query | apply raises_only_commit
    | apply raises_only_log_event | apply raises_only_print
    | apply raises_only_raise; solve [declared_error]
    | apply raises_only_bound; solve [declared_error]
    | apply raises_only_lift; intros ? ?;
      unfold refreshed_response, note_response, comment_response in *;
      repeat case_match; simplify_eq; solve [declared_error]
    | apply raises_only_commit_checked; intros ? ?;
      unfold add_comment_row; cbv zeta; repeat case_match; simpl; intros;
      simplify_eq; solve [declared_error]
    | apply get_token_from_header_raises; intros ?; solve [declared_error]
    | apply raises_only_try_except; intros ?; unfold youtube_api_error
    | apply raises_only_bind; [|intros ?]
    | match goal with
      | |- raises_only _ (match ?x with _ => _ end) => destruct x
      end ].

Section DeclaredErrors.
Context {W : Type} (env : Env W).
Implicit Types (st : state W).

(** X25. The errors of the routes, whatever the platform does.  Listing the
    videos ends, when it fails, in an [HTTPException] with status 400 or
    401, and deleting a comment in one with status 400, 401 or 404.
    Updating the metadata and listing the comments fail with status 400 or
    401 or with the driver's refusal of a NUL character; posting a comment
    with these or with the violation of the unique constraint.  Deleting a
    note fails only with 404; updating one with 404, with the driver's
    refusal, or with the refusal of the response by its model; creating a
    note and asking for title suggestions fail only with the driver's
    refusal. *)
Theorem declared_errors req st e :
  (run_request env req st).1 = Raise e →
  match req with
  | GET_videos _ => http_error [400; 401] e
  | PUT_metadata _ _ _ | GET_comments _ _ => http_error [400; 401] e ∨ e = nul_error
  | POST_comment _ _ _ =>
      http_error [400; 401] e ∨ e = nul_error
      ∨ e = IntegrityError "comments_youtube_comment_id_key"
  | DELETE_comment _ _ => http_error [400; 401; 404] e
  | PUT_note _ _ =>
      e = HTTPException 404 "Note not found." ∨ e = nul_error
      ∨ e = response_validation_error
  | DELETE_note _ => e = HTTPException 404 "Note not found."
  | POST_note _ _ | POST_suggestions _ _ => e = nul_error
  | GET_auth_callback _ | POST_logout _ | GET_video _ _ => True
  end.
Proof.
  assert (∀ (P : exn → Prop) (m : py (W:=W) ()),
            raises_only P m → (m st).1 = Raise e → P e) as Hrun
    by (intros P m Hm; apply Hm).
  destruct req; try done.
  - apply (Hrun (http_error [400; 401])). simpl.
    unfold list_videos, get_youtube_from_db.
    repeat raises_step.
  - apply (Hrun (λ e, http_error [400; 401] e ∨ e = nul_error)). simpl.
    unfold update_metadata, get_youtube_from_db.
    repeat raises_step.
  - apply (Hrun (λ e, e = nul_error)). simpl.
    unfold get_ai_suggestions, generate_viral_titles. repeat raises_step.
  - apply (Hrun (λ e, http_error [400; 401] e ∨ e = nul_error)). simpl.
    unfold get_comments, get_youtube_from_db.
    repeat raises_step.
  - apply (Hrun (λ e, http_error [400; 401] e ∨ e = nul_error
                      ∨ e = IntegrityError "comments_youtube_comment_id_key")).
    cbn [run_request]. unfold respond, add_comment, get_youtube_from_db.
    repeat raises_step.
  - apply (Hrun (http_error [400; 401; 404])). simpl.
    unfold remove_comment, get_youtube_from_db.
    repeat raises_step.
  - clear Hrun. cbn [run_request].
    unfold respond, create_note, bound, add_note_row. py_unfold.
    destruct (forallb _ _); simpl; [done|]. by intros [= <-].
  - apply (Hrun (λ e, e = HTTPException 404 "Note not found." ∨ e = nul_error
                      ∨ e = response_validation_error)).
    cbn [run_request]. unfold respond, update_note. repeat raises_step.
  - apply (Hrun (λ e, e = HTTPException 404 "Note not found.")). simpl.
    unfold delete_note. repeat raises_step.
Qed.

End DeclaredErrors.

(** X25, an instance: the comments are listed during an outage of the
    platform. *)
Lemma declared_errors_witness :
  (run_request (Mock.env None) (GET_comments "v1" Mock.bearer)
     (Mock.start Mock.db2 Mock.world_down)).1
  = Raise (HTTPException 400
             ("YouTube API error: " +:+ str (Mock.HttpError "503 backendError")))
  ∧ (http_error [400; 401]
       (HTTPException 400
          ("YouTube API error: " +:+ str (Mock.HttpError "503 backendError")))
     ∨ HTTPException 400
         ("YouTube API error: " +:+ str (Mock.HttpError "503 backendError"))
       = nul_error).
Proof.
  split; [reflexivity|].
  apply (declared_errors (Mock.env None) (GET_comments "v1" Mock.bearer)
           (Mock.start Mock.db2 Mock.world_down)).
  reflexivity.
Defined.

(** The title of a note with NULL tags is updated: the handler returns
    after its commits, the response model refuses the note, and the route
    answers 500 with the new title and the audit event on file. *)
Example update_note_null_tags :
  (update_note 3 (mkNoteUpdate (Some "t") None None)
     (Mock.start Mock.db3 Mock.world0)).1
  = Return (Some (Note.mk 3 "v1" (Some "t") None None 9 (Some 100)))
  ∧ (run_request (Mock.env None) (PUT_note 3 (mkNoteUpdate (Some "t") None None))
       (Mock.start Mock.db3 Mock.world0)).1
    = Raise response_validation_error
  ∧ EventLog.action <$>
      logs (db (serve (Mock.env None) (PUT_note 3 (mkNoteUpdate (Some "t") None None))
                  (Mock.start Mock.db3 Mock.world0)))
    = ["NOTE_UPDATED"].
Proof. by vm_compute. Qed.
